(** * Convoso agent automation: a shallow embedding and its properties

    The development follows the JavaScript sources of the repository:

    - [Js]: the few JavaScript notions the code relies on (values,
      truthiness, strict equality, string helpers; strings are sequences
      of code units, of which the model has those below 256);
    - [CallLogMerger]: phone normalisation of the CSV merger;
    - [ConvosoAPI]: the REST client (cookie jar, session identifiers);
    - [ConvosoAgent]: the polling agent and its loop;
    - [PuppeteerAgent], [PreviousPuppeteerAgent]: the two browser agents;
    - [Application]: signal handlers and shutdown.

    Definitions come first, the theorems about them follow. *)

From Stdlib Require Import ZArith List String Ascii Bool Lia DecimalString.
From stdpp Require Import gmap strings list fin_maps.
From Equations Require Import Equations.
Import ListNotations.

Local Open Scope Z_scope.
Local Open Scope string_scope.
Local Open Scope list_scope.

(* ===================================================================== *)
(** * JavaScript values and strings *)
(* ===================================================================== *)

Module Js.

(** The values that flow through the modelled code. Numbers are the
    integers the platform sends (identifiers, counters, states). *)
Inductive jsval : Type :=
| JUndefined
| JNull
| JBool (b : bool)
| JNum (n : Z)
| JStr (s : string).

#[global] Instance jsval_eq_dec : EqDecision jsval.
Proof. solve_decision. Defined.

(** [if (v)], [!v], [a || b], [a && b] *)
Definition truthy (v : jsval) : bool :=
  match v with
  | JUndefined | JNull => false
  | JBool b => b
  | JNum n => negb (Z.eqb n 0)
  | JStr s => negb (String.eqb s "")
  end.

Definition js_or (a b : jsval) : jsval := if truthy a then a else b.

(** [a === b] *)
Definition strict_eq (a b : jsval) : bool := bool_decide (a = b).

(** A string is the sequence of its code units, and the model has the
    code units below 256: a character [c] stands for the code unit
    [nat_of_ascii c], so that ["160"%char] is U+00A0.

    [is_digit] is the complement of the regular expression class [\D]
    (the digits 0 to 9 only). [is_space] is what [String.prototype.trim]
    strips: the white space and line terminators of the language, of
    which the code units below 256 have tab, line feed, vertical tab, form
    feed, carriage return, space and the no-break space U+00A0. *)
Definition is_digit (c : ascii) : bool :=
  let n := nat_of_ascii c in (48 <=? n)%nat && (n <=? 57)%nat.

Definition is_space (c : ascii) : bool :=
  let n := nat_of_ascii c in
  ((9 <=? n)%nat && (n <=? 13)%nat) || (n =? 32)%nat || (n =? 160)%nat.

Fixpoint trimStart (s : string) : string :=
  match s with
  | EmptyString => EmptyString
  | String c r => if is_space c then trimStart r else s
  end.

Fixpoint trimEnd (s : string) : string :=
  match s with
  | EmptyString => EmptyString
  | String c r =>
      let r' := trimEnd r in
      if is_space c && String.eqb r' "" then EmptyString else String c r'
  end.

Definition trim (s : string) : string := trimEnd (trimStart s).

(** [s.startsWith(p)] *)
Definition startsWith (s p : string) : bool := String.prefix p s.

(** [s.substring(n)] *)
Fixpoint substring_from (n : nat) (s : string) : string :=
  match n, s with
  | O, _ => s
  | S n', String _ r => substring_from n' r
  | S _, EmptyString => EmptyString
  end.

(** [s.replace(/\D/g, '')] *)
Fixpoint remove_non_digits (s : string) : string :=
  match s with
  | EmptyString => EmptyString
  | String c r =>
      if is_digit c then String c (remove_non_digits r) else remove_non_digits r
  end.

(** Strings of digits, and strings without white space. *)
Fixpoint all_digits (s : string) : bool :=
  match s with
  | EmptyString => true
  | String c r => is_digit c && all_digits r
  end.

Fixpoint no_space (s : string) : bool :=
  match s with
  | EmptyString => true
  | String c r => negb (is_space c) && no_space r
  end.

(** [s.split(sep)] for a one-character separator: the pieces between the
    separators, never an empty array. *)
Fixpoint split (sep : ascii) (s : string) : list string :=
  match s with
  | EmptyString => [EmptyString]
  | String c r =>
      if Ascii.eqb c sep then EmptyString :: split sep r
      else match split sep r with
           | [] => [String c EmptyString]
           | p :: ps => String c p :: ps
           end
  end.

(** [s.includes(sub)] *)
Fixpoint includes (s sub : string) : bool :=
  String.prefix sub s ||
  match s with
  | EmptyString => false
  | String _ r => includes r sub
  end.

(** Decimal rendering of an integer inside a template string. *)
Definition decimal (n : Z) : string := NilZero.string_of_int (Z.to_int n).

(** [arr[i]] on an array of strings: [undefined] out of range. *)
Definition index (l : list string) (i : nat) : jsval :=
  match nth_error l i with
  | Some s => JStr s
  | None => JUndefined
  end.

(** The double quote and the line feed. *)
Definition dquote : ascii := "034"%char.
Definition newline : ascii := "010"%char.

(** [arr.join(sep)] *)
Definition join (sep : string) (l : list string) : string := String.concat sep l.

(** [a > b] on strings: the order of the code units. *)
Definition gt_string (a b : string) : bool := String.ltb b a.

(** A field printed inside a string: [undefined] when absent. *)
Definition show (field : option string) : string := default "undefined" field.

(** Membership of a character. *)
Fixpoint has_char (c : ascii) (s : string) : bool :=
  match s with
  | EmptyString => false
  | String c' r => Ascii.eqb c' c || has_char c r
  end.

End Js.

Import Js.

(* ===================================================================== *)
(** * CallLogMerger (CSV merge script) *)
(* ===================================================================== *)

Module CallLogMerger.

(** [normalizePhone(phone)]; [None] stands for an absent field
    ([undefined] or [null]). *)
Definition normalizePhone (phone : option string) : string :=
  match phone with
  | None => ""
  | Some p =>
      if String.eqb p "" then ""
      else
        let normalized := trim p in
        let normalized :=
          if startsWith normalized "+7"
          then ("+1" ++ substring_from 2 normalized)%string
          else normalized in
        if startsWith normalized "+"
        then ("+" ++ remove_non_digits (substring_from 1 normalized))%string
        else
          let normalized := remove_non_digits normalized in
          if (String.length normalized =? 10)%nat
          then ("+1" ++ normalized)%string
          else if (String.length normalized =? 11)%nat && startsWith normalized "1"
          then ("+" ++ normalized)%string
          else normalized
  end.

(** A parsed CSV row is an object from header to value, a
    [gmap string string]; a header the file does not have reads
    [undefined] ([None]). *)

(** The character loop of [parseCSV] over what is left of a line:
    [current], [inQuotes] and [values] are its three variables, and the
    last field is pushed when the line ends. *)
Fixpoint scanLine (line current : string) (inQuotes : bool) (values : list string)
  : list string :=
  match line with
  | EmptyString => values ++ [trim current]
  | String char rest =>
      if Ascii.eqb char dquote then scanLine rest current (negb inQuotes) values
      else if Ascii.eqb char "," && negb inQuotes
      then scanLine rest "" inQuotes (values ++ [trim current])
      else scanLine rest (current ++ String char "")%string inQuotes values
  end.

Definition parseLine (line : string) : list string := scanLine line "" false [].

(** [headers.forEach((header, idx) => { row[header] = values[idx] || '' })] *)
Fixpoint makeRow (headers : list string) (idx : nat) (values : list string)
    (row : gmap string string) : gmap string string :=
  match headers with
  | [] => row
  | header :: headers' =>
      makeRow headers' (S idx) values (<[header := nth idx values ""]> row)
  end.

(** The rows of the lines after the header line; lines that are empty
    once trimmed are skipped. *)
Fixpoint parseRows (headers : list string) (lines : list string) : list (gmap string string) :=
  match lines with
  | [] => []
  | l :: lines' =>
      let line := trim l in
      if String.eqb line "" then parseRows headers lines'
      else makeRow headers 0 (parseLine line) ∅ :: parseRows headers lines'
  end.

(** [parseCSV(filepath)], on the content of the file. *)
Definition parseCSV (content : string) : list string * list (gmap string string) :=
  match split newline (trim content) with
  | [] => ([], [])
  | first :: lines =>
      let headers := map trim (split "," first) in
      (headers, parseRows headers lines)
  end.

(** The entries of the spam lookup. *)
Record SpamData : Type := {
  label : option string;
  date : option string;
  time : option string;
  timestamp : string
}.

(** [row.Date + ' ' + row.Time] *)
Definition timestampOf (row : gmap string string) : string :=
  (show (row !! "Date") ++ " " ++ show (row !! "Time"))%string.

Definition spamDataOf (row : gmap string string) : SpamData :=
  {| label := row !! "Label"; date := row !! "Date"; time := row !! "Time";
     timestamp := timestampOf row |}.

(** The body of the [forEach] of [createSpamLookup]. *)
Definition addSpamRow (lookup : gmap string SpamData) (row : gmap string string)
  : gmap string SpamData :=
  let phone := normalizePhone (row !! "Number") in
  if negb (String.eqb phone "") then
    match lookup !! phone with
    | None => <[phone := spamDataOf row]> lookup
    | Some known =>
        if gt_string (timestampOf row) (timestamp known)
        then <[phone := spamDataOf row]> lookup
        else lookup
    end
  else lookup.

(** [createSpamLookup(spamRows)] *)
Definition createSpamLookup (spamRows : list (gmap string string)) : gmap string SpamData :=
  fold_left addSpamRow spamRows ∅.

(** The [for] over [phoneFields] in [mergeLogs]: the first field whose
    normalised number is a key of the lookup. *)
Fixpoint findSpam (spamLookup : gmap string SpamData) (phoneFields : list (option string))
  : option (string * SpamData) :=
  match phoneFields with
  | [] => None
  | phoneField :: rest =>
      let normalizedPhone := normalizePhone phoneField in
      if negb (String.eqb normalizedPhone "") then
        match spamLookup !! normalizedPhone with
        | Some spamData => Some (normalizedPhone, spamData)
        | None => findSpam spamLookup rest
        end
      else findSpam spamLookup rest
  end.

Definition phoneFields (call : gmap string string) : list (option string) :=
  [call !! "caller_id_displayed"; call !! "phone_number"; call !! "number_dialed"].

(** A merged row, a [gmap string (option string)]: the fields of the call
    and the four added ones, whose value may be [undefined] ([Some None])
    when the spam file lacks the column. *)

(** The callback of the [map] of [mergeLogs]. *)
Definition mergeRow (spamLookup : gmap string SpamData) (call : gmap string string) : gmap string (option string) :=
  match findSpam spamLookup (phoneFields call) with
  | Some (matchedPhone, spamData) =>
      <["matched_phone" := Some matchedPhone]>
        (<["spam_detected_time" := time spamData]>
           (<["spam_detected_date" := date spamData]>
              (<["spam_label" := label spamData]> (Some <$> call))))
  | None =>
      <["matched_phone" := Some ""]>
        (<["spam_detected_time" := Some ""]>
           (<["spam_detected_date" := Some ""]>
              (<["spam_label" := Some "No Label"]> (Some <$> call))))
  end.

(** [mergeLogs(convosoRows, spamLookup)] *)
Definition mergeLogs (convosoRows : list (gmap string string)) (spamLookup : gmap string SpamData)
  : list (gmap string (option string)) :=
  map (mergeRow spamLookup) convosoRows.

(** [value.replace] of every double quote by two of them. *)
Fixpoint double_quotes (s : string) : string :=
  match s with
  | EmptyString => EmptyString
  | String c r =>
      if Ascii.eqb c dquote then String dquote (String dquote (double_quotes r))
      else String c (double_quotes r)
  end.

(** One value as [toCSV] writes it. *)
Definition csvField (value : string) : string :=
  if includes value "," || includes value (String dquote "") ||
     includes value (String newline "")
  then String dquote (double_quotes value ++ String dquote "")%string
  else value.

(** [row[header] || ''] *)
Definition fieldOf (row : gmap string (option string)) (header : string) : string :=
  match row !! header with
  | Some (Some value) => value
  | _ => ""
  end.

(** [toCSV(headers, rows)] *)
Definition toCSV (headers : list string) (rows : list (gmap string (option string))) : string :=
  join (String newline "")
    (join "," headers ::
     map (fun row => join "," (map (fun header => csvField (fieldOf row header)) headers))
       rows).

(** The four columns [merge] adds. *)
Definition addedHeaders : list string :=
  ["spam_label"; "spam_detected_date"; "spam_detected_time"; "matched_phone"].

(** [merge(convosoFile, spamFile, outputFile)] on the contents of the two
    files: the content written to the output file. *)
Definition merge (convoso spam : string) : string :=
  let (convosoHeaders, convosoRows) := parseCSV convoso in
  let (_, spamRows) := parseCSV spam in
  let spamLookup := createSpamLookup spamRows in
  let mergedRows := mergeLogs convosoRows spamLookup in
  toCSV (convosoHeaders ++ addedHeaders) mergedRows.

(** Sample files. *)
Definition sample_calls_csv : string :=
  ("id,phone_number,status" ++ String newline
   ("1,(555) 123-4567,NOCONT" ++ String newline "2,5550000000,NOCONT"))%string.

Definition sample_spam_csv : string :=
  ("Number,Label,Date,Time" ++ String newline
   ("+15551234567,Spam Likely,2025-01-02,10:00:00" ++ String newline
    "15551234567,Clean,2025-01-01,09:00:00"))%string.

End CallLogMerger.


(* ===================================================================== *)
(** * Configuration (config/config.js) *)
(* ===================================================================== *)

Record Config : Type := {
  username : string;
  password : string;
  trustedDeviceCookie : string;
  campaignId : string;
  campaignName : string;
  campaignDialMethod : string;
  callDuration : Z;
  pollInterval : Z;
  maxCalls : Z;
  availabilityReady : string;
  availabilityNotReady : string;
  dispositionStatus : string;
  logoutCode : string
}.

(** [cfg] with another call budget. *)
Definition with_maxCalls (n : Z) (cfg : Config) : Config :=
  {| username := username cfg; password := password cfg;
     trustedDeviceCookie := trustedDeviceCookie cfg;
     campaignId := campaignId cfg; campaignName := campaignName cfg;
     campaignDialMethod := campaignDialMethod cfg;
     callDuration := callDuration cfg; pollInterval := pollInterval cfg;
     maxCalls := n;
     availabilityReady := availabilityReady cfg;
     availabilityNotReady := availabilityNotReady cfg;
     dispositionStatus := dispositionStatus cfg; logoutCode := logoutCode cfg |}.

(** The defaults of config.js, with sample values for the three required
    environment variables. *)
Definition sample_config : Config :=
  {| username := "agent"; password := "secret"; trustedDeviceCookie := "";
     campaignId := "1001"; campaignName := "Default Campaign";
     campaignDialMethod := "RATIO"; callDuration := 15000;
     pollInterval := 2000; maxCalls := 0;
     availabilityReady := "2"; availabilityNotReady := "1066";
     dispositionStatus := "NOCONT"; logoutCode := "20" |}.

(* ===================================================================== *)
(** * Effects: exceptions, the recorded trace, and the monad *)
(* ===================================================================== *)

(** Lead information as the platform reports it ([leadInfo], [info]). *)
Record CallInfo : Type := {
  lead_id : jsval;
  call_log_id : jsval;
  phone_code : jsval;
  phone_number : jsval;
  first_name : jsval;
  last_name : jsval
}.

(** Thrown values: errors raised by axios (no response, or a status the
    [validateStatus] callback rejects), [new Error(msg)], a [TypeError]
    from a property access on [undefined], and failures of the driven
    browser page. *)
Inductive Err : Type :=
| AxiosNoResponse (msg : string)
| AxiosStatus (status : Z)
| Error (msg : string)
| TypeError (msg : string)
| PageError (msg : string).

(** [error.message] *)
Definition message (e : Err) : string :=
  match e with
  | AxiosNoResponse m => m
  | AxiosStatus n => ("Request failed with status code " ++ decimal n)%string
  | Error m => m
  | TypeError m => m
  | PageError m => m
  end.

(** Request bodies sent to the platform, one constructor per endpoint.
    The random [uid] of a request is left out. [ReqFollow location] is a
    request the code does not make itself: the GET by which axios follows
    a redirect, to the target of [location] resolved against the address
    of the request before it. *)
Inductive Request : Type :=
| ReqLogin (user pass : string)
| ReqGet (url : string)
| ReqFollow (location : string)
| ReqPhoneLogin (campaign name dial_method : string)
| ReqResume (campaign : string) (session_id agent_log_id : jsval)
| ReqAvailabilityChange (campaign : string) (campaign_uid : string)
    (availability : string)
| ReqCheckAutoIncoming (campaign_uid dial_method : string)
    (agent_log_id session_id : jsval)
| ReqHangup (campaign : string) (session_id agent_log_id : jsval)
    (call_time : Z) (lead_info : CallInfo)
| ReqLeadDisposition (campaign : string) (lead : jsval) (status : string)
    (agent_log_id : jsval) (phone_code phone_number : jsval) (user_id : jsval)
| ReqPhoneLogout (logout_code campaign : string)
    (agent_log_id session_id : jsval).

(** Scripts evaluated in the driven page, and the controls they click. *)
Inductive PageStep : Type :=
| DetectCall | ReadPhoneState
| FindWrapup | FindWrapupRetry | FindWrapupModal
| ReadSessionInfo | ReadCookies
| FindDisposition | OpenDispositionPanel | FindDispositionInPanel
| OpenStatusDropdown | PickNotReadyBreak
| SetNotReadyViaScope | LogoutViaScope.

Inductive Button : Type :=
| BtnWrapup | BtnDispositionStatus | BtnDispositionPanel
| BtnStatus | BtnNotReadyBreak.

(** What a run leaves behind, in order: requests (with the jar from which
    the Cookie header of their axios instance was built), page scripts,
    clicks, timed waits, the warnings and errors of the logger (informational
    lines are not recorded), the clock readings of a bounded wait
    ([Elapsed], milliseconds since the wait began), and markers for the
    entry into [handleCall], [setDispositionViaAPI] and [stop]. *)
Inductive Action : Type :=
| Http (jar : gmap string jsval) (r : Request)
| Page (p : PageStep)
| Click (b : Button)
| Sleep (ms : Z)
| Warn (msg : string)
| LogError (msg : string) (e : option Err)
| Elapsed (ms : Z)
| HandleCallStart (c : option CallInfo)
| ViaAPI (c : CallInfo)
| StopStart
| CloseBrowser
| ProcessExit (code : Z).

Inductive outcome (A : Type) : Type :=
| Ret (a : A)
| Throw (e : Err).
Arguments Ret {A} a.
Arguments Throw {A} e.

(** A computation over a mutable object of type [S]: it returns or throws,
    leaves the object in a new state either way, and appends to the trace. *)
Definition M (S A : Type) : Type := S -> outcome A * S * list Action.

Definition ret {S A} (a : A) : M S A := fun s => (Ret a, s, []).

Definition throw {S A} (e : Err) : M S A := fun s => (Throw e, s, []).

Definition bind {S A B} (m : M S A) (f : A -> M S B) : M S B :=
  fun s =>
    match m s with
    | (Ret a, s1, t1) =>
        match f a s1 with
        | (o, s2, t2) => (o, s2, t1 ++ t2)
        end
    | (Throw e, s1, t1) => (Throw e, s1, t1)
    end.

(** [try { m } catch (e) { h e }] *)
Definition try_catch {S A} (m : M S A) (h : Err -> M S A) : M S A :=
  fun s =>
    match m s with
    | (Ret a, s1, t1) => (Ret a, s1, t1)
    | (Throw e, s1, t1) =>
        match h e s1 with
        | (o, s2, t2) => (o, s2, t1 ++ t2)
        end
    end.

Definition get {S} : M S S := fun s => (Ret s, s, []).
Definition modify {S} (f : S -> S) : M S unit := fun s => (Ret tt, f s, []).
Definition emit {S} (a : Action) : M S unit := fun s => (Ret tt, s, [a]).
Definition of_outcome {S A} (o : outcome A) : M S A := fun s => (o, s, []).

(** Running a computation on a component of the state. *)
Definition zoom {S T A} (proj : S -> T) (upd : T -> S -> S) (m : M T A) : M S A :=
  fun s =>
    match m (proj s) with
    | (o, t, tr) => (o, upd t s, tr)
    end.

Declare Scope js_scope.
Delimit Scope js_scope with js.
Notation "x <- m ;; k" := (bind m (fun x => k))
  (at level 20, m at level 99, k at level 200, only parsing) : js_scope.
Notation "m ;; k" := (bind m (fun _ => k))
  (at level 100, k at level 200, only parsing, right associativity) : js_scope.
Local Open Scope js_scope.

Definition result_of {S A} (r : outcome A * S * list Action) : outcome A := r.1.1.
Definition state_of {S A} (r : outcome A * S * list Action) : S := r.1.2.
Definition trace_of {S A} (r : outcome A * S * list Action) : list Action := r.2.

(** [wp m Q s]: running [m] on [s] ends in an outcome, a state and a trace
    that satisfy [Q]. *)
Definition wp {S A} (m : M S A) (Q : outcome A -> S -> list Action -> Prop)
    (s : S) : Prop :=
  Q (result_of (m s)) (state_of (m s)) (trace_of (m s)).

(** The platform requests of a trace, in order. *)
Fixpoint requests (t : list Action) : list Request :=
  match t with
  | [] => []
  | Http _ r :: t' => r :: requests t'
  | _ :: t' => requests t'
  end.

(* ===================================================================== *)
(** * Helpers (utils/helpers.js) and the environment (config/config.js) *)
(* ===================================================================== *)

Module Helpers.

(** [formatDuration(seconds)], on integers: the minutes and the seconds it
    prints; [%] keeps the sign of [seconds]. *)
Definition formatDuration (seconds : Z) : string :=
  let mins := seconds / 60 in
  let secs := Z.rem seconds 60 in
  if (mins >? 0)%Z then (decimal mins ++ "m " ++ decimal secs ++ "s")%string
  else (decimal secs ++ "s")%string.

(** The [for] loop of [retry(fn, maxRetries, delayMs)] from its turn [i]
    on; [fn i] is what call number [i] of [fn] ends in, [left] bounds the
    turns that remain. Falling off the loop returns [undefined] ([None]). *)
Fixpoint retryFrom {S A} (fn : nat -> outcome A) (maxRetries delayMs : Z)
    (i left : nat) : M S (option A) :=
  match left with
  | O => ret None
  | Datatypes.S left' =>
      if (Z.of_nat i <? maxRetries)%Z then
        try_catch
          (a <- of_outcome (fn i) ;; ret (Some a))
          (fun error =>
             if (Z.of_nat i =? maxRetries - 1)%Z then throw error
             else
               emit (Sleep (delayMs * 2 ^ Z.of_nat i)) ;;
               retryFrom fn maxRetries delayMs (Datatypes.S i) left')
      else ret None
  end.

(** [retry(fn, maxRetries = 3, delayMs = 1000)] *)
Definition retry {S A} (fn : nat -> outcome A) (maxRetries delayMs : Z)
  : M S (option A) :=
  retryFrom fn maxRetries delayMs 0 (Z.to_nat maxRetries).

(** The index of the first call of [fn] that returns, among the calls
    [i .. i + n - 1]. *)
Fixpoint first_success {A} (fn : nat -> outcome A) (i n : nat) : option nat :=
  match n with
  | O => None
  | Datatypes.S n' =>
      match fn i with
      | Ret _ => Some i
      | Throw _ => first_success fn (Datatypes.S i) n'
      end
  end.

(** The waits after the failed calls [0 .. k - 1]. *)
Definition backoff (delayMs : Z) (k : nat) : list Action :=
  map (fun i => Sleep (delayMs * 2 ^ Z.of_nat i)) (seq 0 k).

(** The milliseconds a trace sleeps. *)
Fixpoint slept (t : list Action) : Z :=
  match t with
  | [] => 0
  | Sleep ms :: t' => ms + slept t'
  | _ :: t' => slept t'
  end.

End Helpers.

Module Environment.

(** [process.env] is a [gmap string string]. *)

Definition required : list string :=
  ["CONVOSO_USERNAME"; "CONVOSO_PASSWORD"; "CAMPAIGN_ID"].

(** [!process.env[key]] *)
Definition unset (env : gmap string string) (key : string) : bool :=
  match env !! key with
  | Some v => String.eqb v ""
  | None => true
  end.

(** [validateEnv()] *)
Definition validateEnv (env : gmap string string) : outcome unit :=
  let missing := List.filter (unset env) required in
  if (0 <? length missing)%nat
  then Throw (Error ("Missing required environment variables: " ++
                     join ", " missing)%string)
  else Ret tt.

(** [process.env[key] || fallback] *)
Definition or_default (env : gmap string string) (key fallback : string) : string :=
  if unset env key then fallback else default "" (env !! key).

End Environment.

(* ===================================================================== *)
(** * HTTP exchange *)
(* ===================================================================== *)

(** [response.data.data] *)
Record Payload : Type := {
  p_session_id : jsval;
  p_agent_log_id : jsval;
  p_agentLogId : jsval;
  p_found : jsval;
  p_info : option CallInfo
}.

Record Response : Type := {
  status : Z;
  location : option string;          (* response.headers.location *)
  set_cookie : option (list string); (* response.headers['set-cookie'] *)
  success : jsval;                   (* response.data.success *)
  ishangup : jsval;                  (* response.data.ishangup *)
  data : option Payload              (* response.data.data *)
}.

(** What the network gives back for one request. *)
Inductive HttpResult : Type :=
| NoResponse (msg : string)
| Reply (r : Response).

(** axios resolves with the response when [validateStatus] accepts its
    status and rejects otherwise. *)
Definition axios {S} (validateStatus : Z -> bool) (h : HttpResult) : M S Response :=
  match h with
  | NoResponse m => throw (AxiosNoResponse m)
  | Reply r => if validateStatus (status r) then ret r else throw (AxiosStatus (status r))
  end.

Definition below_400 (st : Z) : bool := (st <? 400)%Z.
Definition is_302_or_200 (st : Z) : bool := (st =? 302)%Z || (st =? 200)%Z.

Definition has_location (r : Response) : bool :=
  match location r with
  | Some l => negb (String.eqb l "")
  | None => false
  end.

(** A reply that axios follows by itself when the request allows
    redirects: a status from 300 to 399 with a Location header. *)
Definition is_redirect (r : Response) : bool :=
  (300 <=? status r)%Z && (status r <? 400)%Z && has_location r.

(** The exchange behind one request sent with [maxRedirects] above 0;
    [replies k] is the reply to its request number [k], the code's own
    being number 0. axios follows a redirect by a request of its own
    through the same instance [inst], without showing the redirect to the
    code, does so [maxRedirects] times at most, and rejects at a further
    redirect. The reply it ends on goes through [validateStatus]. *)
Fixpoint follow {S} (inst : gmap string jsval) (validateStatus : Z -> bool)
    (maxRedirects : nat) (replies : nat -> HttpResult) (k : nat) : M S Response :=
  match replies k with
  | NoResponse m => throw (AxiosNoResponse m)
  | Reply r =>
      if is_redirect r then
        match maxRedirects with
        | O => throw (AxiosNoResponse "Maximum number of redirects exceeded")
        | Datatypes.S n =>
            emit (Http inst (ReqFollow (default "" (location r)))) ;;
            follow inst validateStatus n replies (Datatypes.S k)
        end
      else axios validateStatus (Reply r)
  end.

(* ===================================================================== *)
(** * ConvosoAPI (services/convosoAgent.js, class ConvosoAPI) *)
(* ===================================================================== *)

Module ConvosoAPI.

Record ApiState : Type := {
  cookies : gmap string jsval;
  sessionId : jsval;
  agentLogId : jsval;
  userId : jsval
}.

(** [constructor()] *)
Definition initial : ApiState :=
  {| cookies := ∅; sessionId := JNull; agentLogId := JNull; userId := JNull |}.

Definition set_cookies (j : gmap string jsval) (a : ApiState) : ApiState :=
  {| cookies := j; sessionId := sessionId a; agentLogId := agentLogId a;
     userId := userId a |}.

Definition set_sessionId (v : jsval) (a : ApiState) : ApiState :=
  {| cookies := cookies a; sessionId := v; agentLogId := agentLogId a;
     userId := userId a |}.

Definition set_agentLogId (v : jsval) (a : ApiState) : ApiState :=
  {| cookies := cookies a; sessionId := sessionId a; agentLogId := v;
     userId := userId a |}.

(** The name and the value [extractCookies] reads off one Set-Cookie
    header: [cookie.split(';')[0].split('=')], first two pieces. *)
Definition cookie_name (cookie : string) : string :=
  hd "" (split "=" (hd "" (split ";" cookie))).

Definition cookie_value (cookie : string) : jsval :=
  index (split "=" (hd "" (split ";" cookie))) 1.

(** [this.cookies[name] = value] *)
Definition store_cookie (jar : gmap string jsval) (cookie : string)
  : gmap string jsval :=
  <[cookie_name cookie := cookie_value cookie]> jar.

Definition store_cookies (jar : gmap string jsval) (hs : list string)
  : gmap string jsval :=
  fold_left store_cookie hs jar.

(** [extractCookies(response)] *)
Definition extractCookies (response : Response) : M ApiState unit :=
  match set_cookie response with
  | Some hs => modify (fun a => set_cookies (store_cookies (cookies a) hs) a)
  | None => ret tt
  end.

(** [createAxiosInstance()]: the Cookie header is built from the jar as it
    is at this moment. *)
Definition createAxiosInstance : M ApiState (gmap string jsval) :=
  a <- get ;; ret (cookies a).

(** One request through an instance: it is sent, then axios resolves or
    rejects on the reply. *)
Definition request (inst : gmap string jsval) (validateStatus : Z -> bool)
    (r : Request) (h : HttpResult) : M ApiState Response :=
  emit (Http inst r) ;; axios validateStatus h.

(** One request through an instance with [maxRedirects] above 0. *)
Definition request_following (inst : gmap string jsval) (validateStatus : Z -> bool)
    (r : Request) (maxRedirects : nat) (replies : nat -> HttpResult)
  : M ApiState Response :=
  emit (Http inst r) ;; follow inst validateStatus maxRedirects replies 0.

Definition lookup_cookie (a : ApiState) (c : string) : jsval :=
  match cookies a !! c with
  | Some v => v
  | None => JUndefined
  end.

Definition essentialCookies : list string := ["PROJECTXSESS"; "ACCOUNT_ID"; "CLUSTER"].

Section WithConfig.
Context (cfg : Config).

(** [login(username, password)]; [post] and [verify] are the replies to
    the credential POST and to the first redirect GET, both sent with
    [maxRedirects: 0]; [final] is the exchange behind the second redirect
    GET, which is sent with [maxRedirects: 5]. *)
Definition login (user pass : string) (post verify : HttpResult)
    (final : nat -> HttpResult) : M ApiState bool :=
  try_catch
    (let trusted := negb (String.eqb (trustedDeviceCookie cfg) "") in
     let header : gmap string jsval :=
       if trusted then {[ "trusted_device" := JStr (trustedDeviceCookie cfg) ]}
       else ∅ in
     (if trusted
      then modify (fun a =>
             set_cookies (<["trusted_device" := JStr (trustedDeviceCookie cfg)]> (cookies a)) a)
      else ret tt) ;;
     emit (Http header (ReqLogin user pass)) ;;
     response <- axios is_302_or_200 post ;;
     extractCookies response ;;
     if (status response =? 302)%Z && has_location response then
       let redirectUrl := default "" (location response) in
       axiosInstance <- createAxiosInstance ;;
       verifyResponse <- request axiosInstance below_400 (ReqGet redirectUrl) verify ;;
       extractCookies verifyResponse ;;
       (if (status verifyResponse =? 302)%Z && has_location verifyResponse then
          let secondRedirect := default "" (location verifyResponse) in
          let finalUrl :=
            if startsWith secondRedirect "http" then secondRedirect
            else ("https://agent-dt.convoso.com" ++ secondRedirect)%string in
          axiosInstance2 <- createAxiosInstance ;;
          finalResponse <-
            request_following axiosInstance2 below_400 (ReqGet finalUrl) 5 final ;;
          extractCookies finalResponse
        else ret tt) ;;
       a <- get ;;
       (if forallb (fun c => truthy (lookup_cookie a c)) essentialCookies
        then ret tt
        else emit (Warn "Missing cookies")) ;;
       ret true
     else throw (Error "Login failed - no redirect received"))
    (fun error => emit (LogError "Login failed" (Some error)) ;; throw error).

(** [phoneLogin(campaignId, campaignName, dialMethod)] *)
Definition phoneLogin (campaign name dialMethod : string) (h : HttpResult)
  : M ApiState Response :=
  try_catch
    (axiosInstance <- createAxiosInstance ;;
     response <- request axiosInstance below_400
                   (ReqPhoneLogin campaign name dialMethod) h ;;
     extractCookies response ;;
     match data response with
     | Some p =>
         if truthy (success response) then
           modify (set_sessionId (p_session_id p)) ;;
           modify (set_agentLogId (p_agent_log_id p)) ;;
           ret response
         else throw (Error "Phone login failed - invalid response")
     | None => throw (Error "Phone login failed - invalid response")
     end)
    (fun error => emit (LogError "Phone login failed" (Some error)) ;; throw error).

(** [changeAvailability(campaignId, availabilityCode)]; [resume] and
    [change] are the replies to the two requests it may send. *)
Definition changeAvailability (campaign availabilityCode : string)
    (resume change : HttpResult) : M ApiState Response :=
  try_catch
    (let ready := String.eqb availabilityCode (availabilityReady cfg) in
     axiosInstance <- createAxiosInstance ;;
     (if ready then
        try_catch
          (a <- get ;;
           request axiosInstance below_400
             (ReqResume campaign (sessionId a) (agentLogId a)) resume ;;
           ret tt)
          (fun resumeError => emit (Warn "Resume call failed, continuing anyway...")) ;;
        emit (Sleep 500)
      else ret tt) ;;
     response <- request axiosInstance below_400
                   (ReqAvailabilityChange (if ready then "" else campaign)
                      campaign availabilityCode) change ;;
     extractCookies response ;;
     if truthy (success response) then ret response
     else throw (Error "Availability change failed"))
    (fun error => emit (LogError "Availability change failed" (Some error)) ;; throw error).

(** The result object of [checkAutoIncoming]. *)
Inductive PollResult : Type :=
| Found (callInfo : option CallInfo)
| NotFound.

(** [checkAutoIncoming(campaignId, dialMethod)] *)
Definition checkAutoIncoming (campaign dialMethod : string) (h : HttpResult)
  : M ApiState PollResult :=
  try_catch
    (axiosInstance <- createAxiosInstance ;;
     a <- get ;;
     response <- request axiosInstance below_400
                   (ReqCheckAutoIncoming campaign dialMethod
                      (agentLogId a) (sessionId a)) h ;;
     if truthy (success response) then
       match data response with
       | None => throw (TypeError "Cannot read properties of undefined (reading 'found')")
       | Some p =>
           if strict_eq (p_found p) (JNum 1) then ret (Found (p_info p))
           else ret NotFound
       end
     else ret NotFound)
    (fun error => emit (LogError "Check auto incoming failed" (Some error)) ;; throw error).

(** [hangup(campaignId, callInfo, callDuration, sessionId, agentLogId)];
    the last two default to [null]. *)
Definition hangup (campaign : string) (callInfo : CallInfo) (duration : Z)
    (sessionIdArg agentLogIdArg : jsval) (h : HttpResult) : M ApiState Response :=
  try_catch
    (axiosInstance <- createAxiosInstance ;;
     a <- get ;;
     response <- request axiosInstance below_400
                   (ReqHangup campaign
                      (js_or sessionIdArg (sessionId a))
                      (js_or agentLogIdArg (agentLogId a))
                      (duration / 1000) callInfo) h ;;
     if truthy (ishangup response) then ret response
     else throw (Error "Hangup failed"))
    (fun error => emit (LogError "Hangup failed" (Some error)) ;; throw error).

(** [setDisposition(campaignId, leadId, phoneCode, phoneNumber, status)] *)
Definition setDisposition (campaign : string) (leadId phoneCode phoneNumber : jsval)
    (st : string) (h : HttpResult) : M ApiState Response :=
  try_catch
    (axiosInstance <- createAxiosInstance ;;
     a <- get ;;
     response <- request axiosInstance below_400
                   (ReqLeadDisposition campaign leadId st (agentLogId a)
                      phoneCode phoneNumber (js_or (userId a) (JNum 0))) h ;;
     extractCookies response ;;
     if truthy (success response) then
       (match data response with
        | Some p =>
            if truthy (p_agentLogId p)
            then modify (set_agentLogId (p_agentLogId p))
            else ret tt
        | None => ret tt
        end) ;;
       ret response
     else throw (Error "Disposition failed"))
    (fun error => emit (LogError "Set disposition failed" (Some error)) ;; throw error).

(** [phoneLogout(campaignId)] *)
Definition phoneLogout (campaign : string) (h : HttpResult) : M ApiState Response :=
  try_catch
    (axiosInstance <- createAxiosInstance ;;
     a <- get ;;
     response <- request axiosInstance below_400
                   (ReqPhoneLogout (logoutCode cfg) campaign
                      (agentLogId a) (sessionId a)) h ;;
     if truthy (success response) || (status response =? 200)%Z then ret response
     else throw (Error "Phone logout failed"))
    (fun error => emit (LogError "Phone logout failed" (Some error)) ;; throw error).

(** Later use of the client by a caller that carries on after a failed
    call: any method of the client with its arguments, and the replies it
    meets. *)
Inductive ClientCall : Type :=
| CallLogin (user pass : string) (post verify : HttpResult)
    (final : nat -> HttpResult)
| CallPhoneLogin (campaign name dialMethod : string) (h : HttpResult)
| CallCheckAutoIncoming (campaign dialMethod : string) (h : HttpResult)
| CallChangeAvailability (campaign code : string) (resume change : HttpResult)
| CallHangup (campaign : string) (callInfo : CallInfo) (duration : Z)
    (sessionIdArg agentLogIdArg : jsval) (h : HttpResult)
| CallSetDisposition (campaign : string) (leadId phoneCode phoneNumber : jsval)
    (st : string) (h : HttpResult)
| CallPhoneLogout (campaign : string) (h : HttpResult).

Definition run_call (c : ClientCall) : M ApiState unit :=
  match c with
  | CallLogin user pass post verify final =>
      login user pass post verify final ;; ret tt
  | CallPhoneLogin campaign name dm h =>
      phoneLogin campaign name dm h ;; ret tt
  | CallCheckAutoIncoming campaign dm h =>
      checkAutoIncoming campaign dm h ;; ret tt
  | CallChangeAvailability campaign code resume change =>
      changeAvailability campaign code resume change ;; ret tt
  | CallHangup campaign ci d sid aid h =>
      hangup campaign ci d sid aid h ;; ret tt
  | CallSetDisposition campaign lead pc pn st h =>
      setDisposition campaign lead pc pn st h ;; ret tt
  | CallPhoneLogout campaign h =>
      phoneLogout campaign h ;; ret tt
  end.

Fixpoint run_calls (cs : list ClientCall) : M ApiState unit :=
  match cs with
  | [] => ret tt
  | c :: cs' => try_catch (run_call c) (fun _ => ret tt) ;; run_calls cs'
  end.

End WithConfig.

(** The Set-Cookie headers of a response, none when the header is absent. *)
Definition set_cookie_headers (r : Response) : list string :=
  default [] (set_cookie r).

(** The [agent_log_id] field of a request body, for the endpoints that
    have one. *)
Definition agent_log_id_of (r : Request) : option jsval :=
  match r with
  | ReqResume _ _ a => Some a
  | ReqCheckAutoIncoming _ _ a _ => Some a
  | ReqHangup _ _ a _ _ => Some a
  | ReqLeadDisposition _ _ _ a _ _ _ => Some a
  | ReqPhoneLogout _ _ a _ => Some a
  | _ => None
  end.

(** Sample replies. *)
Definition reply (st : Z) (loc : option string) (cookies : option (list string))
    (ok : jsval) (d : option Payload) : Response :=
  {| status := st; location := loc; set_cookie := cookies; success := ok;
     ishangup := JUndefined; data := d |}.

Definition rotated_payload (id : jsval) : Payload :=
  {| p_session_id := JUndefined; p_agent_log_id := JUndefined;
     p_agentLogId := id; p_found := JUndefined; p_info := None |}.

(** A login of redirect depth two: each response sets one cookie. *)
Definition sample_post : Response :=
  reply 302 (Some "https://agent.convoso.com/verify")
    (Some ["PROJECTXSESS=s1; Path=/"]) JUndefined None.
Definition sample_verify : Response :=
  reply 302 (Some "/") (Some ["ACCOUNT_ID=77; Path=/"]) JUndefined None.
Definition sample_final : Response :=
  reply 200 None (Some ["CLUSTER=dt; Path=/"]) JUndefined None.

(** [{success: true, data: {agentLogId: "9"}}] *)
Definition sample_rotation : Response :=
  reply 200 None None (JBool true) (Some (rotated_payload (JStr "9"))).

(** A 204 with an empty body. *)
Definition sample_no_content : Response :=
  reply 204 None None JUndefined None.

End ConvosoAPI.

(* ===================================================================== *)
(** * Shared pieces of the agents' loops *)
(* ===================================================================== *)

(** How a loop iteration ends: [continue] (or falling off the end of the
    body), or [break]. *)
Inductive Flow : Type := Continue | Break.

(** How a recorded run of a loop ends: the [while] was left, or the
    recorded iterations are used up and the loop is still going. *)
Inductive LoopStatus : Type := Finished | StillRunning.

(** The calls for which [handleCall] was entered, in order. *)
Fixpoint handled (t : list Action) : list (option CallInfo) :=
  match t with
  | [] => []
  | HandleCallStart c :: t' => c :: handled t'
  | _ :: t' => handled t'
  end.

(** Counting the actions of a kind in a trace. *)
Fixpoint count (f : Action -> bool) (t : list Action) : nat :=
  match t with
  | [] => O
  | a :: t' => ((if f a then 1 else 0) + count f t')%nat
  end.

(** Entries into [setDispositionViaAPI]. *)
Definition is_fallback (a : Action) : bool :=
  match a with
  | ViaAPI _ => true
  | _ => false
  end.

(** PUT requests to the lead-disposition endpoint. *)
Definition is_disposition_request (a : Action) : bool :=
  match a with
  | Http _ (ReqLeadDisposition _ _ _ _ _ _ _) => true
  | _ => false
  end.

(** What a piece of code adds to a trace: no call marker, [f] entries into
    the REST fallback and [d] disposition requests. *)
Definition effects (t : list Action) (f d : nat) : Prop :=
  handled t = [] /\ count is_fallback t = f /\ count is_disposition_request t = d.

(** [config.maxCalls > 0 && this.callCount >= config.maxCalls] *)
Definition budget_reached (cfg : Config) (callCount : Z) : bool :=
  (maxCalls cfg >? 0)%Z && (callCount >=? maxCalls cfg)%Z.

(** The calls a loop gets to handle out of those it is offered: all of
    them when [maxCalls] is 0 (unlimited), otherwise as many as the budget
    leaves once [callCount] calls are counted. *)
Definition within_budget {A} (cfg : Config) (callCount : Z) (l : list A) : list A :=
  if (maxCalls cfg >? 0)%Z then firstn (Z.to_nat (maxCalls cfg - callCount)) l
  else l.

(* ===================================================================== *)
(** * ConvosoAgent (services/convosoAgent.js, class ConvosoAgent) *)
(* ===================================================================== *)

Module ConvosoAgent.

Record AgentState : Type := {
  api : ConvosoAPI.ApiState;
  isRunning : bool;
  callCount : Z
}.

(** The agent once [start()] has logged in and is about to enter the loop. *)
Definition started (a : ConvosoAPI.ApiState) : AgentState :=
  {| api := a; isRunning := true; callCount := 0 |}.

(** [constructor()] *)
Definition initial : AgentState :=
  {| api := ConvosoAPI.initial; isRunning := false; callCount := 0 |}.

Definition set_api (a : ConvosoAPI.ApiState) (s : AgentState) : AgentState :=
  {| api := a; isRunning := isRunning s; callCount := callCount s |}.

Definition set_isRunning (b : bool) (s : AgentState) : AgentState :=
  {| api := api s; isRunning := b; callCount := callCount s |}.

Definition incr_callCount (s : AgentState) : AgentState :=
  {| api := api s; isRunning := isRunning s; callCount := callCount s + 1 |}.

(** A call through [this.api]. *)
Definition on_api {A} (m : M ConvosoAPI.ApiState A) : M AgentState A :=
  zoom api set_api m.

(** What the platform answers during one iteration of the loop: to the
    poll and, when a call is handled, to the hangup and the disposition;
    [elapsed] is the measured call duration. *)
Record PollEvent : Type := {
  poll : HttpResult;
  elapsed : Z;
  hangupReply : HttpResult;
  dispositionReply : HttpResult
}.

(** The replies to the requests of [stop()]. *)
Record StopEnv : Type := {
  resumeReply : HttpResult;
  notReadyReply : HttpResult;
  logoutReply : HttpResult
}.

Section WithConfig.
Context (cfg : Config).

(** [handleCall(callInfo)]; [callInfo] is [response.data.data.info], which
    may be missing. *)
Definition handleCall (callInfo : option CallInfo) (ev : PollEvent) : M AgentState unit :=
  modify incr_callCount ;;
  emit (HandleCallStart callInfo) ;;
  try_catch
    (match callInfo with
     | None => throw (TypeError "Cannot read properties of undefined (reading 'first_name')")
     | Some ci =>
         emit (Sleep (callDuration cfg)) ;;
         on_api (ConvosoAPI.hangup (campaignId cfg) ci (elapsed ev) JNull JNull
                   (hangupReply ev)) ;;
         on_api (ConvosoAPI.setDisposition (campaignId cfg) (lead_id ci)
                   (phone_code ci) (phone_number ci) (dispositionStatus cfg)
                   (dispositionReply ev)) ;;
         ret tt
     end)
    (fun error =>
       emit (LogError "Error handling call" (Some error)) ;;
       emit (Sleep 5000)).

(** [stop()] *)
Definition stop (env : StopEnv) : M AgentState unit :=
  s <- get ;;
  if negb (isRunning s) then ret tt
  else
    emit StopStart ;;
    modify (set_isRunning false) ;;
    try_catch
      (on_api (ConvosoAPI.changeAvailability cfg (campaignId cfg)
                 (availabilityNotReady cfg) (resumeReply env) (notReadyReply env)) ;;
       emit (Sleep 1000) ;;
       on_api (ConvosoAPI.phoneLogout cfg (campaignId cfg) (logoutReply env)) ;;
       ret tt)
      (fun error => emit (LogError "Error during stop" (Some error))).

(** [error.message.includes('authentication') || error.message.includes('session')] *)
Definition critical (error : Err) : bool :=
  includes (message error) "authentication" || includes (message error) "session".

(** The part of an iteration of [handleCallsLoop] that follows the budget
    test: one poll, and the call it may report. *)
Definition poll_and_handle (ev : PollEvent) : M AgentState Flow :=
  result <- on_api (ConvosoAPI.checkAutoIncoming (campaignId cfg)
                      (campaignDialMethod cfg) (poll ev)) ;;
  match result with
  | ConvosoAPI.Found callInfo => handleCall callInfo ev ;; ret Continue
  | ConvosoAPI.NotFound => emit (Sleep (pollInterval cfg)) ;; ret Continue
  end.

(** The body of the [while] of [handleCallsLoop]: the budget test, then
    [rest], all inside the [try]. *)
Definition iteration (env : StopEnv) (rest : M AgentState Flow) : M AgentState Flow :=
  try_catch
    (s <- get ;;
     if budget_reached cfg (callCount s) then stop env ;; ret Break
     else rest)
    (fun error =>
       emit (LogError "Error in call loop" (Some error)) ;;
       if critical error then stop env ;; ret Break
       else emit (Sleep 5000) ;; ret Continue).

(** [handleCallsLoop()], run against the recorded replies of its
    iterations. When the record is used up the budget test of the next
    iteration is still made; the loop is then either left or still
    polling. *)
Fixpoint handleCallsLoop (env : StopEnv) (evs : list PollEvent)
  : M AgentState LoopStatus :=
  s <- get ;;
  if negb (isRunning s) then ret Finished
  else
    match evs with
    | [] =>
        flow <- iteration env (ret Continue) ;;
        match flow with
        | Break => ret Finished
        | Continue =>
            s' <- get ;;
            ret (if isRunning s' then StillRunning else Finished)
        end
    | ev :: rest =>
        flow <- iteration env (poll_and_handle ev) ;;
        match flow with
        | Break => ret Finished
        | Continue => handleCallsLoop env rest
        end
    end.

(** The replies to the requests of [start()] before it enters the loop. *)
Record StartEnv : Type := {
  loginPost : HttpResult;
  loginVerify : HttpResult;
  loginFinal : nat -> HttpResult;
  phoneLoginReply : HttpResult;
  readyResume : HttpResult;
  readyReply : HttpResult
}.

(** [start()], run against the recorded polls of its loop. *)
Definition start (senv : StartEnv) (env : StopEnv) (evs : list PollEvent)
  : M AgentState LoopStatus :=
  try_catch
    (modify (set_isRunning true) ;;
     on_api (ConvosoAPI.login cfg (username cfg) (password cfg)
               (loginPost senv) (loginVerify senv) (loginFinal senv)) ;;
     emit (Sleep 1000) ;;
     on_api (ConvosoAPI.phoneLogin (campaignId cfg) (campaignName cfg)
               (campaignDialMethod cfg) (phoneLoginReply senv)) ;;
     emit (Sleep 1000) ;;
     on_api (ConvosoAPI.changeAvailability cfg (campaignId cfg)
               (availabilityReady cfg) (readyResume senv) (readyReply senv)) ;;
     handleCallsLoop env evs)
    (fun error =>
       emit (LogError "Failed to start agent" (Some error)) ;;
       stop env ;;
       throw error).

(** What a poll reply amounts to for the loop. *)
Definition polled (h : HttpResult) : outcome ConvosoAPI.PollResult :=
  match h with
  | NoResponse m => Throw (AxiosNoResponse m)
  | Reply r =>
      if below_400 (status r) then
        if truthy (success r) then
          match data r with
          | None => Throw (TypeError "Cannot read properties of undefined (reading 'found')")
          | Some p =>
              if strict_eq (p_found p) (JNum 1)
              then Ret (ConvosoAPI.Found (p_info p))
              else Ret ConvosoAPI.NotFound
          end
        else Ret ConvosoAPI.NotFound
      else Throw (AxiosStatus (status r))
  end.

(** The calls the recorded polls report, up to the first poll that fails
    with a critical error. *)
Fixpoint offered (evs : list PollEvent) : list (option CallInfo) :=
  match evs with
  | [] => []
  | ev :: rest =>
      match polled (poll ev) with
      | Ret (ConvosoAPI.Found callInfo) => callInfo :: offered rest
      | Ret ConvosoAPI.NotFound => offered rest
      | Throw error => if critical error then [] else offered rest
      end
  end.

End WithConfig.

(** A poll that reports a call whose hangup then fails, and the replies
    during shutdown. *)
Definition sample_lead : CallInfo :=
  {| lead_id := JNum 42; call_log_id := JNum 7; phone_code := JStr "1";
     phone_number := JStr "5551234567"; first_name := JStr "Ada";
     last_name := JStr "Byron" |}.

Definition found_reply : Response :=
  {| status := 200; location := None; set_cookie := None;
     success := JBool true; ishangup := JUndefined;
     data := Some {| p_session_id := JUndefined; p_agent_log_id := JUndefined;
                     p_agentLogId := JUndefined; p_found := JNum 1;
                     p_info := Some sample_lead |} |}.

Definition sample_event : PollEvent :=
  {| poll := Reply found_reply; elapsed := 15000;
     hangupReply := NoResponse "socket hang up";
     dispositionReply := NoResponse "unused" |}.

Definition sample_stop : StopEnv :=
  {| resumeReply := NoResponse "unused";
     notReadyReply := Reply ConvosoAPI.sample_rotation;
     logoutReply := Reply ConvosoAPI.sample_rotation |}.

(** What one iteration does, by what the poll amounts to. *)
Definition iteration_post (cfg : Config) (ev : PollEvent) (s : AgentState)
    (flow : Flow) (s' : AgentState) (t : list Action) : Prop :=
  if budget_reached cfg (callCount s)
  then isRunning s' = false /\ handled t = [] /\ callCount s' = callCount s
  else
    match polled (poll ev) with
    | Ret (ConvosoAPI.Found ci) =>
        flow = Continue /\ isRunning s' = true /\ handled t = [ci] /\
        callCount s' = callCount s + 1
    | Ret ConvosoAPI.NotFound =>
        flow = Continue /\ isRunning s' = true /\ handled t = [] /\
        callCount s' = callCount s
    | Throw e =>
        handled t = [] /\ callCount s' = callCount s /\
        if critical e then flow = Break /\ isRunning s' = false
        else flow = Continue /\ isRunning s' = true
    end.

End ConvosoAgent.

(* ===================================================================== *)
(** * The driven page, as both browser agents use it *)
(* ===================================================================== *)

(** [{session_id, agent_log_id}] read from the Angular scope; both are
    [undefined] when Angular is absent. *)
Record SessionInfo : Type := {
  session_id : jsval;
  agent_log_id : jsval
}.

(** [page.evaluate] of a script that looks for a control, clicks it when
    found and reports whether it did; the evaluation itself may fail. *)
Definition find_and_click {S} (p : PageStep) (b : Button) (r : outcome bool)
  : M S bool :=
  emit (Page p) ;;
  found <- of_outcome r ;;
  (if found then emit (Click b) else ret tt) ;;
  ret found.

(** [page.evaluate] of a script that only reads. *)
Definition read_page {S A} (p : PageStep) (r : outcome A) : M S A :=
  emit (Page p) ;; of_outcome r.

(** [cookies.forEach(cookie => { cookieObj[cookie.name] = cookie.value })] *)
Definition cookie_object (cookies : list (string * string)) : gmap string jsval :=
  fold_left (fun obj c => <[c.1 := JStr c.2]> obj) cookies ∅.

(** What the page and the platform answer while one call is handled by
    [PuppeteerAgent.handleCall]. *)
Record CallEnv : Type := {
  wrapup : outcome bool;
  wrapupRetry : outcome bool;
  wrapupModal : outcome bool;
  elapsed : Z;
  hangupSession : outcome SessionInfo;
  hangupReply : HttpResult;
  disposition : outcome bool;
  panel : outcome bool;
  panelDisposition : outcome bool;
  pageCookies : outcome (list (string * string));
  scopeSession : outcome SessionInfo;
  dispositionReply : HttpResult
}.

(** What the page answers during [PuppeteerAgent.stop]. *)
Record BrowserStopEnv : Type := {
  statusClick : outcome bool;
  breakClick : outcome bool;
  closeBrowser : outcome unit;
  closeBrowserAgain : outcome unit
}.

(* ===================================================================== *)
(** * PuppeteerAgent (services/PuppeteerAgent.js) *)
(* ===================================================================== *)

Module PuppeteerAgent.

Record AgentState : Type := {
  api : ConvosoAPI.ApiState;
  browser : bool;          (* [this.browser] is set *)
  isRunning : bool;
  callCount : Z;
  inCall : bool;
  lastLeadId : jsval
}.

(** The agent once [start()] has launched the browser and logged in. *)
Definition started (a : ConvosoAPI.ApiState) : AgentState :=
  {| api := a; browser := true; isRunning := true; callCount := 0;
     inCall := false; lastLeadId := JNull |}.

Definition set_api (a : ConvosoAPI.ApiState) (s : AgentState) : AgentState :=
  {| api := a; browser := browser s; isRunning := isRunning s;
     callCount := callCount s; inCall := inCall s; lastLeadId := lastLeadId s |}.

Definition set_isRunning (b : bool) (s : AgentState) : AgentState :=
  {| api := api s; browser := browser s; isRunning := b;
     callCount := callCount s; inCall := inCall s; lastLeadId := lastLeadId s |}.

Definition incr_callCount (s : AgentState) : AgentState :=
  {| api := api s; browser := browser s; isRunning := isRunning s;
     callCount := callCount s + 1; inCall := inCall s; lastLeadId := lastLeadId s |}.

Definition set_inCall (b : bool) (s : AgentState) : AgentState :=
  {| api := api s; browser := browser s; isRunning := isRunning s;
     callCount := callCount s; inCall := b; lastLeadId := lastLeadId s |}.

Definition set_lastLeadId (v : jsval) (s : AgentState) : AgentState :=
  {| api := api s; browser := browser s; isRunning := isRunning s;
     callCount := callCount s; inCall := inCall s; lastLeadId := v |}.

Definition on_api {A} (m : M ConvosoAPI.ApiState A) : M AgentState A :=
  zoom api set_api m.

(** One iteration of [monitorCalls]: what the detection script returns
    ([None] for [null]) and what happens while the call is handled. *)
Record Tick : Type := {
  detect : outcome (option CallInfo);
  call : CallEnv
}.

Section WithConfig.
Context (cfg : Config).

(** [setDispositionViaAPI(callInfo)] *)
Definition setDispositionViaAPI (callInfo : CallInfo) (env : CallEnv)
  : M AgentState unit :=
  emit (ViaAPI callInfo) ;;
  try_catch
    (cookies <- read_page ReadCookies (pageCookies env) ;;
     on_api (modify (ConvosoAPI.set_cookies (cookie_object cookies))) ;;
     sessionInfo <- read_page ReadSessionInfo (scopeSession env) ;;
     on_api (modify (ConvosoAPI.set_sessionId (session_id sessionInfo))) ;;
     on_api (modify (ConvosoAPI.set_agentLogId (agent_log_id sessionInfo))) ;;
     on_api (ConvosoAPI.setDisposition (campaignId cfg) (lead_id callInfo)
               (phone_code callInfo) (phone_number callInfo)
               (dispositionStatus cfg) (dispositionReply env)) ;;
     ret tt)
    (fun error => emit (LogError "API disposition failed" (Some error))).

(** The end-call ladder of [handleCall]: WRAPUP, a retry after 3 s, the
    modal, then the REST hangup. *)
Definition endCall (callInfo : CallInfo) (env : CallEnv) : M AgentState unit :=
  wrapupClicked <- find_and_click FindWrapup BtnWrapup (wrapup env) ;;
  if wrapupClicked then ret tt
  else
    emit (Warn "WRAPUP button not found - waiting for voicemail detection...") ;;
    emit (Sleep 3000) ;;
    retryWrapup <- find_and_click FindWrapupRetry BtnWrapup (wrapupRetry env) ;;
    if retryWrapup then ret tt
    else
      emit (Warn "Still cannot find WRAPUP button") ;;
      modalWrapup <- find_and_click FindWrapupModal BtnWrapup (wrapupModal env) ;;
      if modalWrapup then ret tt
      else
        emit (LogError "Could not find WRAPUP button anywhere, using API hangup..." None) ;;
        sessionInfo <- read_page ReadSessionInfo (hangupSession env) ;;
        on_api (ConvosoAPI.hangup (campaignId cfg) callInfo (elapsed env)
                  (session_id sessionInfo) (agent_log_id sessionInfo)
                  (hangupReply env)) ;;
        ret tt.

(** The disposition ladder of [handleCall]: the direct click, the panel and
    a second click, then the REST call. *)
Definition setDispositionLadder (callInfo : CallInfo) (env : CallEnv)
  : M AgentState unit :=
  dispositionClicked <-
    find_and_click FindDisposition BtnDispositionStatus (disposition env) ;;
  if dispositionClicked then ret tt
  else
    emit (Warn "Disposition button not found in main view") ;;
    dispositionPanelOpened <-
      find_and_click OpenDispositionPanel BtnDispositionPanel (panel env) ;;
    if dispositionPanelOpened then
      emit (Sleep 1500) ;;
      dispositionSet <-
        find_and_click FindDispositionInPanel BtnDispositionStatus
          (panelDisposition env) ;;
      if dispositionSet then ret tt
      else
        emit (Warn "Still cannot find disposition, using API...") ;;
        setDispositionViaAPI callInfo env
    else
      emit (Warn "Could not open disposition panel, using API...") ;;
      setDispositionViaAPI callInfo env.

(** [handleCall(callInfo)] *)
Definition handleCall (callInfo : CallInfo) (env : CallEnv) : M AgentState unit :=
  modify incr_callCount ;;
  emit (HandleCallStart (Some callInfo)) ;;
  try_catch
    (emit (Sleep (callDuration cfg)) ;;
     endCall callInfo env ;;
     emit (Sleep 2000) ;;
     setDispositionLadder callInfo env ;;
     emit (Sleep 2000) ;;
     modify (set_lastLeadId JNull) ;;
     emit (Sleep 3000))
    (fun error =>
       emit (LogError "Error handling call" (Some error)) ;;
       modify (set_lastLeadId JNull) ;;
       emit (Sleep 5000)).

(** [stop()] *)
Definition stop (env : BrowserStopEnv) : M AgentState unit :=
  s <- get ;;
  if negb (isRunning s) then ret tt
  else
    emit StopStart ;;
    modify (set_isRunning false) ;;
    try_catch
      (find_and_click OpenStatusDropdown BtnStatus (statusClick env) ;;
       emit (Sleep 1000) ;;
       find_and_click PickNotReadyBreak BtnNotReadyBreak (breakClick env) ;;
       emit (Sleep 2000) ;;
       (if browser s then emit CloseBrowser ;; of_outcome (closeBrowser env)
        else ret tt))
      (fun error =>
         emit (LogError "Error during stop" (Some error)) ;;
         if browser s then emit CloseBrowser ;; of_outcome (closeBrowserAgain env)
         else ret tt).

(** The part of an iteration of [monitorCalls] that follows the budget
    test. *)
Definition detect_and_handle (tick : Tick) : M AgentState Flow :=
  s <- get ;;
  if inCall s then
    emit (Sleep 1000) ;; ret Continue
  else
    callInfo <- read_page DetectCall (detect tick) ;;
    match callInfo with
    | Some ci =>
        if truthy (lead_id ci) then
          s' <- get ;;
          if strict_eq (lastLeadId s') (lead_id ci) then
            emit (Sleep 1000) ;; ret Continue
          else
            modify (set_inCall true) ;;
            modify (set_lastLeadId (lead_id ci)) ;;
            handleCall ci (call tick) ;;
            modify (set_inCall false) ;;
            ret Continue
        else
          modify (set_lastLeadId JNull) ;;
          emit (Sleep 2000) ;; ret Continue
    | None =>
        modify (set_lastLeadId JNull) ;;
        emit (Sleep 2000) ;; ret Continue
    end.

(** The body of the [while] of [monitorCalls]: the budget test, then
    [rest], all inside the [try]. *)
Definition iteration (env : BrowserStopEnv) (rest : M AgentState Flow)
  : M AgentState Flow :=
  try_catch
    (s <- get ;;
     if budget_reached cfg (callCount s) then stop env ;; ret Break
     else rest)
    (fun error =>
       emit (LogError "Error in monitor loop" (Some error)) ;;
       modify (set_inCall false) ;;
       modify (set_lastLeadId JNull) ;;
       emit (Sleep 5000) ;;
       ret Continue).

(** [monitorCalls()], run against the recorded iterations. When the
    record is used up the budget test of the next iteration is still
    made; the loop is then either left or still monitoring. *)
Fixpoint monitorCalls (env : BrowserStopEnv) (ticks : list Tick)
  : M AgentState LoopStatus :=
  s <- get ;;
  if negb (isRunning s) then ret Finished
  else
    match ticks with
    | [] =>
        flow <- iteration env (ret Continue) ;;
        match flow with
        | Break => ret Finished
        | Continue =>
            s' <- get ;;
            ret (if isRunning s' then StillRunning else Finished)
        end
    | tick :: rest =>
        flow <- iteration env (detect_and_handle tick) ;;
        match flow with
        | Break => ret Finished
        | Continue => monitorCalls env rest
        end
    end.

End WithConfig.

(** The call a detection offers: a record with a truthy [lead_id]. *)
Definition actionable (tick : Tick) : option (option CallInfo) :=
  match detect tick with
  | Ret (Some ci) => if truthy (lead_id ci) then Some (Some ci) else None
  | _ => None
  end.

(** [s'] differs from [s] in the client state at most. *)
Definition same_control (s s' : AgentState) : Prop :=
  browser s' = browser s /\ isRunning s' = isRunning s /\
  callCount s' = callCount s /\ inCall s' = inCall s /\
  lastLeadId s' = lastLeadId s.

(** The direct click found nothing, and then the panel did not open or
    the click inside the panel found nothing either. *)
Definition ui_failed (env : CallEnv) : Prop :=
  disposition env = Ret false /\
  (panel env = Ret false \/
   (panel env = Ret true /\ panelDisposition env = Ret false)).

(** The page handed over its cookies and its session identifiers. *)
Definition harvested (env : CallEnv) : Prop :=
  (exists cookies, pageCookies env = Ret cookies) /\
  (exists sessionInfo, scopeSession env = Ret sessionInfo).

(** A call with lead 42 on a page that shows WRAPUP but neither a
    disposition control nor the disposition panel. *)
Definition sample_call : CallInfo :=
  {| lead_id := JNum 42; call_log_id := JNum 7; phone_code := JStr "1";
     phone_number := JStr "5551234567"; first_name := JStr "Ada";
     last_name := JStr "Byron" |}.

Definition sample_session : SessionInfo :=
  {| session_id := JStr "s-1"; agent_log_id := JStr "a-1" |}.

Definition no_controls : CallEnv :=
  {| wrapup := Ret true; wrapupRetry := Ret false; wrapupModal := Ret false;
     elapsed := 15000; hangupSession := Ret sample_session;
     hangupReply := NoResponse "unused";
     disposition := Ret false; panel := Ret false; panelDisposition := Ret false;
     pageCookies := Ret [("PROJECTXSESS", "s1")];
     scopeSession := Ret sample_session;
     dispositionReply := Reply ConvosoAPI.sample_rotation |}.

(** The page reports the sample call; the page during shutdown. *)
Definition sample_tick : Tick :=
  {| detect := Ret (Some sample_call); call := no_controls |}.

Definition sample_stop : BrowserStopEnv :=
  {| statusClick := Ret true; breakClick := Ret true;
     closeBrowser := Ret tt; closeBrowserAgain := Ret tt |}.

End PuppeteerAgent.

(* ===================================================================== *)
(** * PreviousPuppeteerAgent (services/previousPuppeteerAgent.js) *)
(* ===================================================================== *)

(** One look at the phone state during a bounded wait: what the script
    returns, and [lag], the milliseconds the evaluation and the timer take
    beyond the 500 ms the loop sleeps. *)
Record Observation : Type := {
  lag : N;
  seen : outcome jsval
}.

Module PreviousPuppeteerAgent.

Record AgentState : Type := {
  api : ConvosoAPI.ApiState;
  browser : bool;
  isRunning : bool;
  callCount : Z;
  inCall : bool;
  lastLeadId : jsval;
  lastCallLogId : jsval
}.

Definition started (a : ConvosoAPI.ApiState) : AgentState :=
  {| api := a; browser := true; isRunning := true; callCount := 0;
     inCall := false; lastLeadId := JNull; lastCallLogId := JNull |}.

Definition set_api (a : ConvosoAPI.ApiState) (s : AgentState) : AgentState :=
  {| api := a; browser := browser s; isRunning := isRunning s;
     callCount := callCount s; inCall := inCall s; lastLeadId := lastLeadId s;
     lastCallLogId := lastCallLogId s |}.

Definition set_isRunning (b : bool) (s : AgentState) : AgentState :=
  {| api := api s; browser := browser s; isRunning := b;
     callCount := callCount s; inCall := inCall s; lastLeadId := lastLeadId s;
     lastCallLogId := lastCallLogId s |}.

Definition incr_callCount (s : AgentState) : AgentState :=
  {| api := api s; browser := browser s; isRunning := isRunning s;
     callCount := callCount s + 1; inCall := inCall s; lastLeadId := lastLeadId s;
     lastCallLogId := lastCallLogId s |}.

Definition set_inCall (b : bool) (s : AgentState) : AgentState :=
  {| api := api s; browser := browser s; isRunning := isRunning s;
     callCount := callCount s; inCall := b; lastLeadId := lastLeadId s;
     lastCallLogId := lastCallLogId s |}.

Definition set_lastLeadId (v : jsval) (s : AgentState) : AgentState :=
  {| api := api s; browser := browser s; isRunning := isRunning s;
     callCount := callCount s; inCall := inCall s; lastLeadId := v;
     lastCallLogId := lastCallLogId s |}.

Definition set_lastCallLogId (v : jsval) (s : AgentState) : AgentState :=
  {| api := api s; browser := browser s; isRunning := isRunning s;
     callCount := callCount s; inCall := inCall s; lastLeadId := lastLeadId s;
     lastCallLogId := v |}.

Definition on_api {A} (m : M ConvosoAPI.ApiState A) : M AgentState A :=
  zoom api set_api m.

(** What the page and the platform answer while one call is handled. *)
Record CallEnv : Type := {
  wrapup : outcome bool;
  disposition : outcome bool;
  panel : outcome bool;
  panelDisposition : outcome bool;
  pageCookies : outcome (list (string * string));
  scopeSession : outcome SessionInfo;
  dispositionReply : HttpResult;
  recovery : nat -> Observation
}.

(** One iteration of [monitorCalls]. *)
Record Tick : Type := {
  phoneState : outcome jsval;
  detect : outcome (option CallInfo);
  call : CallEnv
}.

(** What the page answers during [stop]. *)
Record StopEnv : Type := {
  availabilitySet : outcome bool;
  logoutSuccess : outcome bool;
  closeBrowser : outcome unit;
  closeBrowserAgain : outcome unit
}.

(** The loop of [waitForPhoneState(expectedState, timeoutMs)], entered
    [elapsedMs] after [startTime] for its look number [i]. Each turn reads
    the clock, evaluates the phone state, and sleeps 500 ms. *)
Equations waitLoop (expectedState : jsval) (timeoutMs : Z)
    (obs : nat -> Observation) (elapsedMs : Z) (i : nat)
  : outcome bool * list Action
  by wf (Z.to_nat (timeoutMs - elapsedMs)) lt :=
waitLoop expectedState timeoutMs obs elapsedMs i
  with Z_lt_dec elapsedMs timeoutMs := {
  | right _ => (Ret false, [Elapsed elapsedMs])
  | left _ with seen (obs i) := {
      | Throw e => (Throw e, [Elapsed elapsedMs; Page ReadPhoneState])
      | Ret currentState with strict_eq currentState expectedState := {
          | true => (Ret true, [Elapsed elapsedMs; Page ReadPhoneState])
          | false =>
              let r := waitLoop expectedState timeoutMs obs
                         (elapsedMs + Z.of_N (lag (obs i)) + 500) (S i) in
              (r.1, Elapsed elapsedMs :: Page ReadPhoneState :: Sleep 500 :: r.2)
        }
    }
  }.
Next Obligation. lia. Qed.

(** [waitForPhoneState(expectedState, timeoutMs)] *)
Definition waitForPhoneState {S} (expectedState : jsval) (timeoutMs : Z)
    (obs : nat -> Observation) : M S bool :=
  fun s =>
    let r := waitLoop expectedState timeoutMs obs 0 0 in
    (r.1, s, r.2).

Section WithConfig.
Context (cfg : Config).

(** [setDispositionViaAPI(callInfo)] *)
Definition setDispositionViaAPI (callInfo : CallInfo) (env : CallEnv)
  : M AgentState bool :=
  emit (ViaAPI callInfo) ;;
  try_catch
    (cookies <- read_page ReadCookies (pageCookies env) ;;
     on_api (modify (ConvosoAPI.set_cookies (cookie_object cookies))) ;;
     sessionInfo <- read_page ReadSessionInfo (scopeSession env) ;;
     on_api (modify (ConvosoAPI.set_sessionId (session_id sessionInfo))) ;;
     on_api (modify (ConvosoAPI.set_agentLogId (agent_log_id sessionInfo))) ;;
     on_api (ConvosoAPI.setDisposition (campaignId cfg) (lead_id callInfo)
               (phone_code callInfo) (phone_number callInfo)
               (dispositionStatus cfg) (dispositionReply env)) ;;
     ret true)
    (fun error =>
       emit (LogError "API disposition failed" (Some error)) ;; ret false).

(** [handleCall(callInfo)] *)
Definition handleCall (callInfo : CallInfo) (env : CallEnv) : M AgentState unit :=
  modify incr_callCount ;;
  emit (HandleCallStart (Some callInfo)) ;;
  try_catch
    (emit (Sleep (callDuration cfg)) ;;
     wrapupClicked <- find_and_click FindWrapup BtnWrapup (wrapup env) ;;
     (if wrapupClicked then ret tt
      else emit (Warn "WRAPUP button not found, may already be in wrapup state")) ;;
     emit (Sleep 4000) ;;
     dispositionSet <-
       find_and_click FindDisposition BtnDispositionStatus (disposition env) ;;
     (if dispositionSet then ret tt
      else
        emit (Warn "Disposition button not found, trying to open panel...") ;;
        panelOpened <-
          find_and_click OpenDispositionPanel BtnDispositionPanel (panel env) ;;
        if panelOpened then
          emit (Sleep 2000) ;;
          retryDispo <-
            find_and_click FindDispositionInPanel BtnDispositionStatus
              (panelDisposition env) ;;
          if retryDispo then ret tt
          else
            emit (LogError "Could not set disposition via UI, using API..." None) ;;
            setDispositionViaAPI callInfo env ;; ret tt
        else
          emit (LogError "Could not open disposition panel, using API..." None) ;;
          setDispositionViaAPI callInfo env ;; ret tt) ;;
     availableStateReached <- waitForPhoneState (JNum 2) 10000 (recovery env) ;;
     (if availableStateReached then ret tt
      else emit (Warn "Did not return to Available state in time")) ;;
     modify (set_lastLeadId JNull) ;;
     modify (set_lastCallLogId JNull) ;;
     emit (Sleep 3000))
    (fun error =>
       emit (LogError "Error handling call" (Some error)) ;;
       modify (set_lastLeadId JNull) ;;
       modify (set_lastCallLogId JNull) ;;
       emit (Sleep 5000)).

(** [stop()] *)
Definition stop (env : StopEnv) : M AgentState unit :=
  s <- get ;;
  if negb (isRunning s) then ret tt
  else
    emit StopStart ;;
    modify (set_isRunning false) ;;
    try_catch
      (read_page SetNotReadyViaScope (availabilitySet env) ;;
       emit (Sleep 2000) ;;
       read_page LogoutViaScope (logoutSuccess env) ;;
       emit (Sleep 2000) ;;
       (if browser s then emit CloseBrowser ;; of_outcome (closeBrowser env)
        else ret tt))
      (fun error =>
         emit (LogError "Error during stop" (Some error)) ;;
         if browser s then emit CloseBrowser ;; of_outcome (closeBrowserAgain env)
         else ret tt).

(** The part of an iteration of [monitorCalls] that follows the budget
    test. *)
Definition detect_and_handle (tick : Tick) : M AgentState Flow :=
  s <- get ;;
  if inCall s then
    emit (Sleep 1000) ;; ret Continue
  else
    state <- read_page ReadPhoneState (phoneState tick) ;;
    if negb (strict_eq state (JNum 2)) then
      emit (Sleep 2000) ;; ret Continue
    else
      callInfo <- read_page DetectCall (detect tick) ;;
      match callInfo with
      | Some ci =>
          if truthy (lead_id ci) then
            s' <- get ;;
            if strict_eq (lastLeadId s') (lead_id ci) &&
               strict_eq (lastCallLogId s') (call_log_id ci) then
              emit (Sleep 1000) ;; ret Continue
            else
              modify (set_inCall true) ;;
              modify (set_lastLeadId (lead_id ci)) ;;
              modify (set_lastCallLogId (call_log_id ci)) ;;
              handleCall ci (call tick) ;;
              modify (set_inCall false) ;;
              ret Continue
          else emit (Sleep 2000) ;; ret Continue
      | None => emit (Sleep 2000) ;; ret Continue
      end.

(** The body of the [while] of [monitorCalls]: the budget test, then
    [rest], all inside the [try]. *)
Definition iteration (env : StopEnv) (rest : M AgentState Flow)
  : M AgentState Flow :=
  try_catch
    (s <- get ;;
     if budget_reached cfg (callCount s) then stop env ;; ret Break
     else rest)
    (fun error =>
       emit (LogError "Error in monitor loop" (Some error)) ;;
       modify (set_inCall false) ;;
       emit (Sleep 5000) ;;
       ret Continue).

(** [monitorCalls()], run against the recorded iterations. *)
Fixpoint monitorCalls (env : StopEnv) (ticks : list Tick)
  : M AgentState LoopStatus :=
  s <- get ;;
  if negb (isRunning s) then ret Finished
  else
    match ticks with
    | [] =>
        flow <- iteration env (ret Continue) ;;
        match flow with
        | Break => ret Finished
        | Continue =>
            s' <- get ;;
            ret (if isRunning s' then StillRunning else Finished)
        end
    | tick :: rest =>
        flow <- iteration env (detect_and_handle tick) ;;
        match flow with
        | Break => ret Finished
        | Continue => monitorCalls env rest
        end
    end.

End WithConfig.

(** The call a detection offers: phone state 2 and a record with a truthy
    [lead_id]. *)
Definition actionable (tick : Tick) : option (option CallInfo) :=
  match phoneState tick with
  | Ret state =>
      if strict_eq state (JNum 2) then
        match detect tick with
        | Ret (Some ci) => if truthy (lead_id ci) then Some (Some ci) else None
        | _ => None
        end
      else None
  | Throw _ => None
  end.

(** [s'] differs from [s] in the client state at most. *)
Definition same_control (s s' : AgentState) : Prop :=
  browser s' = browser s /\ isRunning s' = isRunning s /\
  callCount s' = callCount s /\ inCall s' = inCall s /\
  lastLeadId s' = lastLeadId s /\ lastCallLogId s' = lastCallLogId s.

(** Looks at the phone state in a trace. *)
Definition is_observation (a : Action) : bool :=
  match a with
  | Page ReadPhoneState => true
  | _ => false
  end.

(** The clock readings at which a look was started. *)
Fixpoint look_times (t : list Action) : list Z :=
  match t with
  | [] => []
  | Elapsed ms :: t' =>
      match t' with
      | Page ReadPhoneState :: _ => ms :: look_times t'
      | _ => look_times t'
      end
  | _ :: t' => look_times t'
  end.

(** A look that does not show the expected state. *)
Definition miss (expected : jsval) (o : Observation) : Prop :=
  exists v, seen o = Ret v /\ v <> expected.

(** The most looks a wait of [timeoutMs] can take: one per started
    500 ms. *)
Definition max_looks (timeoutMs : Z) : nat := Z.to_nat ((timeoutMs + 499) / 500).

(** The sample call on a page where the disposition control is found at
    once, and the phone is Available again at the third look. *)
Definition sample_env (recover : nat -> Observation) : CallEnv :=
  {| wrapup := Ret true; disposition := Ret true; panel := Ret false;
     panelDisposition := Ret false; pageCookies := Ret [];
     scopeSession := Ret PuppeteerAgent.sample_session;
     dispositionReply := NoResponse "unused"; recovery := recover |}.

Definition sample_tick (recover : nat -> Observation) : Tick :=
  {| phoneState := Ret (JNum 2);
     detect := Ret (Some PuppeteerAgent.sample_call);
     call := sample_env recover |}.

Definition sample_stop : StopEnv :=
  {| availabilitySet := Ret true; logoutSuccess := Ret true;
     closeBrowser := Ret tt; closeBrowserAgain := Ret tt |}.

(** A phone that stays in state 3 and answers at once. *)
Definition stuck_phone : nat -> Observation :=
  fun _ => {| lag := 0; seen := Ret (JNum 3) |}.

(** A phone that is back in state 2 at the third look. *)
Definition recovering_phone : nat -> Observation :=
  fun i => {| lag := 20; seen := Ret (JNum (if (i <? 2)%nat then 3 else 2)) |}.

End PreviousPuppeteerAgent.

(* ===================================================================== *)
(** * Application (the entry point at the end of PuppeteerAgent.js) *)
(* ===================================================================== *)

Module Application.

(** [shutdown(exitCode)] *)
Definition shutdown (exitCode : Z) (env : BrowserStopEnv)
  : M PuppeteerAgent.AgentState unit :=
  try_catch
    (PuppeteerAgent.stop env ;; emit (ProcessExit exitCode))
    (fun error =>
       emit (LogError "Error during shutdown" (Some error)) ;;
       emit (ProcessExit 1)).

(** The SIGINT and SIGTERM handlers: [await this.shutdown()]. *)
Definition on_signal (env : BrowserStopEnv) : M PuppeteerAgent.AgentState unit :=
  shutdown 0 env.

(** The rest of a shutdown when nothing else gets to run: its actions up
    to the exit of the process. *)
Fixpoint until_exit (shut : list Action) : list Action :=
  match shut with
  | [] => []
  | ProcessExit code :: _ => [ProcessExit code]
  | a :: shut' => a :: until_exit shut'
  end.

(** Two suspended tasks on the event loop: the call being handled
    ([main], what is left of it) and the shutdown ([shut]). Whenever both
    can go on, [sched] says whose action comes next ([true]: the call's);
    the exit of the process ends everything. A used-up schedule lets the
    shutdown run to its end. *)
Fixpoint weave (sched : list bool) (main shut : list Action) : list Action :=
  match sched with
  | [] => until_exit shut
  | call_first :: sched' =>
      match shut with
      | [] => main
      | ProcessExit code :: _ => [ProcessExit code]
      | b :: shut' =>
          if call_first then
            match main with
            | a :: main' => a :: weave sched' main' shut
            | [] => b :: weave sched' [] shut'
            end
          else b :: weave sched' main shut'
      end
  end.

(** Actions that take no turn of the event loop: log lines, clock
    readings and markers. *)
Definition is_synchronous (a : Action) : bool :=
  match a with
  | Warn _ | LogError _ _ | Elapsed _
  | HandleCallStart _ | ViaAPI _ | StopStart => true
  | _ => false
  end.

(** The stretch a task runs when it is started, before any other task gets
    a turn, and what is left of the task: its synchronous actions, and the
    step it then awaits, which is under way from that moment (a page
    script, with the click the script makes; a request; a timer). *)
Fixpoint first_stretch (t : list Action) : list Action * list Action :=
  match t with
  | [] => ([], [])
  | a :: t' =>
      if is_synchronous a then
        let (now, later) := first_stretch t' in (a :: now, later)
      else
        match a, t' with
        | Page _, Click b :: t'' => ([a; Click b], t'')
        | _, _ => ([a], t')
        end
  end.

Section WithConfig.
Context (cfg : Config).

(** A stop signal arrives while [handleCall] is suspended after its first
    [k] actions. The handler runs at once: the first stretch of the
    shutdown comes next, which for a running agent is the entry into
    [stop], [isRunning = false] and the first page script of [stop]. From
    then on both tasks are on the event loop, unless the handler has left
    the process already. [stop] reads [isRunning] and [browser] only, which
    [handleCall] leaves as they are in [s]. *)
Definition signal_during_call (callInfo : CallInfo) (callEnv : CallEnv)
    (stopEnv : BrowserStopEnv) (k : nat) (sched : list bool)
    (s : PuppeteerAgent.AgentState) : list Action :=
  let main := trace_of (PuppeteerAgent.handleCall cfg callInfo callEnv s) in
  let shut := trace_of (on_signal stopEnv s) in
  let (now, later) := first_stretch shut in
  firstn k main ++ now ++
  match last now with
  | Some (ProcessExit _) => []
  | _ => weave sched (skipn k main) later
  end.

End WithConfig.

(** The steps that end and disposition the open call: the page scripts of
    the two ladders and the REST hangup and disposition requests. *)
Definition is_drain_step (a : Action) : bool :=
  match a with
  | Page FindWrapup | Page FindWrapupRetry | Page FindWrapupModal
  | Page FindDisposition | Page OpenDispositionPanel
  | Page FindDispositionInPanel => true
  | Http _ (ReqHangup _ _ _ _ _) => true
  | Http _ (ReqLeadDisposition _ _ _ _ _ _ _) => true
  | _ => false
  end.

End Application.

(* ===================================================================== *)
(** * Observations: kinds of actions, replies, shapes of data *)
(* ===================================================================== *)

(** Kinds of actions in a trace. *)
Definition is_hangup_request (a : Action) : bool :=
  match a with
  | Http _ (ReqHangup _ _ _ _ _) => true
  | _ => false
  end.

Definition is_logout_request (a : Action) : bool :=
  match a with
  | Http _ (ReqPhoneLogout _ _ _ _) => true
  | _ => false
  end.

Definition is_wrapup_click (a : Action) : bool :=
  match a with
  | Click BtnWrapup => true
  | _ => false
  end.

Definition is_disposition_click (a : Action) : bool :=
  match a with
  | Click BtnDispositionStatus => true
  | _ => false
  end.

Definition is_close (a : Action) : bool :=
  match a with
  | CloseBrowser => true
  | _ => false
  end.

Definition is_exit (a : Action) : bool :=
  match a with
  | ProcessExit _ => true
  | _ => false
  end.

(** The steps that disposition a call: the page scripts of the
    disposition ladder, the REST fallback and its request. *)
Definition is_disposition_step (a : Action) : bool :=
  match a with
  | Page FindDisposition | Page OpenDispositionPanel
  | Page FindDispositionInPanel => true
  | ViaAPI _ => true
  | Http _ (ReqLeadDisposition _ _ _ _ _ _ _) => true
  | _ => false
  end.

(** The actions of detecting and handling calls: everything but the
    shutdown marker, closing the browser and leaving the process. *)
Definition is_call_action (a : Action) : bool :=
  match a with
  | StopStart | CloseBrowser | ProcessExit _ => false
  | _ => true
  end.

Definition calm (t : list Action) : Prop :=
  Forall (fun a => is_call_action a = true) t.

(** A reply that axios accepts with [validateStatus: status < 400] and
    whose body passes [test]. *)
Definition accepted (test : Response -> bool) (h : HttpResult) : bool :=
  match h with
  | Reply r => below_400 (status r) && test r
  | NoResponse _ => false
  end.

(** The redirect targets [login] follows, by the replies to the credential
    POST and to the first GET. *)
Definition redirects (post verify : HttpResult) : list string :=
  match post with
  | Reply r1 =>
      if (status r1 =? 302)%Z && has_location r1 then
        default "" (location r1) ::
        match verify with
        | Reply r2 =>
            if (status r2 =? 302)%Z && has_location r2 then
              let second := default "" (location r2) in
              [if startsWith second "http" then second
               else ("https://agent-dt.convoso.com" ++ second)%string]
            else []
        | NoResponse _ => []
        end
      else []
  | NoResponse _ => []
  end.

(** The Locations axios follows by itself in an exchange that allows
    [maxRedirects] redirects, from its request number [k] on. *)
Fixpoint followed (maxRedirects : nat) (replies : nat -> HttpResult) (k : nat)
  : list string :=
  match maxRedirects, replies k with
  | S n, Reply r =>
      if is_redirect r
      then default "" (location r) :: followed n replies (S k)
      else []
  | _, _ => []
  end.




(** Client calls that put another [agentLogId] into the client: a
    disposition whose response rotates it, a phone login that succeeds. *)
Definition installs (c : ConvosoAPI.ClientCall) : bool :=
  match c with
  | ConvosoAPI.CallSetDisposition _ _ _ _ _ h =>
      accepted (fun r => truthy (success r) &&
                         match data r with
                         | Some p => truthy (p_agentLogId p)
                         | None => false
                         end) h
  | ConvosoAPI.CallPhoneLogin _ _ _ h =>
      accepted (fun r => truthy (success r) && bool_decide (is_Some (data r))) h
  | _ => false
  end.

(** The [agentLogId] argument of a hangup, when it is truthy. *)
Definition own_identifier (c : ConvosoAPI.ClientCall) : option jsval :=
  match c with
  | ConvosoAPI.CallHangup _ _ _ _ aid _ => if truthy aid then Some aid else None
  | _ => None
  end.

(** The warning of [handleCall] after a wait that timed out, and the
    clock readings of the wait. *)
Definition is_timeout_warning (a : Action) : bool :=
  match a with
  | Warn m => String.eqb m "Did not return to Available state in time"
  | _ => false
  end.

Definition is_clock (a : Action) : bool :=
  match a with
  | Elapsed _ => true
  | _ => false
  end.


Definition sample_hop : Response :=
  ConvosoAPI.reply 302 (Some "/home") (Some ["HOP=1; Path=/"]) JUndefined None.

(** A shutdown in which the first page script fails, and then the close
    of the browser. *)
Definition sample_failing_stop : BrowserStopEnv :=
  {| statusClick := Throw (PageError "detached"); breakClick := Ret true;
     closeBrowser := Ret tt;
     closeBrowserAgain := Throw (PageError "close failed") |}.

(** A phone that stays in state 3 and takes a minute to answer. *)
Definition slow_phone : nat -> Observation :=
  fun _ => {| lag := 60000; seen := Ret (JNum 3) |}.

(** Decimal numerals hold digits and a sign only. *)
Definition numeral_char (c : ascii) : bool := is_digit c || Ascii.eqb c "-".

Fixpoint numeral (s : string) : bool :=
  match s with
  | EmptyString => true
  | String c r => numeral_char c && numeral r
  end.

(** The clock reading at which look number [k] of a wait starts: each
    earlier look took its lag and the 500 ms sleep. *)
Fixpoint look_start (obs : nat -> Observation) (k : nat) : Z :=
  match k with
  | O => 0
  | S k' => look_start obs k' + Z.of_N (lag (obs k')) + 500
  end.

(** The shape of a normalised number: digits, after a plus sign or bare. *)
Definition phone_shaped (s : string) : bool :=
  match s with
  | String "+" d => all_digits d
  | _ => all_digits s
  end.

(** Fields that [toCSV] writes and [parseCSV] reads back unchanged: no
    double quote, no line feed, no white space at either end. *)
Definition plain (f : string) : bool :=
  negb (has_char dquote f) && negb (has_char newline f) && String.eqb (trim f) f.

(** Sample data: a login answered 200 with a cookie, a poll rejected with
    401, a failing start, and a call row whose second phone field matches
    the first spam row below. *)
Definition sample_ok_without_redirect : Response :=
  ConvosoAPI.reply 200 None (Some ["PROJECTXSESS=s1; Path=/"]) JUndefined None.

Definition sample_unauthorized : Response :=
  ConvosoAPI.reply 401 None None JUndefined None.

Definition sample_rejected_poll : ConvosoAgent.PollEvent :=
  {| ConvosoAgent.poll := Reply sample_unauthorized;
     ConvosoAgent.elapsed := 0;
     ConvosoAgent.hangupReply := NoResponse "unused";
     ConvosoAgent.dispositionReply := NoResponse "unused" |}.

Definition sample_failing_start : ConvosoAgent.StartEnv :=
  {| ConvosoAgent.loginPost := NoResponse "connect ECONNREFUSED";
     ConvosoAgent.loginVerify := NoResponse "unused";
     ConvosoAgent.loginFinal := fun _ => NoResponse "unused";
     ConvosoAgent.phoneLoginReply := NoResponse "unused";
     ConvosoAgent.readyResume := NoResponse "unused";
     ConvosoAgent.readyReply := NoResponse "unused" |}.

Definition sample_call_row : gmap string string :=
  {[ "id" := "1"; "phone_number" := "(555) 123-4567"; "status" := "NOCONT" ]}.

Definition sample_spam_rows : list (gmap string string) :=
  [ {[ "Number" := "+15551234567"; "Label" := "Spam Likely";
       "Date" := "2025-01-02"; "Time" := "10:00:00" ]};
    {[ "Number" := "15551234567"; "Label" := "Clean";
       "Date" := "2025-01-01"; "Time" := "09:00:00" ]} ].

(* ===================================================================== *)
(** * Theorems *)
(* ===================================================================== *)

Example split_cookie :
  split ";" "sid=abc; Path=/; HttpOnly" = ["sid=abc"; " Path=/"; " HttpOnly"].
Proof. reflexivity. Qed.

Example normalize_ten_digits :
  CallLogMerger.normalizePhone (Some "(555) 123-4567") = "+15551234567".
Proof. reflexivity. Qed.

(* --------------------------------------------------------------------- *)
(** ** CallLogMerger: phone normalisation *)
(* --------------------------------------------------------------------- *)

Lemma digit_not_space (c : ascii) : is_digit c = true -> is_space c = false.
Proof.
  unfold is_digit, is_space. cbv zeta.
  destruct (Nat.leb_spec 48 (nat_of_ascii c)); [| discriminate].
  destruct (Nat.leb_spec (nat_of_ascii c) 57); [| discriminate].
  intros _.
  destruct (Nat.leb_spec (nat_of_ascii c) 13); [lia |].
  destruct (Nat.eqb_spec (nat_of_ascii c) 32); [lia |].
  destruct (Nat.eqb_spec (nat_of_ascii c) 160); [lia |].
  now rewrite andb_false_r.
Qed.

Lemma all_digits_no_space (s : string) : all_digits s = true -> no_space s = true.
Proof.
  induction s as [| c r IH]; [reflexivity |]. cbn.
  intros H. apply andb_true_iff in H as [Hc Hr].
  now rewrite (digit_not_space c Hc), IH.
Qed.

Lemma remove_non_digits_all_digits (s : string) :
  all_digits (remove_non_digits s) = true.
Proof.
  induction s as [| c r IH]; [reflexivity |]. cbn.
  destruct (is_digit c) eqn:E; [cbn; now rewrite E | exact IH].
Qed.

Lemma remove_non_digits_id (s : string) :
  all_digits s = true -> remove_non_digits s = s.
Proof.
  induction s as [| c r IH]; [reflexivity |]. cbn.
  intros H. apply andb_true_iff in H as [Hc Hr].
  now rewrite Hc, IH.
Qed.

Lemma trimEnd_id (s : string) : no_space s = true -> trimEnd s = s.
Proof.
  induction s as [| c r IH]; [reflexivity |]. cbn.
  intros H. apply andb_true_iff in H as [Hc Hr].
  apply negb_true_iff in Hc. now rewrite Hc, IH.
Qed.

Lemma trim_id (s : string) : no_space s = true -> trim s = s.
Proof.
  intros H. unfold trim.
  assert (trimStart s = s) as ->.
  { destruct s as [| c r]; [reflexivity |]. cbn in *.
    apply andb_true_iff in H as [Hc _]. apply negb_true_iff in Hc.
    now rewrite Hc. }
  now apply trimEnd_id.
Qed.

Lemma startsWith_empty (s : string) : startsWith s "" = true.
Proof. destruct s; reflexivity. Qed.

Lemma startsWith_plus (d : string) : startsWith (String "+" d) "+" = true.
Proof. unfold startsWith. cbn. apply startsWith_empty. Qed.

Lemma startsWith_other (c : ascii) (r p : string) :
  c <> "+"%char -> startsWith (String c r) (String "+" p) = false.
Proof.
  intros Hc. unfold startsWith. cbn [String.prefix].
  destruct (ascii_dec "+"%char c) as [E | _]; [now destruct Hc | reflexivity].
Qed.

Lemma nonempty_eqb (c : ascii) (r : string) : String.eqb (String c r) "" = false.
Proof. reflexivity. Qed.

(** A plus sign followed by digits is left as it is, unless the digits
    begin with a 7. *)
Lemma normalizePhone_plus_digits (d : string) :
  all_digits d = true ->
  startsWith (String "+" d) "+7" = false ->
  CallLogMerger.normalizePhone (Some (String "+" d)) = String "+" d.
Proof.
  intros Hd H7. unfold CallLogMerger.normalizePhone.
  rewrite nonempty_eqb.
  rewrite trim_id by (cbn; now rewrite all_digits_no_space).
  cbv zeta. rewrite H7, startsWith_plus.
  cbn [substring_from]. rewrite remove_non_digits_id by exact Hd.
  reflexivity.
Qed.

(** Digits that are neither a ten-digit number nor an eleven-digit number
    with a leading 1 are left as they are. *)
Lemma normalizePhone_digits (d : string) :
  all_digits d = true ->
  (String.length d =? 10)%nat = false ->
  (String.length d =? 11)%nat && startsWith d "1" = false ->
  CallLogMerger.normalizePhone (Some d) = d.
Proof.
  intros Hd H10 H11. unfold CallLogMerger.normalizePhone.
  destruct d as [| c r]; [reflexivity |].
  rewrite nonempty_eqb.
  rewrite trim_id by now apply all_digits_no_space. cbv zeta.
  assert (Hc : c <> "+"%char).
  { intros ->. discriminate Hd. }
  rewrite !startsWith_other by exact Hc.
  rewrite remove_non_digits_id by exact Hd.
  now rewrite H10, H11.
Qed.

(** Normalising twice gives the same as normalising once whenever the
    first result does not begin with [+7]. *)
Lemma normalizePhone_idempotent_unless_plus7 (phone : option string) :
  startsWith (CallLogMerger.normalizePhone phone) "+7" = false ->
  CallLogMerger.normalizePhone (Some (CallLogMerger.normalizePhone phone)) =
  CallLogMerger.normalizePhone phone.
Proof.
  destruct phone as [p |]; [| reflexivity].
  unfold CallLogMerger.normalizePhone at 1 3 4.
  destruct (String.eqb p ""); [reflexivity |]. cbv zeta.
  set (t := if startsWith (trim p) "+7"
            then ("+1" ++ substring_from 2 (trim p))%string else trim p).
  destruct (startsWith t "+").
  - change ("+" ++ ?d)%string with (String "+" d).
    intros H7. apply normalizePhone_plus_digits; [| exact H7].
    apply remove_non_digits_all_digits.
  - pose proof (remove_non_digits_all_digits t) as Hd.
    set (d := remove_non_digits t) in *.
    destruct (String.length d =? 10)%nat eqn:H10.
    + intros _. change ("+1" ++ d)%string with (String "+" (String "1" d)).
      apply normalizePhone_plus_digits; [cbn; exact Hd | reflexivity].
    + destruct ((String.length d =? 11)%nat && startsWith d "1") eqn:H11.
      * change ("+" ++ d)%string with (String "+" d). intros H7.
        apply normalizePhone_plus_digits; assumption.
      * intros _. now apply normalizePhone_digits.
Qed.

(** C10, at the failing input: a [+] that is separated from the 7 by a
    space. The first normalisation strips the space and returns a number
    that begins with [+7]; the second turns that [+7] into [+1]. *)
Theorem normalizePhone_plus_space_seven :
  CallLogMerger.normalizePhone (Some "+ 7 900 123 45 67") = "+79001234567" /\
  CallLogMerger.normalizePhone
    (Some (CallLogMerger.normalizePhone (Some "+ 7 900 123 45 67"))) =
  "+19001234567".
Proof. split; reflexivity. Qed.

(** An empty or absent number normalises to the empty string. *)
Example normalizePhone_absent :
  CallLogMerger.normalizePhone None = "" /\
  CallLogMerger.normalizePhone (Some "") = "" /\
  CallLogMerger.normalizePhone (Some "   ") = "".
Proof. repeat split. Qed.

(** Unfolding of the monadic operations, for symbolic runs. *)
Ltac run_js :=
  cbv beta iota delta
    [bind try_catch ret throw get modify emit of_outcome zoom axios
     result_of state_of trace_of
     ConvosoAPI.request ConvosoAPI.createAxiosInstance
     ConvosoAPI.extractCookies].

(* --------------------------------------------------------------------- *)
(** ** Reasoning about computations *)
(* --------------------------------------------------------------------- *)

Section ProgramLogic.
Context {S : Type}.

Lemma wp_ret {A} (a : A) (Q : outcome A -> S -> list Action -> Prop) (s : S) :
  Q (Ret a) s [] -> wp (ret a) Q s.
Proof. exact (fun H => H). Qed.

Lemma wp_throw {A} (e : Err) (Q : outcome A -> S -> list Action -> Prop) (s : S) :
  Q (Throw e) s [] -> wp (throw e) Q s.
Proof. exact (fun H => H). Qed.

Lemma wp_of_outcome {A} (o : outcome A) (Q : outcome A -> S -> list Action -> Prop)
    (s : S) :
  Q o s [] -> wp (of_outcome o) Q s.
Proof. exact (fun H => H). Qed.

Lemma wp_get (Q : outcome S -> S -> list Action -> Prop) (s : S) :
  Q (Ret s) s [] -> wp get Q s.
Proof. exact (fun H => H). Qed.

Lemma wp_modify (f : S -> S) (Q : outcome unit -> S -> list Action -> Prop) (s : S) :
  Q (Ret tt) (f s) [] -> wp (modify f) Q s.
Proof. exact (fun H => H). Qed.

Lemma wp_emit (a : Action) (Q : outcome unit -> S -> list Action -> Prop) (s : S) :
  Q (Ret tt) s [a] -> wp (emit a) Q s.
Proof. exact (fun H => H). Qed.

Lemma wp_bind {A B} (m : M S A) (f : A -> M S B)
    (Q : outcome B -> S -> list Action -> Prop) (s : S) :
  wp m (fun o s1 t1 =>
          match o with
          | Ret a => wp (f a) (fun o' s2 t2 => Q o' s2 (t1 ++ t2)) s1
          | Throw e => Q (Throw e) s1 t1
          end) s ->
  wp (bind m f) Q s.
Proof.
  unfold wp, bind, result_of, state_of, trace_of.
  destruct (m s) as [[[a | e] s1] t1]; cbn; [| exact (fun H => H)].
  destruct (f a s1) as [[o s2] t2]. exact (fun H => H).
Qed.

Lemma wp_try_catch {A} (m : M S A) (h : Err -> M S A)
    (Q : outcome A -> S -> list Action -> Prop) (s : S) :
  wp m (fun o s1 t1 =>
          match o with
          | Ret a => Q (Ret a) s1 t1
          | Throw e => wp (h e) (fun o' s2 t2 => Q o' s2 (t1 ++ t2)) s1
          end) s ->
  wp (try_catch m h) Q s.
Proof.
  unfold wp, try_catch, result_of, state_of, trace_of.
  destruct (m s) as [[[a | e] s1] t1]; cbn; [exact (fun H => H) |].
  destruct (h e s1) as [[o s2] t2]. exact (fun H => H).
Qed.

Lemma wp_zoom {T A} (proj : S -> T) (upd : T -> S -> S) (m : M T A)
    (Q : outcome A -> S -> list Action -> Prop) (s : S) :
  wp m (fun o t tr => Q o (upd t s) tr) (proj s) ->
  wp (zoom proj upd m) Q s.
Proof.
  unfold wp, zoom, result_of, state_of, trace_of.
  destruct (m (proj s)) as [[o t] tr]. exact (fun H => H).
Qed.

Lemma wp_mono {A} (m : M S A) (Q Q' : outcome A -> S -> list Action -> Prop) (s : S) :
  wp m Q s -> (forall o s' t, Q o s' t -> Q' o s' t) -> wp m Q' s.
Proof. unfold wp. intros H HQ. apply HQ, H. Qed.

Lemma wp_axios (validate : Z -> bool) (h : HttpResult)
    (Q : outcome Response -> S -> list Action -> Prop) (s : S) :
  (forall o, Q o s []) -> wp (axios validate h) Q s.
Proof.
  intros H. unfold axios. destruct h as [m | r]; [apply H |].
  destruct (validate (status r)); apply H.
Qed.

End ProgramLogic.

Lemma handled_app (t t' : list Action) :
  handled (t ++ t') = handled t ++ handled t'.
Proof.
  induction t as [| x t IH]; [reflexivity |].
  destruct x; cbn; now rewrite ?IH.
Qed.

Lemma omap_cons_option_list {A B} (f : A -> option B) (x : A) (l : list A) :
  omap f (x :: l) = option_list (f x) ++ omap f l.
Proof. cbn. destruct (f x); reflexivity. Qed.

Lemma count_app (f : Action -> bool) (t t' : list Action) :
  count f (t ++ t') = (count f t + count f t')%nat.
Proof.
  induction t as [| x t IH]; [reflexivity |].
  cbn. rewrite IH. lia.
Qed.

(** The exchange behind a request that allows redirects: axios adds its
    own requests to the trace, one per redirect it follows, and leaves the
    state alone. *)
Lemma follow_run {S} (inst : gmap string jsval) (validate : Z -> bool)
    (replies : nat -> HttpResult) (n : nat) :
  forall (k : nat) (s : S),
    state_of (follow inst validate n replies k s) = s /\
    trace_of (follow inst validate n replies k s) =
      map (fun l => Http inst (ReqFollow l)) (followed n replies k).
Proof.
  induction n as [| n IH]; intros k s; cbn [follow followed].
  - destruct (replies k) as [m | r]; [split; reflexivity |].
    destruct (is_redirect r); [split; reflexivity |].
    cbn [axios]. destruct (validate (status r)); split; reflexivity.
  - destruct (replies k) as [m | r]; [split; reflexivity |].
    destruct (is_redirect r).
    + destruct (IH (Datatypes.S k) s) as [Hs Ht]. revert Hs Ht.
      unfold bind, emit, state_of, trace_of.
      destruct (follow inst validate n replies (Datatypes.S k) s) as [[o s'] t].
      cbn. intros -> ->. split; reflexivity.
    + cbn [axios]. destruct (validate (status r)); split; reflexivity.
Qed.


Lemma wp_follow {S} (inst : gmap string jsval) (validate : Z -> bool)
    (n : nat) (replies : nat -> HttpResult) (k : nat)
    (Q : outcome Response -> S -> list Action -> Prop) (s : S) :
  (forall o, Q o s (map (fun l => Http inst (ReqFollow l)) (followed n replies k))) ->
  wp (follow inst validate n replies k) Q s.
Proof.
  intros H. unfold wp.
  destruct (follow_run inst validate replies n k s) as [-> ->]. apply H.
Qed.

Lemma requests_follows (inst : gmap string jsval) (ls : list string) :
  requests (map (fun l => Http inst (ReqFollow l)) ls) = map ReqFollow ls.
Proof. induction ls as [| l ls IH]; [reflexivity |]. cbn. now rewrite IH. Qed.

Lemma handled_follows (inst : gmap string jsval) (ls : list string) :
  handled (map (fun l => Http inst (ReqFollow l)) ls) = [].
Proof. induction ls as [| l ls IH]; [reflexivity | exact IH]. Qed.

Lemma count_follows (f : Action -> bool) (inst : gmap string jsval) (ls : list string) :
  (forall j l, f (Http j (ReqFollow l)) = false) ->
  count f (map (fun l => Http inst (ReqFollow l)) ls) = 0%nat.
Proof.
  intros Hf. induction ls as [| l ls IH]; [reflexivity |].
  cbn. now rewrite Hf, IH.
Qed.

Lemma followed_length (replies : nat -> HttpResult) (n : nat) :
  forall k, (length (followed n replies k) <= n)%nat.
Proof.
  induction n as [| n IH]; intros k; cbn; [lia |].
  destruct (replies k) as [m | r]; [cbn; lia |].
  destruct (is_redirect r); [cbn; specialize (IH (Datatypes.S k)); lia | cbn; lia].
Qed.

(** One step of symbolic execution. *)
Ltac wp_step :=
  lazymatch goal with
  | |- wp (bind _ _) _ _ => apply wp_bind
  | |- wp (try_catch _ _) _ _ => apply wp_try_catch
  | |- wp (ret _) _ _ => apply wp_ret
  | |- wp (throw _) _ _ => apply wp_throw
  | |- wp (emit _) _ _ => apply wp_emit
  | |- wp (modify _) _ _ => apply wp_modify
  | |- wp get _ _ => apply wp_get
  | |- wp (of_outcome _) _ _ => apply wp_of_outcome
  | |- wp (zoom _ _ _) _ _ => apply wp_zoom
  | |- wp (axios _ _) _ _ => apply wp_axios; intros ?
  | |- wp (follow _ _ _ _ _) _ _ => apply wp_follow; intros ?
  | |- wp (ConvosoAPI.request _ _ _ _) _ _ => unfold ConvosoAPI.request
  | |- wp (ConvosoAPI.request_following _ _ _ _ _) _ _ =>
      unfold ConvosoAPI.request_following
  | |- wp ConvosoAPI.createAxiosInstance _ _ => unfold ConvosoAPI.createAxiosInstance
  | |- wp (ConvosoAPI.extractCookies _) _ _ => unfold ConvosoAPI.extractCookies
  | |- wp (find_and_click _ _ _) _ _ => unfold find_and_click
  | |- wp (read_page _ _) _ _ => unfold read_page
  | |- wp (if ?b then _ else _) _ _ => destruct b eqn:?
  | |- wp (match ?x with _ => _ end) _ _ => destruct x eqn:?
  | |- match ?o with Ret _ => _ | Throw _ => _ end => destruct o eqn:?
  end.

Ltac wp_run := repeat (wp_step; cbv beta iota).

(* --------------------------------------------------------------------- *)
(** ** The REST client *)
(* --------------------------------------------------------------------- *)

Section ClientFacts.
Context (cfg : Config).

(** C4. [changeAvailability] with the configured ready code sends the
    resume request first and the availability-change request second,
    whatever the network answers to the resume request (no response, an
    error status, any body); with any other code it sends the
    availability-change request alone. *)
Theorem changeAvailability_resume_then_change
    (campaign code : string) (resume change : HttpResult)
    (a : ConvosoAPI.ApiState) :
  requests (trace_of (ConvosoAPI.changeAvailability cfg campaign code resume change a)) =
  if String.eqb code (availabilityReady cfg)
  then [ReqResume campaign (ConvosoAPI.sessionId a) (ConvosoAPI.agentLogId a);
        ReqAvailabilityChange "" campaign code]
  else [ReqAvailabilityChange campaign campaign code].
Proof.
  unfold ConvosoAPI.changeAvailability.
  destruct (String.eqb code (availabilityReady cfg)).
  - destruct resume as [m | r]; destruct change as [m' | r']; run_js;
      repeat match goal with
             | |- context [if ?b then _ else _] => destruct b; cbn
             | |- context [match set_cookie ?r with _ => _ end] =>
                 destruct (set_cookie r); cbn
             end; reflexivity.
  - destruct change as [m' | r']; run_js;
      repeat match goal with
             | |- context [if ?b then _ else _] => destruct b; cbn
             | |- context [match set_cookie ?r with _ => _ end] =>
                 destruct (set_cookie r); cbn
             end; reflexivity.
Qed.

(** C7 (as the code has it). [phoneLogout] returns the response body
    exactly when axios accepted the status (below 400) and the body carries
    a truthy [success] or the status is 200; it throws on a rejected status,
    on no response, and on an accepted status other than 200 whose body has
    no success flag. *)
Theorem phoneLogout_result (campaign : string) (h : HttpResult)
    (a : ConvosoAPI.ApiState) :
  result_of (ConvosoAPI.phoneLogout cfg campaign h a) =
  match h with
  | NoResponse m => Throw (AxiosNoResponse m)
  | Reply r =>
      if below_400 (status r) then
        if truthy (success r) || (status r =? 200)%Z then Ret r
        else Throw (Error "Phone logout failed")
      else Throw (AxiosStatus (status r))
  end.
Proof.
  unfold ConvosoAPI.phoneLogout.
  destruct h as [m | r]; run_js; [reflexivity |].
  destruct (below_400 (status r)); cbn; [| reflexivity].
  destruct (truthy (success r) || (status r =? 200)%Z); reflexivity.
Qed.

(** What the client calls add to a trace: whatever follows a client call
    may rely on that alone. *)
Ltac effects_of f :=
  let H := fresh in
  intros H; apply H;
  match goal with
  | |- effects (trace_of (?m ?a)) ?k ?d =>
      change (wp m (fun _ _ t => effects t k d) a)
  end;
  unfold f; wp_run; repeat split.

Lemma wp_hangup (campaign : string) (ci : CallInfo) (d : Z) (sid aid : jsval)
    (h : HttpResult) (Q : outcome Response -> ConvosoAPI.ApiState -> list Action -> Prop)
    (a : ConvosoAPI.ApiState) :
  (forall o a' t, effects t 0 0 -> Q o a' t) ->
  wp (ConvosoAPI.hangup campaign ci d sid aid h) Q a.
Proof. effects_of ConvosoAPI.hangup. Qed.

Lemma wp_setDisposition (campaign : string) (lead pc pn : jsval) (st : string)
    (h : HttpResult) (Q : outcome Response -> ConvosoAPI.ApiState -> list Action -> Prop)
    (a : ConvosoAPI.ApiState) :
  (forall o a' t, effects t 0 1 -> Q o a' t) ->
  wp (ConvosoAPI.setDisposition campaign lead pc pn st h) Q a.
Proof. effects_of ConvosoAPI.setDisposition. Qed.

Lemma wp_changeAvailability (campaign code : string) (resume change : HttpResult)
    (Q : outcome Response -> ConvosoAPI.ApiState -> list Action -> Prop)
    (a : ConvosoAPI.ApiState) :
  (forall o a' t, effects t 0 0 -> Q o a' t) ->
  wp (ConvosoAPI.changeAvailability cfg campaign code resume change) Q a.
Proof. effects_of ConvosoAPI.changeAvailability. Qed.

Lemma wp_phoneLogout (campaign : string) (h : HttpResult)
    (Q : outcome Response -> ConvosoAPI.ApiState -> list Action -> Prop)
    (a : ConvosoAPI.ApiState) :
  (forall o a' t, effects t 0 0 -> Q o a' t) ->
  wp (ConvosoAPI.phoneLogout cfg campaign h) Q a.
Proof. effects_of ConvosoAPI.phoneLogout. Qed.

Lemma checkAutoIncoming_result (campaign dm : string) (h : HttpResult)
    (a : ConvosoAPI.ApiState) :
  result_of (ConvosoAPI.checkAutoIncoming campaign dm h a) = ConvosoAgent.polled h.
Proof.
  unfold ConvosoAPI.checkAutoIncoming, ConvosoAgent.polled.
  destruct h as [m | r]; run_js; [reflexivity |].
  destruct (below_400 (status r)); cbn; [| reflexivity].
  destruct (truthy (success r)); cbn; [| reflexivity].
  destruct (data r) as [p |]; cbn; [| reflexivity].
  destruct (strict_eq (p_found p) (JNum 1)); reflexivity.
Qed.

Lemma wp_checkAutoIncoming (campaign dm : string) (h : HttpResult)
    (Q : outcome ConvosoAPI.PollResult -> ConvosoAPI.ApiState -> list Action -> Prop)
    (a : ConvosoAPI.ApiState) :
  (forall a' t, effects t 0 0 -> Q (ConvosoAgent.polled h) a' t) ->
  wp (ConvosoAPI.checkAutoIncoming campaign dm h) Q a.
Proof.
  intros H. unfold wp. rewrite checkAutoIncoming_result. apply H.
  change (wp (ConvosoAPI.checkAutoIncoming campaign dm h)
            (fun _ _ t => effects t 0 0) a).
  unfold ConvosoAPI.checkAutoIncoming; wp_run; repeat split.
Qed.

(** Cookies: what the jar holds after a list of Set-Cookie headers. *)


Lemma store_cookies_other (hs : list string) (jar : gmap string jsval) (k : string) :
  (forall h, In h hs -> ConvosoAPI.cookie_name h <> k) ->
  ConvosoAPI.store_cookies jar hs !! k = jar !! k.
Proof.
  revert jar. induction hs as [| h hs IH]; intros jar Hne; [reflexivity |].
  cbn. unfold ConvosoAPI.store_cookies in IH. rewrite IH.
  - unfold ConvosoAPI.store_cookie. apply lookup_insert_ne.
    apply Hne. now left.
  - intros h' Hin. apply Hne. now right.
Qed.




Lemma requests_app (t t' : list Action) :
  requests (t ++ t') = requests t ++ requests t'.
Proof.
  induction t as [| x t IH]; [reflexivity |].
  destruct x; cbn; now rewrite ?IH.
Qed.

(** [login] sends no [agent_log_id] and leaves the stored one alone. *)
Lemma login_no_identifier (user pass : string) (post verify : HttpResult)
    (final : nat -> HttpResult) (a : ConvosoAPI.ApiState) :
  let res := ConvosoAPI.login cfg user pass post verify final a in
  ConvosoAPI.agentLogId (state_of res) = ConvosoAPI.agentLogId a /\
  Forall (fun req => ConvosoAPI.agent_log_id_of req = None) (requests (trace_of res)).
Proof.
  cbv zeta.
  change (wp (ConvosoAPI.login cfg user pass post verify final)
            (fun _ a' t =>
               ConvosoAPI.agentLogId a' = ConvosoAPI.agentLogId a /\
               Forall (fun req => ConvosoAPI.agent_log_id_of req = None) (requests t)) a).
  unfold ConvosoAPI.login. wp_run.
  all: split; [reflexivity |].
  all: repeat first [ rewrite requests_app | rewrite requests_follows
                    | rewrite app_nil_r | progress cbn [requests app] ].
  all: repeat first [ apply Forall_nil_2
                    | apply Forall_cons_2; [reflexivity |]
                    | apply Forall_app_2 ].
  all: apply List.Forall_forall; intros req Hin;
    apply in_map_iff in Hin as (loc & <- & _); reflexivity.
Qed.

(** Every call sends the [agentLogId] that is stored when it starts, a
    hangup the one it is given when it is given one; only a rotating
    disposition and a successful phone login store another. *)
Lemma run_call_agent_log_id (c : ConvosoAPI.ClientCall) (a : ConvosoAPI.ApiState) :
  let res := try_catch (ConvosoAPI.run_call cfg c) (fun _ => ret tt) a in
  (installs c = false ->
   ConvosoAPI.agentLogId (state_of res) = ConvosoAPI.agentLogId a) /\
  forall req id,
    In req (requests (trace_of res)) ->
    ConvosoAPI.agent_log_id_of req = Some id ->
    id = ConvosoAPI.agentLogId a \/
    (own_identifier c = Some id /\
     exists campaign sid t ci, req = ReqHangup campaign sid id t ci).
Proof.
  destruct c as [user pass post verify final | campaign name dm h
                | campaign dm h | campaign code resume change
                | campaign ci d sid aid h | campaign lead pc pn st h
                | campaign h]; cbv zeta.
  - pose proof (login_no_identifier user pass post verify final a) as [Hst Hreq].
    revert Hst Hreq. cbn [ConvosoAPI.run_call].
    unfold try_catch, bind, ret, state_of, trace_of.
    destruct (ConvosoAPI.login cfg user pass post verify final a) as [[[b | e] a'] t];
      cbn [fst snd]; rewrite ?app_nil_r; intros Hst Hreq;
      (split; [intros _; exact Hst |]);
      intros req id Hin Hid; rewrite List.Forall_forall in Hreq;
      rewrite (Hreq req Hin) in Hid; discriminate Hid.
  - unfold ConvosoAPI.run_call, ConvosoAPI.phoneLogin, installs, accepted.
    destruct h as [m | r]; run_js.
    + split; [reflexivity |]. intros req id [<- | []]; cbn; discriminate.
    + destruct (below_400 (status r)); cbn;
        [| split; [reflexivity |]; intros req id [<- | []]; cbn; discriminate].
      destruct (set_cookie r); cbn;
        destruct (data r) as [p |]; cbn;
        destruct (truthy (success r)); cbn;
        (split; [first [reflexivity | discriminate] |]);
        intros req id [<- | []]; cbn; discriminate.
  - unfold ConvosoAPI.run_call, ConvosoAPI.checkAutoIncoming.
    destruct h as [m | r]; run_js;
      repeat match goal with
             | |- context [if ?b then _ else _] => destruct b; cbn
             | |- context [match data ?r with _ => _ end] => destruct (data r); cbn
             end;
      (split; [reflexivity |]); cbn;
      intros req id [<- | []]; cbn; intros [= <-]; now left.
  - unfold ConvosoAPI.run_call, ConvosoAPI.changeAvailability.
    destruct (String.eqb code (availabilityReady cfg));
      destruct resume as [m | r]; destruct change as [m' | r']; run_js;
      repeat match goal with
             | |- context [if ?b then _ else _] => destruct b; cbn
             | |- context [match set_cookie ?r with _ => _ end] =>
                 destruct (set_cookie r); cbn
             end;
      (split; [reflexivity |]); cbn;
      intros req id Hin; repeat destruct Hin as [<- | Hin]; try destruct Hin;
      cbn; intros [= <-]; now left.
  - unfold ConvosoAPI.run_call, ConvosoAPI.hangup, own_identifier, js_or.
    destruct h as [m | r]; run_js;
      repeat match goal with
             | |- context [if below_400 ?b then _ else _] => destruct (below_400 b); cbn
             | |- context [if truthy (ishangup ?b) then _ else _] =>
                 destruct (truthy (ishangup b)); cbn
             end;
      (split; [reflexivity |]); cbn;
      intros req id [<- | []]; cbn; intros [= <-];
      destruct (truthy aid); [right | now left | right | now left
                              | right | now left | right | now left];
      (split; [reflexivity | eauto 10]).
  - unfold ConvosoAPI.run_call, ConvosoAPI.setDisposition, installs, accepted.
    destruct h as [m | r]; run_js.
    + split; [reflexivity |]. intros req id [<- | []]; cbn; intros [= <-]; now left.
    + destruct (below_400 (status r)); cbn;
        [| split; [reflexivity |]; intros req id [<- | []]; cbn; intros [= <-]; now left].
      destruct (set_cookie r); cbn;
        destruct (truthy (success r)); cbn;
        try (split; [reflexivity |]; intros req id [<- | []]; cbn;
             intros [= <-]; now left);
        destruct (data r) as [p |]; cbn;
        try (split; [reflexivity |]; intros req id [<- | []]; cbn;
             intros [= <-]; now left);
        destruct (truthy (p_agentLogId p)); cbn;
        (split; [first [reflexivity | discriminate] |]);
        intros req id [<- | []]; cbn; intros [= <-]; now left.
  - unfold ConvosoAPI.run_call, ConvosoAPI.phoneLogout.
    destruct h as [m | r]; run_js;
      repeat match goal with
             | |- context [if ?b then _ else _] => destruct b; cbn
             end;
      (split; [reflexivity |]); cbn;
      intros req id [<- | []]; cbn; intros [= <-]; now left.
Qed.


Lemma run_calls_agent_log_id (cs : list ConvosoAPI.ClientCall) :
  forall a : ConvosoAPI.ApiState,
    Forall (fun c => installs c = false) cs ->
    ConvosoAPI.agentLogId (state_of (ConvosoAPI.run_calls cfg cs a)) =
      ConvosoAPI.agentLogId a /\
    forall req id,
      In req (requests (trace_of (ConvosoAPI.run_calls cfg cs a))) ->
      ConvosoAPI.agent_log_id_of req = Some id ->
      id = ConvosoAPI.agentLogId a \/
      exists c, In c cs /\ own_identifier c = Some id /\
                exists campaign sid t ci, req = ReqHangup campaign sid id t ci.
Proof.
  induction cs as [| c cs IH]; intros a Hquiet.
  { split; [reflexivity | intros req id []]. }
  inversion Hquiet as [| ? ? Hc Hcs]; subst.
  pose proof (run_call_agent_log_id c a) as [Hst Hreq]. specialize (Hst Hc).
  revert Hst Hreq. cbn [ConvosoAPI.run_calls]. unfold bind.
  destruct (try_catch (ConvosoAPI.run_call cfg c) (fun _ => ret tt) a)
    as [[o a1] t1] eqn:E. unfold state_of, trace_of. cbn [fst snd].
  intros Hst Hreq.
  destruct o as [[] | e].
  - destruct (IH a1 Hcs) as [IHst IHreq]. revert IHst IHreq.
    destruct (ConvosoAPI.run_calls cfg cs a1) as [[o2 a2] t2].
    unfold state_of, trace_of. cbn [fst snd]. intros IHst IHreq.
    split; [congruence |].
    intros req id Hin Hid.
    rewrite requests_app, in_app_iff in Hin.
    destruct Hin as [Hin | Hin].
    + destruct (Hreq req id Hin Hid) as [-> | [Hown Hshape]]; [now left |].
      right. exists c. split; [now left | auto].
    + destruct (IHreq req id Hin Hid) as [-> | (c' & Hc' & Hown & Hshape)];
        [left; congruence |].
      right. exists c'. split; [now right | auto].
  - split; [exact Hst |].
    intros req id Hin Hid.
    destruct (Hreq req id Hin Hid) as [-> | [Hown Hshape]]; [now left |].
    right. exists c. split; [now left | auto].
Qed.

(** C6 (as the code has it). After a [setDisposition] whose accepted,
    successful response carries a truthy [data.agentLogId] (such as
    ["9"]), the client stores that identifier. It stays the stored one
    through every later call of the client until a call puts another one
    there (a disposition whose response rotates again, a phone login that
    succeeds), and until then every request that has an [agent_log_id]
    field sends it, with one exception: a hangup that is given an
    [agentLogId] argument of its own sends that argument. *)
Theorem setDisposition_rotates_agentLogId
    (campaign : string) (lead pc pn : jsval) (st : string)
    (r : Response) (p : Payload) (a : ConvosoAPI.ApiState) :
  below_400 (status r) = true ->
  truthy (success r) = true ->
  data r = Some p ->
  truthy (p_agentLogId p) = true ->
  let res := ConvosoAPI.setDisposition campaign lead pc pn st (Reply r) a in
  ConvosoAPI.agentLogId (state_of res) = p_agentLogId p /\
  forall later,
    Forall (fun c => installs c = false) later ->
    ConvosoAPI.agentLogId (state_of (ConvosoAPI.run_calls cfg later (state_of res))) =
      p_agentLogId p /\
    forall req id,
      In req (requests (trace_of (ConvosoAPI.run_calls cfg later (state_of res)))) ->
      ConvosoAPI.agent_log_id_of req = Some id ->
      id = p_agentLogId p \/
      exists c, In c later /\ own_identifier c = Some id /\
                exists campaign' sid t ci, req = ReqHangup campaign' sid id t ci.
Proof.
  intros Hst Hok Hdata Hid res.
  assert (Hrot : ConvosoAPI.agentLogId (state_of res) = p_agentLogId p).
  { subst res. unfold ConvosoAPI.setDisposition. run_js.
    rewrite Hst. destruct (set_cookie r); cbn; rewrite Hok, Hdata; cbn;
      rewrite Hid; reflexivity. }
  split; [exact Hrot |].
  intros later Hquiet. rewrite <- Hrot.
  exact (run_calls_agent_log_id later (state_of res) Hquiet).
Qed.

End ClientFacts.

(** Client calls inside an agent. *)
Ltac wp_client :=
  lazymatch goal with
  | |- wp (ConvosoAPI.hangup _ _ _ _ _ _) _ _ =>
      apply wp_hangup; intros ? ? ? ?
  | |- wp (ConvosoAPI.setDisposition _ _ _ _ _ _) _ _ =>
      apply wp_setDisposition; intros ? ? ? ?
  | |- wp (ConvosoAPI.changeAvailability _ _ _ _ _) _ _ =>
      apply wp_changeAvailability; intros ? ? ? ?
  | |- wp (ConvosoAPI.phoneLogout _ _ _) _ _ =>
      apply wp_phoneLogout; intros ? ? ? ?
  | |- wp (ConvosoAPI.checkAutoIncoming _ _ _) _ _ =>
      apply wp_checkAutoIncoming; intros ? ? ?
  end.

Ltac wp_agent := repeat (first [wp_client | wp_step]; cbv beta iota).

Ltac norm_trace := cbv beta; cbn [app]; rewrite ?app_nil_r.

(** Facts about the trace at a leaf of a symbolic run. *)
Ltac solve_trace :=
  repeat match goal with
         | H : effects _ _ _ |- _ => destruct H as (? & ? & ?)
         end;
  repeat first
    [ rewrite handled_app | rewrite count_app | rewrite app_nil_r
    | match goal with
      | H : handled ?t = _ |- context [handled ?t] => rewrite H
      | H : count ?f ?t = _ |- context [count ?f ?t] => rewrite H
      end
    | progress cbn ];
  try reflexivity; try lia.

(* --------------------------------------------------------------------- *)
(** ** PuppeteerAgent: one call *)
(* --------------------------------------------------------------------- *)

Section PuppeteerFacts.
Context (cfg : Config).
Import PuppeteerAgent.

Lemma wp_setDispositionViaAPI (ci : CallInfo) (env : CallEnv)
    (Q : outcome unit -> AgentState -> list Action -> Prop) (s : AgentState) :
  (forall s' t,
      same_control s s' ->
      handled t = [] ->
      count is_fallback t = 1%nat ->
      (count is_disposition_request t <= 1)%nat ->
      (harvested env -> count is_disposition_request t = 1%nat) ->
      Q (Ret tt) s' t) ->
  wp (setDispositionViaAPI cfg ci env) Q s.
Proof.
  intros H. unfold setDispositionViaAPI, on_api. wp_agent.
  all: apply H;
    [ repeat split
    | solve_trace | solve_trace | solve_trace
    | intros [[? ?] [? ?]]; try congruence; solve_trace ].
Qed.

Ltac solve_control :=
  unfold same_control in *; cbn in *; intuition congruence.

Lemma wp_endCall (ci : CallInfo) (env : CallEnv)
    (Q : outcome unit -> AgentState -> list Action -> Prop) (s : AgentState) :
  (forall s' t,
      same_control s s' -> effects t 0 0 ->
      Q (result_of (endCall cfg ci env s)) s' t) ->
  wp (endCall cfg ci env) Q s.
Proof.
  intros H. unfold wp. apply H.
  - change (wp (endCall cfg ci env) (fun _ s' _ => same_control s s') s).
    unfold endCall, on_api. wp_agent. all: repeat split.
  - change (wp (endCall cfg ci env) (fun _ _ t => effects t 0 0) s).
    unfold endCall, on_api. wp_agent. all: unfold effects; repeat split; solve_trace.
Qed.

Lemma wp_setDispositionLadder (ci : CallInfo) (env : CallEnv)
    (Q : outcome unit -> AgentState -> list Action -> Prop) (s : AgentState) :
  (forall o s' t,
      same_control s s' ->
      handled t = [] ->
      (count is_fallback t <= 1)%nat ->
      (count is_disposition_request t <= 1)%nat ->
      (ui_failed env ->
       o = Ret tt /\ count is_fallback t = 1%nat /\
       (harvested env -> count is_disposition_request t = 1%nat)) ->
      Q o s' t) ->
  wp (setDispositionLadder cfg ci env) Q s.
Proof.
  intros H. unfold setDispositionLadder.
  repeat (first [ apply wp_setDispositionViaAPI; intros ? ? ? ? ? ? ?
                | wp_client | wp_step ]; cbv beta iota).
  all: apply H;
    [ solve_control | solve_trace | solve_trace | solve_trace
    | intros [? [? | [? ?]]]; try congruence;
      (split; [reflexivity | split; [solve_trace | intros ?; solve_trace; auto]]) ].
Qed.

Lemma wp_stop (env : BrowserStopEnv)
    (Q : outcome unit -> AgentState -> list Action -> Prop) (s : AgentState) :
  (forall o s' t,
      browser s' = browser s -> isRunning s' = false ->
      callCount s' = callCount s -> inCall s' = inCall s ->
      lastLeadId s' = lastLeadId s ->
      handled t = [] ->
      Q o s' t) ->
  wp (stop env) Q s.
Proof.
  intros H. unfold stop. wp_agent.
  all: apply H; cbn; auto; try solve_trace.
  all: match goal with
       | E : negb _ = true |- _ => now apply negb_true_iff in E
       end.
Qed.

Ltac wp_puppeteer :=
  repeat (first [ apply wp_setDispositionLadder; intros ? ? ? ? ? ? ? ?
                | apply wp_endCall; intros ? ? ? ?
                | wp_client | wp_step ]; cbv beta iota).

(** [handleCall] always returns; it counts the call, marks it, clears the
    remembered lead and reaches the REST fallback at most once. *)
Lemma wp_handleCall (ci : CallInfo) (env : CallEnv)
    (Q : outcome unit -> AgentState -> list Action -> Prop) (s : AgentState) :
  (forall s' t,
      browser s' = browser s -> isRunning s' = isRunning s ->
      callCount s' = callCount s + 1 -> inCall s' = inCall s ->
      lastLeadId s' = JNull ->
      handled t = [Some ci] ->
      (count is_fallback t <= 1)%nat ->
      (count is_disposition_request t <= 1)%nat ->
      Q (Ret tt) s' t) ->
  wp (handleCall cfg ci env) Q s.
Proof.
  intros H. unfold handleCall. wp_puppeteer.
  all: apply H; try solve_control; solve_trace.
Qed.

(** C3. Within one [handleCall] the REST fallback is entered at most once
    and at most one disposition request is sent. When the end-call ladder
    has returned, the direct disposition click finds nothing, and the
    panel does not open or the click inside it finds nothing either, the
    fallback is entered exactly once; it sends exactly one disposition
    request once the page has handed over cookies and session
    identifiers, whatever the platform replies. *)
Theorem disposition_fallback_exactly_once (ci : CallInfo) (env : CallEnv)
    (s : AgentState) :
  let t := trace_of (handleCall cfg ci env s) in
  (count is_fallback t <= 1)%nat /\
  (count is_disposition_request t <= 1)%nat /\
  (result_of (endCall cfg ci env (incr_callCount s)) = Ret tt ->
   ui_failed env ->
   count is_fallback t = 1%nat /\
   (harvested env -> count is_disposition_request t = 1%nat)).
Proof.
  cbv zeta.
  change (wp (handleCall cfg ci env)
            (fun _ _ t =>
               (count is_fallback t <= 1)%nat /\
               (count is_disposition_request t <= 1)%nat /\
               (result_of (endCall cfg ci env (incr_callCount s)) = Ret tt ->
                ui_failed env ->
                count is_fallback t = 1%nat /\
                (harvested env -> count is_disposition_request t = 1%nat))) s).
  unfold handleCall. wp_puppeteer.
  all: (split; [solve_trace | split; [solve_trace |]]).
  all: intros Hend Hui; try congruence.
  all: match goal with
       | H : ui_failed _ -> _ |- _ => destruct (H Hui) as (? & ? & ?)
       end; try congruence.
  all: split; [solve_trace | intros Hh; solve_trace].
  all: match goal with
       | H : harvested _ -> _ |- _ => specialize (H Hh); lia
       end.
Qed.

(** Budget arithmetic. *)
Lemma within_budget_nil {A} (c : Z) :
  within_budget cfg c (@nil A) = [].
Proof. unfold within_budget. destruct (maxCalls cfg >? 0)%Z; [apply firstn_nil | reflexivity]. Qed.

Lemma within_budget_reached {A} (c : Z) (l : list A) :
  budget_reached cfg c = true -> within_budget cfg c l = [].
Proof.
  unfold budget_reached, within_budget. intros H.
  apply andb_true_iff in H as [H1 H2]. rewrite H1.
  replace (Z.to_nat (maxCalls cfg - c)) with O by lia. reflexivity.
Qed.

Lemma within_budget_cons {A} (c : Z) (x : A) (l : list A) :
  budget_reached cfg c = false ->
  within_budget cfg c (x :: l) = x :: within_budget cfg (c + 1) l.
Proof.
  unfold budget_reached, within_budget. intros H.
  destruct (maxCalls cfg >? 0)%Z eqn:E; [| reflexivity].
  cbn in H.
  replace (Z.to_nat (maxCalls cfg - c)) with (S (Z.to_nat (maxCalls cfg - (c + 1)))) by lia.
  reflexivity.
Qed.

Lemma within_budget_length {A} (c : Z) (l : list A) :
  0 < maxCalls cfg -> 0 <= c ->
  (length (within_budget cfg c l) <= Z.to_nat (maxCalls cfg - c))%nat /\
  (maxCalls cfg - c <= Z.of_nat (length l) ->
   length (within_budget cfg c l) = Z.to_nat (maxCalls cfg - c)).
Proof.
  intros Hpos Hc. unfold within_budget.
  replace (maxCalls cfg >? 0)%Z with true by lia.
  rewrite length_firstn. split; lia.
Qed.

(** Once [isRunning] is false the loop is left at its next test. *)
Lemma monitorCalls_stopped (env : BrowserStopEnv) (ticks : list Tick) (s : AgentState) :
  isRunning s = false ->
  monitorCalls cfg env ticks s = (Ret Finished, s, []).
Proof.
  intros H. destruct ticks; cbn; unfold bind, get; cbn; now rewrite H.
Qed.

(** One iteration, entered with nothing remembered and no call open:
    whichever way it ends, it leaves the agent so again. *)
Lemma wp_iteration (env : BrowserStopEnv) (rest : M AgentState Flow)
    (offer : list (option CallInfo))
    (Q : outcome Flow -> AgentState -> list Action -> Prop) (s : AgentState) :
  inCall s = false -> lastLeadId s = JNull -> isRunning s = true ->
  (budget_reached cfg (callCount s) = false ->
   wp rest (fun o s' t =>
              (o = Ret Continue /\ inCall s' = false /\ lastLeadId s' = JNull /\
               isRunning s' = true /\ handled t = offer /\
               callCount s' = callCount s + Z.of_nat (length offer))
              \/ (exists e, o = Throw e /\ s' = s /\ handled t = [] /\ offer = [])) s) ->
  (forall flow s' t,
      inCall s' = false -> lastLeadId s' = JNull ->
      (if budget_reached cfg (callCount s)
       then isRunning s' = false /\ handled t = [] /\ callCount s' = callCount s
       else flow = Continue /\ isRunning s' = true /\ handled t = offer /\
            callCount s' = callCount s + Z.of_nat (length offer)) ->
      Q (Ret flow) s' t) ->
  wp (iteration cfg env rest) Q s.
Proof.
  intros Hin Hlast Hrun Hrest H. unfold iteration.
  apply wp_try_catch, wp_bind, wp_get. cbv beta iota.
  destruct (budget_reached cfg (callCount s)) eqn:Hb.
  - apply wp_bind, wp_stop. intros o s' t Hbr Hr Hc Hi Hl Hh.
    destruct o as [[] | e]; wp_run; apply H; cbn; rewrite ?Hb;
      repeat split; try congruence; solve_trace.
  - eapply wp_mono; [apply Hrest; reflexivity |].
    intros o s' t [(-> & Hi & Hl & Hr & Hh & Hc) | (e & -> & -> & Hh & ->)].
    + apply H; auto.
    + wp_run. apply H; cbn; auto.
      repeat split; auto; solve_trace.
Qed.

Lemma wp_detect_and_handle (tick : Tick) (s : AgentState) :
  inCall s = false -> lastLeadId s = JNull -> isRunning s = true ->
  wp (detect_and_handle cfg tick)
     (fun o s' t =>
        (o = Ret Continue /\ inCall s' = false /\ lastLeadId s' = JNull /\
         isRunning s' = true /\ handled t = option_list (actionable tick) /\
         callCount s' = callCount s + Z.of_nat (length (option_list (actionable tick))))
        \/ (exists e, o = Throw e /\ s' = s /\ handled t = [] /\
                       option_list (actionable tick) = [])) s.
Proof.
  intros Hin Hlast Hrun. unfold detect_and_handle, actionable.
  repeat (first [ apply wp_handleCall; intros ? ? ? ? ? ? ? ? ? ?
                | wp_client | wp_step ]; cbv beta iota).
  all: try (rewrite Hin in *; discriminate).
  all: try solve [right; eexists; repeat split; reflexivity].
  all: try solve
    [ exfalso;
      match goal with
      | E : strict_eq _ _ = true |- _ =>
          unfold strict_eq in E; apply bool_decide_eq_true in E;
          cbn in E; rewrite Hlast in E
      end;
      match goal with
      | E : JNull = lead_id ?c, T : truthy (lead_id ?c) = true |- _ =>
          rewrite <- E in T; discriminate T
      end ].
  all: left; cbn in *; rewrite ?app_nil_r;
    repeat match goal with
           | E : truthy _ = _ |- _ => rewrite E
           | E : handled ?t = _ |- context [handled ?t] => rewrite E
           end;
    cbn; repeat split; try congruence; lia.
Qed.

(** The loop handles the offered calls in order, one [handleCall] each,
    until the budget is used up; with a budget that the offers reach it
    ends stopped. *)
Lemma monitorCalls_run (env : BrowserStopEnv) (ticks : list Tick) :
  forall s : AgentState,
    inCall s = false -> lastLeadId s = JNull -> isRunning s = true ->
    wp (monitorCalls cfg env ticks)
       (fun o s' t =>
          handled t = within_budget cfg (callCount s) (omap actionable ticks) /\
          callCount s' = callCount s + Z.of_nat (length (handled t)) /\
          lastLeadId s' = JNull /\ inCall s' = false /\
          (0 < maxCalls cfg ->
           maxCalls cfg - callCount s <= Z.of_nat (length (omap actionable ticks)) ->
           o = Ret Finished /\ isRunning s' = false)) s.
Proof.
  induction ticks as [| tick rest IH]; intros s Hin Hlast Hrun.
  - cbn [monitorCalls]. apply wp_bind, wp_get. rewrite Hrun. cbn [negb].
    apply wp_bind, (wp_iteration env (ret Continue) []);
      [exact Hin | exact Hlast | exact Hrun | |].
    { intros _. apply wp_ret. left. cbn. repeat split; auto. lia. }
    intros flow s1 t1 Hin1 Hlast1 Hit.
    destruct (budget_reached cfg (callCount s)) eqn:Hb.
    + destruct Hit as (Hr1 & Hh1 & Hc1).
      destruct flow; wp_run; rewrite ?Hr1; cbn [app omap list_omap];
        rewrite ?app_nil_r, Hh1, within_budget_nil; cbn;
        repeat split; auto; lia.
    + destruct Hit as (-> & Hr1 & Hh1 & Hc1). wp_run. rewrite Hr1. cbn [app omap list_omap].
      rewrite ?app_nil_r, Hh1, within_budget_nil. cbn.
      repeat split; auto; try lia.
      all: exfalso; unfold budget_reached in Hb; cbn in *; lia.
  - cbn [monitorCalls]. apply wp_bind, wp_get. rewrite Hrun. cbn [negb].
    apply wp_bind, (wp_iteration env (detect_and_handle cfg tick)
                      (option_list (actionable tick)));
      [exact Hin | exact Hlast | exact Hrun | |].
    { intros _. now apply wp_detect_and_handle. }
    intros flow s1 t1 Hin1 Hlast1 Hit.
    destruct (budget_reached cfg (callCount s)) eqn:Hb.
    + destruct Hit as (Hr1 & Hh1 & Hc1).
      assert (Hq : handled (t1 ++ []) =
                   within_budget cfg (callCount s) (omap actionable (tick :: rest)) /\
                   callCount s1 = callCount s + Z.of_nat (length (handled (t1 ++ [])))).
      { rewrite app_nil_r, Hh1, within_budget_reached by exact Hb.
        split; [reflexivity | cbn; lia]. }
      destruct Hq as [Hq1 Hq2].
      destruct flow.
      * unfold wp. rewrite monitorCalls_stopped by exact Hr1.
        unfold result_of, state_of, trace_of. cbn [fst snd].
        repeat split; auto.
      * apply wp_ret. repeat split; auto.
    + destruct Hit as (-> & Hr1 & Hh1 & Hc1).
      eapply wp_mono; [apply (IH s1 Hin1 Hlast1 Hr1) |].
      intros o s2 t2 (Hh2 & Hc2 & Hl2 & Hi2 & Hfin).
      assert (Hstep : within_budget cfg (callCount s) (omap actionable (tick :: rest)) =
                      handled t1 ++ within_budget cfg (callCount s1) (omap actionable rest)).
      { rewrite Hh1, Hc1, omap_cons_option_list.
        destruct (actionable tick) as [c |]; simpl.
        - now rewrite within_budget_cons.
        - now rewrite Z.add_0_r. }
      cbv beta. cbn [app].
      rewrite handled_app, Hh2, Hstep, length_app.
      split; [reflexivity |]. split; [rewrite <- Hh2, Hh1; lia |].
      split; [exact Hl2 |]. split; [exact Hi2 |].
      intros Hpos Hle. apply Hfin; [exact Hpos |].
      rewrite Hc1. revert Hle. rewrite omap_cons_option_list, length_app. lia.
Qed.

End PuppeteerFacts.

(* --------------------------------------------------------------------- *)
(** ** ConvosoAgent: the polling loop *)
(* --------------------------------------------------------------------- *)

Section PollingFacts.
Context (cfg : Config).
Import ConvosoAgent.

Lemma polling_wp_handleCall (ci : option CallInfo) (ev : PollEvent)
    (Q : outcome unit -> AgentState -> list Action -> Prop) (s : AgentState) :
  (forall s' t,
      isRunning s' = isRunning s -> callCount s' = callCount s + 1 ->
      handled t = [ci] ->
      Q (Ret tt) s' t) ->
  wp (handleCall cfg ci ev) Q s.
Proof.
  intros H. unfold handleCall, on_api. wp_agent.
  all: apply H; cbn; auto; solve_trace.
Qed.

Lemma polling_wp_stop (env : StopEnv)
    (Q : outcome unit -> AgentState -> list Action -> Prop) (s : AgentState) :
  (forall s' t,
      isRunning s' = false -> callCount s' = callCount s -> handled t = [] ->
      Q (Ret tt) s' t) ->
  wp (stop cfg env) Q s.
Proof.
  intros H. unfold stop, on_api. wp_agent.
  all: apply H; cbn; auto; try solve_trace.
  all: match goal with
       | E : negb _ = true |- _ => now apply negb_true_iff in E
       end.
Qed.

Lemma polling_wp_iteration (env : StopEnv) (ev : PollEvent)
    (Q : outcome Flow -> AgentState -> list Action -> Prop) (s : AgentState) :
  isRunning s = true ->
  (forall flow s' t, iteration_post cfg ev s flow s' t -> Q (Ret flow) s' t) ->
  wp (iteration cfg env (poll_and_handle cfg ev)) Q s.
Proof.
  intros Hrun H. unfold iteration, poll_and_handle, on_api.
  repeat (first [ apply polling_wp_handleCall; intros ? ? ? ? ?
                | apply polling_wp_stop; intros ? ? ? ? ?
                | wp_client | wp_step ]; cbv beta iota).
  all: apply H; unfold iteration_post;
    repeat match goal with
           | E : budget_reached _ _ = _ |- _ => rewrite E
           | E : polled _ = _ |- _ => rewrite E
           | E : critical _ = _ |- _ => rewrite E
           end;
    cbn in *; repeat split; try congruence; solve_trace.
Qed.

Lemma polling_wp_idle (env : StopEnv)
    (Q : outcome Flow -> AgentState -> list Action -> Prop) (s : AgentState) :
  isRunning s = true ->
  (forall flow s' t,
      (if budget_reached cfg (callCount s)
       then isRunning s' = false /\ flow = Break
       else isRunning s' = true /\ flow = Continue) ->
      handled t = [] -> callCount s' = callCount s ->
      Q (Ret flow) s' t) ->
  wp (iteration cfg env (ret Continue)) Q s.
Proof.
  intros Hrun H. unfold iteration.
  repeat (first [ apply polling_wp_stop; intros ? ? ? ? ?
                | wp_client | wp_step ]; cbv beta iota).
  all: apply H;
    repeat match goal with
           | E : budget_reached _ _ = _ |- _ => rewrite E
           end;
    cbn in *; repeat split; try congruence; solve_trace.
Qed.

Lemma handleCallsLoop_stopped (env : StopEnv) (evs : list PollEvent) (s : AgentState) :
  isRunning s = false ->
  handleCallsLoop cfg env evs s = (Ret Finished, s, []).
Proof.
  intros H. destruct evs; cbn; unfold bind, get; cbn; now rewrite H.
Qed.

(** The polling loop handles the offered calls in order, one [handleCall]
    each, until the budget is used up; with a budget that the offers reach
    it ends stopped. *)
Lemma handleCallsLoop_run (env : StopEnv) (evs : list PollEvent) :
  forall s : AgentState,
    isRunning s = true ->
    wp (handleCallsLoop cfg env evs)
       (fun o s' t =>
          handled t = within_budget cfg (callCount s) (offered evs) /\
          callCount s' = callCount s + Z.of_nat (length (handled t)) /\
          (0 < maxCalls cfg ->
           maxCalls cfg - callCount s <= Z.of_nat (length (offered evs)) ->
           o = Ret Finished /\ isRunning s' = false)) s.
Proof.
  induction evs as [| ev rest IH]; intros s Hrun.
  - cbn [handleCallsLoop offered]. apply wp_bind, wp_get. rewrite Hrun. cbn [negb].
    apply wp_bind, polling_wp_idle; [exact Hrun |].
    intros flow s1 t1 Hb Hh1 Hc1. rewrite within_budget_nil.
    destruct (budget_reached cfg (callCount s)) eqn:E; destruct Hb as [Hr1 ->];
      wp_run; rewrite ?Hr1; norm_trace; rewrite Hh1; cbn;
      repeat split; auto; try lia.
    all: exfalso; unfold budget_reached in E; cbn in *; lia.
  - cbn [handleCallsLoop]. apply wp_bind, wp_get. rewrite Hrun. cbn [negb].
    apply wp_bind, polling_wp_iteration; [exact Hrun |].
    intros flow s1 t1 Hit. unfold iteration_post in Hit. cbn [offered].
    destruct (budget_reached cfg (callCount s)) eqn:Hb.
    + destruct Hit as (Hr1 & Hh1 & Hc1).
      rewrite within_budget_reached by exact Hb.
      destruct flow.
      * unfold wp. rewrite handleCallsLoop_stopped by exact Hr1.
        unfold result_of, state_of, trace_of. cbn [fst snd]. norm_trace.
        rewrite Hh1. cbn. repeat split; auto; lia.
      * apply wp_ret. norm_trace. rewrite Hh1. cbn.
        repeat split; auto; lia.
    + destruct (polled (poll ev)) as [[ci |] | e].
      * destruct Hit as (-> & Hr1 & Hh1 & Hc1).
        eapply wp_mono; [apply (IH s1 Hr1) |].
        intros o s2 t2 (Hh2 & Hc2 & Hfin). norm_trace.
        rewrite Hc1 in Hh2, Hc2, Hfin.
        rewrite handled_app, Hh1, within_budget_cons, <- Hh2 by exact Hb.
        split; [reflexivity |]. split; [cbn [app length]; lia |].
        intros Hpos Hle. apply Hfin; [exact Hpos |]. cbn [length] in Hle. lia.
      * destruct Hit as (-> & Hr1 & Hh1 & Hc1).
        eapply wp_mono; [apply (IH s1 Hr1) |].
        intros o s2 t2 (Hh2 & Hc2 & Hfin). norm_trace.
        rewrite Hc1 in Hh2, Hc2, Hfin.
        rewrite handled_app, Hh1, <- Hh2.
        split; [reflexivity |]. split; [cbn [app]; lia |].
        intros Hpos Hle. apply Hfin; [exact Hpos |]. lia.
      * destruct Hit as (Hh1 & Hc1 & Hcrit).
        destruct (critical e).
        -- destruct Hcrit as [-> Hr1]. apply wp_ret. norm_trace.
           rewrite Hh1, within_budget_nil. cbn.
           repeat split; auto; lia.
        -- destruct Hcrit as [-> Hr1].
           eapply wp_mono; [apply (IH s1 Hr1) |].
           intros o s2 t2 (Hh2 & Hc2 & Hfin). norm_trace.
           rewrite Hc1 in Hh2, Hc2, Hfin.
           rewrite handled_app, Hh1, <- Hh2.
           split; [reflexivity |]. split; [cbn [app]; lia |].
           intros Hpos Hle. apply Hfin; [exact Hpos |]. lia.
Qed.

End PollingFacts.

(* --------------------------------------------------------------------- *)
(** ** PreviousPuppeteerAgent: the bounded wait *)
(* --------------------------------------------------------------------- *)

Section WaitFacts.
Import PreviousPuppeteerAgent.

Lemma waitLoop_effects (expected : jsval) (timeoutMs : Z)
    (obs : nat -> Observation) (elapsedMs : Z) (i : nat) :
  effects (waitLoop expected timeoutMs obs elapsedMs i).2 0 0.
Proof.
  funelim (waitLoop expected timeoutMs obs elapsedMs i); try (repeat split; fail).
  cbn zeta. destruct H as (H1 & H2 & H3). repeat split; cbn; assumption.
Qed.

(** The number of looks is bounded by the time that is left. *)
Lemma waitLoop_bounded (expected : jsval) (timeoutMs : Z)
    (obs : nat -> Observation) (elapsedMs : Z) (i : nat) :
  0 <= elapsedMs ->
  (count is_observation (waitLoop expected timeoutMs obs elapsedMs i).2 <=
   Z.to_nat ((timeoutMs - elapsedMs + 499) / 500))%nat.
Proof.
  funelim (waitLoop expected timeoutMs obs elapsedMs i); intros Hpos; cbn.
  - lia.
  - assert (1 <= (timeoutMs - elapsedMs + 499) / 500)
      by (apply Z.div_le_lower_bound; lia).
    lia.
  - assert (1 <= (timeoutMs - elapsedMs + 499) / 500)
      by (apply Z.div_le_lower_bound; lia).
    lia.
  - specialize (H ltac:(lia)).
    assert ((timeoutMs - (elapsedMs + Z.of_N (lag (obs i)) + 500) + 499) / 500 + 1
            <= (timeoutMs - elapsedMs + 499) / 500).
    { replace (timeoutMs - elapsedMs + 499)
        with ((timeoutMs - (elapsedMs + Z.of_N (lag (obs i)) + 500) + 499
               + Z.of_N (lag (obs i))) + 1 * 500) by lia.
      rewrite Z.div_add by lia.
      apply Z.add_le_mono_r, Z.div_le_mono; lia. }
    assert (0 <= (timeoutMs - (elapsedMs + Z.of_N (lag (obs i)) + 500) + 499) / 500
            \/ (timeoutMs - (elapsedMs + Z.of_N (lag (obs i)) + 500) + 499) / 500 < 0)
      by lia.
    assert (1 <= (timeoutMs - elapsedMs + 499) / 500)
      by (apply Z.div_le_lower_bound; lia).
    lia.
Qed.

(** How the wait ends, by its looks [i], [i+1], ...: with [true] at the
    first look that shows the expected state, with the error of the first
    look that fails, with [false] when every look it had time for missed. *)
Lemma waitLoop_result (expected : jsval) (timeoutMs : Z)
    (obs : nat -> Observation) (elapsedMs : Z) (i : nat) :
  let r := waitLoop expected timeoutMs obs elapsedMs i in
  let n := count is_observation r.2 in
  (forall j, (j < n - 1)%nat -> miss expected (obs (i + j)%nat)) /\
  match r.1 with
  | Ret true => (1 <= n)%nat /\ seen (obs (i + (n - 1))%nat) = Ret expected
  | Ret false => forall j, (j < n)%nat -> miss expected (obs (i + j)%nat)
  | Throw e => (1 <= n)%nat /\ seen (obs (i + (n - 1))%nat) = Throw e
  end.
Proof.
  funelim (waitLoop expected timeoutMs obs elapsedMs i); cbn zeta; cbn.
  - split; intros j Hj; lia.
  - rewrite Nat.add_0_r. split; [intros j Hj; lia | auto].
  - rewrite Nat.add_0_r. split; [intros j Hj; lia |].
    split; [lia |]. rewrite Heq0. f_equal.
    unfold strict_eq in Heq. now apply bool_decide_eq_true in Heq.
  - cbn zeta in H. destruct H as [Hmiss Hres].
    set (r := waitLoop expectedState timeoutMs obs
                (elapsedMs + Z.of_N (lag (obs i)) + 500) (S i)) in *.
    set (n := count is_observation r.2) in *.
    assert (Hhere : miss expectedState (obs (i + 0)%nat)).
    { rewrite Nat.add_0_r. exists currentState. split; [exact Heq0 |].
      unfold strict_eq in Heq. now apply bool_decide_eq_false in Heq. }
    split.
    + intros j Hj. destruct j as [| j]; [exact Hhere |].
      replace (i + S j)%nat with (S i + j)%nat by lia.
      destruct (r.1) as [[|] | e].
      * apply Hmiss. lia.
      * apply Hres. lia.
      * apply Hmiss. lia.
    + destruct (r.1) as [[|] | e].
      * destruct Hres as [Hn Hs]. split; [lia |].
        match goal with
        | |- seen (obs ?k) = _ => replace k with (S i + (n - 1))%nat by lia
        end. exact Hs.
      * intros j Hj. destruct j as [| j]; [exact Hhere |].
        replace (i + S j)%nat with (S i + j)%nat by lia. apply Hres. lia.
      * destruct Hres as [Hn Hs]. split; [lia |].
        match goal with
        | |- seen (obs ?k) = _ => replace k with (S i + (n - 1))%nat by lia
        end. exact Hs.
Qed.

(** Every look starts before the timeout has elapsed. *)
Lemma waitLoop_looks_in_time (expected : jsval) (timeoutMs : Z)
    (obs : nat -> Observation) (elapsedMs : Z) (i : nat) :
  0 <= elapsedMs ->
  Forall (fun ms => 0 <= ms < timeoutMs)
         (look_times (waitLoop expected timeoutMs obs elapsedMs i).2).
Proof.
  funelim (waitLoop expected timeoutMs obs elapsedMs i); intros Hpos; cbn.
  - constructor.
  - constructor; [lia | constructor].
  - constructor; [lia | constructor].
  - constructor; [lia |]. apply H. lia.
Qed.

Lemma wp_waitForPhoneState {S} (expected : jsval) (timeoutMs : Z)
    (obs : nat -> Observation) (Q : outcome bool -> S -> list Action -> Prop) (s : S) :
  (forall o t,
      effects t 0 0 ->
      (count is_observation t <= max_looks timeoutMs)%nat ->
      Q o s t) ->
  wp (waitForPhoneState expected timeoutMs obs) Q s.
Proof.
  intros H. unfold wp, waitForPhoneState, result_of, state_of, trace_of.
  cbn [fst snd]. apply H.
  - apply waitLoop_effects.
  - pose proof (waitLoop_bounded expected timeoutMs obs 0 0 ltac:(lia)) as Hb.
    unfold max_looks. now rewrite Z.sub_0_r in Hb.
Qed.

Lemma look_start_ext (f g : nat -> Observation) (k : nat) :
  (forall j, (j < k)%nat -> f j = g j) -> look_start f k = look_start g k.
Proof.
  induction k as [| k IH]; intros H; [reflexivity |].
  cbn [look_start]. rewrite IH by (intros j Hj; apply H; lia).
  rewrite (H k) by lia. reflexivity.
Qed.

Lemma look_start_shift (obs : nat -> Observation) (k : nat) :
  look_start obs (S k) =
  Z.of_N (lag (obs O)) + 500 + look_start (fun j => obs (S j)) k.
Proof.
  induction k as [| k IH]; [cbn; lia |].
  cbn [look_start] in *. rewrite IH. lia.
Qed.

Lemma look_start_nonneg (obs : nat -> Observation) (k : nat) :
  0 <= look_start obs k.
Proof. induction k as [| k IH]; cbn [look_start]; lia. Qed.

(** Look number [S j] of the looks from [i] on is look number [j] of the
    looks from [S i] on, one lag and one sleep later. *)
Lemma look_start_next (obs : nat -> Observation) (i j : nat) :
  look_start (fun j' => obs (i + j')%nat) (S j) =
  Z.of_N (lag (obs i)) + 500 + look_start (fun j' => obs (S i + j')%nat) j.
Proof.
  rewrite look_start_shift. cbv beta. rewrite Nat.add_0_r.
  f_equal. apply look_start_ext. intros j' _. f_equal. lia.
Qed.

(** When the looks happen, and when a wait that gives up does so: every
    look starts before the timeout, and [false] is returned at the first
    clock reading at or after it. *)
Lemma waitLoop_timing (expected : jsval) (timeoutMs : Z)
    (obs : nat -> Observation) (elapsedMs : Z) (i : nat) :
  let r := waitLoop expected timeoutMs obs elapsedMs i in
  let n := count is_observation r.2 in
  let at_look j := elapsedMs + look_start (fun j' => obs (i + j')%nat) j in
  (elapsedMs < timeoutMs -> (1 <= n)%nat) /\
  (forall j, (j < n)%nat -> at_look j < timeoutMs) /\
  (r.1 = Ret false ->
   timeoutMs <= at_look n /\ last r.2 = Some (Elapsed (at_look n))).
Proof.
  funelim (waitLoop expected timeoutMs obs elapsedMs i); cbn zeta;
    cbn [fst snd count is_observation Nat.add].
  - split; [lia |]. split; [intros j Hj; lia |].
    intros _. cbn [look_start]. rewrite Z.add_0_r. split; [lia | reflexivity].
  - split; [lia |]. split; [| discriminate].
    intros j Hj. assert (j = 0%nat) as -> by lia. cbn. lia.
  - split; [lia |]. split; [| discriminate].
    intros j Hj. assert (j = 0%nat) as -> by lia. cbn. lia.
  - cbn zeta in H. destruct H as (_ & Hlooks & Hfalse).
    set (r := waitLoop expectedState timeoutMs obs
                (elapsedMs + Z.of_N (lag (obs i)) + 500) (S i)) in *.
    set (n := count is_observation r.2) in *.
    split; [lia |]. split.
    + intros j Hj. destruct j as [| j]; [cbn; lia |].
      rewrite look_start_next. specialize (Hlooks j ltac:(lia)). lia.
    + intros Hr. destruct (Hfalse Hr) as [Hle Hlast].
      rewrite look_start_next.
      replace (elapsedMs + (Z.of_N (lag (obs i)) + 500 +
                 look_start (fun j' => obs (S i + j')%nat) n))
        with (elapsedMs + Z.of_N (lag (obs i)) + 500 +
                 look_start (fun j' => obs (S i + j')%nat) n) by lia.
      split; [exact Hle |].
      rewrite !last_cons, Hlast. reflexivity.
Qed.

(** The wait finds the expected state whenever a look shows it in time. *)
Lemma waitLoop_finds (expected : jsval) (timeoutMs : Z) (obs : nat -> Observation)
    (k : nat) :
  forall (elapsedMs : Z) (i : nat),
    (forall j, (j < k)%nat -> miss expected (obs (i + j)%nat)) ->
    seen (obs (i + k)%nat) = Ret expected ->
    elapsedMs + (look_start (fun j => obs (i + j)%nat) k) < timeoutMs ->
    (waitLoop expected timeoutMs obs elapsedMs i).1 = Ret true /\
    count is_observation (waitLoop expected timeoutMs obs elapsedMs i).2 = S k.
Proof.
  induction k as [| k IH]; intros elapsedMs i Hmiss Hseen Htime.
  - rewrite Nat.add_0_r in Hseen. cbn in Htime.
    simp waitLoop.
    destruct (Z_lt_dec elapsedMs timeoutMs); [| lia]. cbn.
    rewrite Hseen. cbn.
    unfold strict_eq. rewrite bool_decide_eq_true_2 by reflexivity. cbn.
    split; reflexivity.
  - rewrite look_start_next in Htime.
    pose proof (look_start_nonneg (fun j' => obs (S i + j')%nat) k) as Hlag.
    destruct (Hmiss O ltac:(lia)) as (v & Hv & Hne). rewrite Nat.add_0_r in Hv.
    simp waitLoop.
    destruct (Z_lt_dec elapsedMs timeoutMs) as [Hlt | Hge]; [| cbn in *; lia]. cbn.
    rewrite Hv. cbn.
    unfold strict_eq. rewrite bool_decide_eq_false_2 by exact Hne. cbn.
    destruct (IH (elapsedMs + Z.of_N (lag (obs i)) + 500) (S i)) as [Hr Hc].
    + intros j Hj. replace (S i + j)%nat with (i + S j)%nat by lia. apply Hmiss. lia.
    + replace (S i + k)%nat with (i + S k)%nat by lia. exact Hseen.
    + lia.
    + rewrite Hr, Hc. split; reflexivity.
Qed.

(** A wait reads the clock first, and logs nothing. *)
Lemma waitLoop_clock (expected : jsval) (timeoutMs : Z)
    (obs : nat -> Observation) (elapsedMs : Z) (i : nat) :
  (1 <= count is_clock (waitLoop expected timeoutMs obs elapsedMs i).2)%nat /\
  count is_timeout_warning (waitLoop expected timeoutMs obs elapsedMs i).2 = 0%nat.
Proof.
  funelim (waitLoop expected timeoutMs obs elapsedMs i); cbn zeta; cbn;
    try (split; [lia | reflexivity]).
  destruct H as [_ Hw]. split; [lia | exact Hw].
Qed.

End WaitFacts.

(* --------------------------------------------------------------------- *)
(** ** PreviousPuppeteerAgent: one call, and the loop *)
(* --------------------------------------------------------------------- *)

Section PreviousFacts.
Context (cfg : Config).
Import PreviousPuppeteerAgent.

Lemma prev_wp_setDispositionViaAPI (ci : CallInfo) (env : CallEnv)
    (Q : outcome bool -> AgentState -> list Action -> Prop) (s : AgentState) :
  (forall b s' t, same_control s s' -> handled t = [] -> Q (Ret b) s' t) ->
  wp (setDispositionViaAPI cfg ci env) Q s.
Proof.
  intros H. unfold setDispositionViaAPI, on_api. wp_agent.
  all: apply H; [repeat split | solve_trace].
Qed.

(** [handleCall] always returns, whatever the page, the platform and the
    phone do: it counts the call, marks it, clears what it remembered, and
    looks at the phone state at most [max_looks 10000] times. *)
Lemma prev_wp_handleCall (ci : CallInfo) (env : CallEnv)
    (Q : outcome unit -> AgentState -> list Action -> Prop) (s : AgentState) :
  (forall s' t,
      browser s' = browser s -> isRunning s' = isRunning s ->
      callCount s' = callCount s + 1 -> inCall s' = inCall s ->
      lastLeadId s' = JNull -> lastCallLogId s' = JNull ->
      handled t = [Some ci] ->
      Q (Ret tt) s' t) ->
  wp (handleCall cfg ci env) Q s.
Proof.
  intros H. unfold handleCall.
  repeat (first [ apply prev_wp_setDispositionViaAPI; intros ? ? ? ? ?
                | apply wp_waitForPhoneState; intros ? ? ? ?
                | wp_client | wp_step ]; cbv beta iota).
  all: apply H; try solve [unfold same_control in *; cbn in *; intuition congruence].
  all: solve_trace.
Qed.

Lemma prev_wp_stop (env : StopEnv)
    (Q : outcome unit -> AgentState -> list Action -> Prop) (s : AgentState) :
  (forall o s' t,
      browser s' = browser s -> isRunning s' = false ->
      callCount s' = callCount s -> inCall s' = inCall s ->
      lastLeadId s' = lastLeadId s -> lastCallLogId s' = lastCallLogId s ->
      handled t = [] ->
      Q o s' t) ->
  wp (stop env) Q s.
Proof.
  intros H. unfold stop. wp_agent.
  all: apply H; cbn; auto; try solve_trace.
  all: match goal with
       | E : negb _ = true |- _ => now apply negb_true_iff in E
       end.
Qed.

Lemma prev_wp_iteration (env : StopEnv) (rest : M AgentState Flow)
    (offer : list (option CallInfo))
    (Q : outcome Flow -> AgentState -> list Action -> Prop) (s : AgentState) :
  inCall s = false -> lastLeadId s = JNull -> lastCallLogId s = JNull ->
  isRunning s = true ->
  (budget_reached cfg (callCount s) = false ->
   wp rest (fun o s' t =>
              (o = Ret Continue /\ inCall s' = false /\ lastLeadId s' = JNull /\
               lastCallLogId s' = JNull /\
               isRunning s' = true /\ handled t = offer /\
               callCount s' = callCount s + Z.of_nat (length offer))
              \/ (exists e, o = Throw e /\ s' = s /\ handled t = [] /\ offer = [])) s) ->
  (forall flow s' t,
      inCall s' = false -> lastLeadId s' = JNull -> lastCallLogId s' = JNull ->
      (if budget_reached cfg (callCount s)
       then isRunning s' = false /\ handled t = [] /\ callCount s' = callCount s
       else flow = Continue /\ isRunning s' = true /\ handled t = offer /\
            callCount s' = callCount s + Z.of_nat (length offer)) ->
      Q (Ret flow) s' t) ->
  wp (iteration cfg env rest) Q s.
Proof.
  intros Hin Hlast Hlog Hrun Hrest H. unfold iteration.
  apply wp_try_catch, wp_bind, wp_get. cbv beta iota.
  destruct (budget_reached cfg (callCount s)) eqn:Hb.
  - apply wp_bind, prev_wp_stop. intros o s' t Hbr Hr Hc Hi Hl Hg Hh.
    destruct o as [[] | e]; wp_run; apply H; cbn; rewrite ?Hb;
      repeat split; try congruence; solve_trace.
  - eapply wp_mono; [apply Hrest; reflexivity |].
    intros o s' t [(-> & Hi & Hl & Hg & Hr & Hh & Hc) | (e & -> & -> & Hh & ->)].
    + apply H; auto.
    + wp_run. apply H; cbn; auto.
      repeat split; auto; solve_trace.
Qed.

Lemma prev_wp_detect_and_handle (tick : Tick) (s : AgentState) :
  inCall s = false -> lastLeadId s = JNull -> lastCallLogId s = JNull ->
  isRunning s = true ->
  wp (detect_and_handle cfg tick)
     (fun o s' t =>
        (o = Ret Continue /\ inCall s' = false /\ lastLeadId s' = JNull /\
         lastCallLogId s' = JNull /\
         isRunning s' = true /\ handled t = option_list (actionable tick) /\
         callCount s' = callCount s + Z.of_nat (length (option_list (actionable tick))))
        \/ (exists e, o = Throw e /\ s' = s /\ handled t = [] /\
                       option_list (actionable tick) = [])) s.
Proof.
  intros Hin Hlast Hlog Hrun. unfold detect_and_handle, actionable.
  repeat (first [ apply prev_wp_handleCall; intros ? ? ? ? ? ? ? ? ?
                | wp_client | wp_step ]; cbv beta iota).
  all: try (rewrite Hin in *; discriminate).
  all: repeat match goal with
              | E : negb _ = true |- _ => apply negb_true_iff in E
              | E : negb _ = false |- _ => apply negb_false_iff in E
              end.
  all: try solve
    [ right; eexists; repeat split;
      repeat match goal with
             | E : strict_eq _ (JNum 2) = _ |- _ => rewrite E
             end;
      reflexivity ].
  all: try solve
    [ exfalso;
      match goal with
      | E : strict_eq _ _ && _ = true |- _ =>
          apply andb_true_iff in E; destruct E as [E _];
          unfold strict_eq in E; apply bool_decide_eq_true in E;
          cbn in E; rewrite Hlast in E
      end;
      match goal with
      | E : JNull = lead_id ?c, T : truthy (lead_id ?c) = true |- _ =>
          rewrite <- E in T; discriminate T
      end ].
  all: left; cbn in *; rewrite ?app_nil_r;
    repeat match goal with
           | E : strict_eq _ (JNum 2) = _ |- _ => rewrite E
           | E : truthy _ = _ |- _ => rewrite E
           | E : handled ?t = _ |- context [handled ?t] => rewrite E
           end;
    cbn; repeat split; try congruence; lia.
Qed.

Lemma prev_monitorCalls_stopped (env : StopEnv) (ticks : list Tick) (s : AgentState) :
  isRunning s = false ->
  monitorCalls cfg env ticks s = (Ret Finished, s, []).
Proof.
  intros H. destruct ticks; cbn; unfold bind, get; cbn; now rewrite H.
Qed.

Lemma prev_monitorCalls_run (env : StopEnv) (ticks : list Tick) :
  forall s : AgentState,
    inCall s = false -> lastLeadId s = JNull -> lastCallLogId s = JNull ->
    isRunning s = true ->
    wp (monitorCalls cfg env ticks)
       (fun o s' t =>
          handled t = within_budget cfg (callCount s) (omap actionable ticks) /\
          callCount s' = callCount s + Z.of_nat (length (handled t)) /\
          lastLeadId s' = JNull /\ lastCallLogId s' = JNull /\ inCall s' = false) s.
Proof.
  induction ticks as [| tick rest IH]; intros s Hin Hlast Hlog Hrun.
  - cbn [monitorCalls]. apply wp_bind, wp_get. rewrite Hrun. cbn [negb].
    apply wp_bind, (prev_wp_iteration env (ret Continue) []);
      [exact Hin | exact Hlast | exact Hlog | exact Hrun | |].
    { intros _. apply wp_ret. left. cbn. repeat split; auto. lia. }
    intros flow s1 t1 Hin1 Hlast1 Hlog1 Hit.
    assert (Hh1 : handled t1 = [] /\ callCount s1 = callCount s).
    { destruct (budget_reached cfg (callCount s)); cbn in Hit; intuition lia. }
    destruct Hh1 as [Hh1 Hc1].
    destruct flow; wp_run; norm_trace; cbn [omap list_omap];
      rewrite Hh1, within_budget_nil; cbn; repeat split; auto; lia.
  - cbn [monitorCalls]. apply wp_bind, wp_get. rewrite Hrun. cbn [negb].
    apply wp_bind, (prev_wp_iteration env (detect_and_handle cfg tick)
                      (option_list (actionable tick)));
      [exact Hin | exact Hlast | exact Hlog | exact Hrun | |].
    { intros _. now apply prev_wp_detect_and_handle. }
    intros flow s1 t1 Hin1 Hlast1 Hlog1 Hit.
    destruct (budget_reached cfg (callCount s)) eqn:Hb.
    + destruct Hit as (Hr1 & Hh1 & Hc1).
      destruct flow.
      * unfold wp. rewrite prev_monitorCalls_stopped by exact Hr1.
        unfold result_of, state_of, trace_of. cbn [fst snd]. norm_trace.
        rewrite Hh1, within_budget_reached by exact Hb. cbn.
        repeat split; auto; lia.
      * apply wp_ret. norm_trace.
        rewrite Hh1, within_budget_reached by exact Hb. cbn.
        repeat split; auto; lia.
    + destruct Hit as (-> & Hr1 & Hh1 & Hc1).
      eapply wp_mono; [apply (IH s1 Hin1 Hlast1 Hlog1 Hr1) |].
      intros o s2 t2 (Hh2 & Hc2 & Hl2 & Hg2 & Hi2). norm_trace.
      assert (Hstep : within_budget cfg (callCount s) (omap actionable (tick :: rest)) =
                      handled t1 ++ within_budget cfg (callCount s1) (omap actionable rest)).
      { rewrite Hh1, Hc1, omap_cons_option_list.
        destruct (actionable tick) as [c |]; simpl.
        - now rewrite within_budget_cons.
        - now rewrite Z.add_0_r. }
      rewrite handled_app, Hh2, Hstep, length_app.
      split; [reflexivity |]. split; [rewrite <- Hh2, Hh1; lia |].
      auto.
Qed.

(** The REST fallback reads no clock and logs no timeout. *)
Lemma prev_fallback_no_clock (ci : CallInfo) (env : CallEnv)
    (Q : outcome bool -> AgentState -> list Action -> Prop) (s : AgentState) :
  (forall o s' t,
      count is_clock t = 0%nat -> count is_timeout_warning t = 0%nat -> Q o s' t) ->
  wp (setDispositionViaAPI cfg ci env) Q s.
Proof.
  intros H. unfold wp. apply H.
  - change (wp (setDispositionViaAPI cfg ci env)
              (fun _ _ t => count is_clock t = 0%nat) s).
    unfold setDispositionViaAPI, on_api, ConvosoAPI.setDisposition. wp_run.
    all: reflexivity.
  - change (wp (setDispositionViaAPI cfg ci env)
              (fun _ _ t => count is_timeout_warning t = 0%nat) s).
    unfold setDispositionViaAPI, on_api, ConvosoAPI.setDisposition. wp_run.
    all: reflexivity.
Qed.

Lemma wp_wait_outcome {S} (expected : jsval) (timeoutMs : Z)
    (obs : nat -> Observation) (Q : outcome bool -> S -> list Action -> Prop) (s : S) :
  (forall t,
      (1 <= count is_clock t)%nat -> count is_timeout_warning t = 0%nat ->
      Q (waitLoop expected timeoutMs obs 0 0).1 s t) ->
  wp (waitForPhoneState expected timeoutMs obs) Q s.
Proof.
  intros H. unfold wp, waitForPhoneState, result_of, state_of, trace_of.
  cbn [fst snd]. apply H; apply waitLoop_clock.
Qed.

(** [handleCall] logs the timeout warning exactly when it got as far as
    the wait and the wait gave up. *)
Lemma prev_handleCall_warns (ci : CallInfo) (env : CallEnv) (s : AgentState) :
  let t := trace_of (handleCall cfg ci env s) in
  (count is_timeout_warning t <= 1)%nat /\
  (count is_timeout_warning t = 1%nat <->
   (1 <= count is_clock t)%nat /\
   (waitLoop (JNum 2) 10000 (recovery env) 0 0).1 = Ret false).
Proof.
  cbv zeta.
  assert (H : forall Q : outcome unit -> AgentState -> list Action -> Prop,
             (forall o s' t,
                 (count is_timeout_warning t <= 1)%nat ->
                 (count is_timeout_warning t = 1%nat <->
                  (1 <= count is_clock t)%nat /\
                  (waitLoop (JNum 2) 10000 (recovery env) 0 0).1 = Ret false) ->
                 Q o s' t) ->
             wp (handleCall cfg ci env) Q s).
  { intros Q HQ. unfold handleCall.
    repeat (first [ apply wp_wait_outcome; intros ? ? ?
                  | apply prev_fallback_no_clock; intros ? ? ? ? ?
                  | wp_step ]; cbv beta iota).
    all: apply HQ.
    all: repeat first [rewrite count_app | progress cbn [app count is_timeout_warning
           is_clock Nat.add String.eqb Ascii.eqb Bool.eqb]].
    all: repeat match goal with
                | H : count _ _ = 0%nat |- _ => rewrite H
                end.
    all: try lia.
    all: split; [intros ?; split; [lia | first [reflexivity | assumption | exfalso; lia]]
                | intros [? ?]; first [lia | congruence]]. }
  apply (H (fun _ _ t =>
              (count is_timeout_warning t <= 1)%nat /\
              (count is_timeout_warning t = 1%nat <->
               (1 <= count is_clock t)%nat /\
               (waitLoop (JNum 2) 10000 (recovery env) 0 0).1 = Ret false))).
  intros; split; assumption.
Qed.

End PreviousFacts.

(* --------------------------------------------------------------------- *)
(** ** The claims about the loops *)
(* --------------------------------------------------------------------- *)

(** C1 (as the code has it). In both browser agents every detection that
    offers a call (a record with a truthy [lead_id]; in the previous agent
    also phone state 2) enters [handleCall], once each and in order, until
    the call budget is used up, whether or not it repeats the identity of
    the call handled just before: [handleCall] clears the remembered
    identity on every exit and nothing is detected while it runs, so the
    remembered identity is empty at every detection. *)
Theorem monitorCalls_handles_every_offer (cfg : Config) :
  (forall env ticks a,
      let r := PuppeteerAgent.monitorCalls cfg env ticks (PuppeteerAgent.started a) in
      handled (trace_of r) =
        within_budget cfg 0 (omap PuppeteerAgent.actionable ticks) /\
      PuppeteerAgent.lastLeadId (state_of r) = JNull) /\
  (forall env ticks a,
      let r := PreviousPuppeteerAgent.monitorCalls cfg env ticks
                 (PreviousPuppeteerAgent.started a) in
      handled (trace_of r) =
        within_budget cfg 0 (omap PreviousPuppeteerAgent.actionable ticks) /\
      PreviousPuppeteerAgent.lastLeadId (state_of r) = JNull /\
      PreviousPuppeteerAgent.lastCallLogId (state_of r) = JNull).
Proof.
  split; intros env ticks a r.
  - destruct (monitorCalls_run cfg env ticks (PuppeteerAgent.started a)
                eq_refl eq_refl eq_refl) as (H1 & _ & H2 & _).
    split; [exact H1 | exact H2].
  - destruct (prev_monitorCalls_run cfg env ticks (PreviousPuppeteerAgent.started a)
                eq_refl eq_refl eq_refl eq_refl) as (H1 & _ & H2 & H3 & _).
    split; [exact H1 | split; [exact H2 | exact H3]].
Qed.

(** C1, as stated, fails: two detections in a row report the same lead and
    call log, the second right after the first call was closed, and
    [handleCall] is entered for both, in either browser agent. *)
Lemma same_identity_is_handled_again :
  handled (trace_of
    (PuppeteerAgent.monitorCalls sample_config PuppeteerAgent.sample_stop
       [PuppeteerAgent.sample_tick; PuppeteerAgent.sample_tick]
       (PuppeteerAgent.started ConvosoAPI.initial))) =
  [Some PuppeteerAgent.sample_call; Some PuppeteerAgent.sample_call] /\
  handled (trace_of
    (PreviousPuppeteerAgent.monitorCalls sample_config
       PreviousPuppeteerAgent.sample_stop
       [PreviousPuppeteerAgent.sample_tick PreviousPuppeteerAgent.recovering_phone;
        PreviousPuppeteerAgent.sample_tick PreviousPuppeteerAgent.recovering_phone]
       (PreviousPuppeteerAgent.started ConvosoAPI.initial))) =
  [Some PuppeteerAgent.sample_call; Some PuppeteerAgent.sample_call].
Proof. split; vm_compute; reflexivity. Qed.

(** C2. With [maxCalls = N > 0], either loop enters [handleCall] at most
    [N] times, and the call counter equals the number of entries whatever
    happens inside the calls (a call whose handling fails is counted like
    any other); once the page or the polls have offered [N] calls it has
    entered [handleCall] exactly [N] times and has stopped. *)
Theorem call_budget_is_exact (cfg : Config) :
  0 < maxCalls cfg ->
  (forall env ticks a,
      let r := PuppeteerAgent.monitorCalls cfg env ticks (PuppeteerAgent.started a) in
      let n := Z.of_nat (length (handled (trace_of r))) in
      n <= maxCalls cfg /\
      PuppeteerAgent.callCount (state_of r) = n /\
      (maxCalls cfg <= Z.of_nat (length (omap PuppeteerAgent.actionable ticks)) ->
       n = maxCalls cfg /\ result_of r = Ret Finished /\
       PuppeteerAgent.isRunning (state_of r) = false)) /\
  (forall env evs a,
      let r := ConvosoAgent.handleCallsLoop cfg env evs (ConvosoAgent.started a) in
      let n := Z.of_nat (length (handled (trace_of r))) in
      n <= maxCalls cfg /\
      ConvosoAgent.callCount (state_of r) = n /\
      (maxCalls cfg <= Z.of_nat (length (ConvosoAgent.offered evs)) ->
       n = maxCalls cfg /\ result_of r = Ret Finished /\
       ConvosoAgent.isRunning (state_of r) = false)).
Proof.
  intros Hpos. split.
  - intros env ticks a r n.
    destruct (monitorCalls_run cfg env ticks (PuppeteerAgent.started a)
                eq_refl eq_refl eq_refl) as (Hh & Hc & _ & _ & Hfin).
    fold r in Hh, Hc, Hfin. cbn [PuppeteerAgent.started PuppeteerAgent.callCount] in *.
    destruct (within_budget_length cfg 0 (omap PuppeteerAgent.actionable ticks)
                Hpos ltac:(lia)) as [Hle Heq].
    rewrite <- Hh in Hle, Heq. rewrite Z.sub_0_r in *. subst n.
    split; [lia |]. split; [lia |].
    intros Hoff. specialize (Heq Hoff). destruct (Hfin Hpos Hoff) as [Hres Hrun].
    split; [lia |]. split; assumption.
  - intros env evs a r n.
    destruct (handleCallsLoop_run cfg env evs (ConvosoAgent.started a) eq_refl)
      as (Hh & Hc & Hfin).
    fold r in Hh, Hc, Hfin. cbn [ConvosoAgent.started ConvosoAgent.callCount] in *.
    destruct (within_budget_length cfg 0 (ConvosoAgent.offered evs)
                Hpos ltac:(lia)) as [Hle Heq].
    rewrite <- Hh in Hle, Heq. rewrite Z.sub_0_r in *. subst n.
    split; [lia |]. split; [lia |].
    intros Hoff. specialize (Heq Hoff). destruct (Hfin Hpos Hoff) as [Hres Hrun].
    split; [lia |]. split; assumption.
Qed.

(** Witness of C2: a budget of two calls and three offers, in the polling
    agent with hangups that fail. *)
Lemma call_budget_is_exact_witness :
  Z.of_nat (length (handled (trace_of
    (ConvosoAgent.handleCallsLoop (with_maxCalls 2 sample_config)
       ConvosoAgent.sample_stop
       [ConvosoAgent.sample_event; ConvosoAgent.sample_event; ConvosoAgent.sample_event]
       (ConvosoAgent.started ConvosoAPI.initial))))) = 2 /\
  ConvosoAgent.callCount (state_of
    (ConvosoAgent.handleCallsLoop (with_maxCalls 2 sample_config)
       ConvosoAgent.sample_stop
       [ConvosoAgent.sample_event; ConvosoAgent.sample_event; ConvosoAgent.sample_event]
       (ConvosoAgent.started ConvosoAPI.initial))) = 2.
Proof.
  destruct (call_budget_is_exact (with_maxCalls 2 sample_config) eq_refl)
    as [_ Hpoll].
  destruct (Hpoll ConvosoAgent.sample_stop
              [ConvosoAgent.sample_event; ConvosoAgent.sample_event;
               ConvosoAgent.sample_event]
              ConvosoAPI.initial) as (_ & Hcount & Hexact).
  destruct Hexact as (Hn & _ & _); [vm_compute; discriminate |].
  split; [exact Hn |]. rewrite Hcount. exact Hn.
Defined.

(** C9 (as the code has it). The wait for a phone state ends for every
    sequence of looks and leaves the agent untouched. It looks at least
    once when the timeout is positive and at most once per started 500 ms
    of it (20 times for the 10 s that [handleCall] allows); every look
    starts before the timeout has elapsed. It returns [true] exactly at
    the first look that shows the expected state, if that look starts in
    time. Otherwise it returns [false], at the first clock reading at or
    after the timeout: that is later than the timeout by less than the
    last look took (its evaluation and the 500 ms sleep), which the
    timeout does not bound. [handleCall] returns in every case, with the
    call counted and the remembered identity cleared, and logs the
    timeout warning exactly when it got to the wait and the wait returned
    [false]. *)
Theorem waitForPhoneState_is_bounded :
  (forall (expected : jsval) (timeoutMs : Z) (obs : nat -> Observation)
          (s : PreviousPuppeteerAgent.AgentState),
      let r := PreviousPuppeteerAgent.waitForPhoneState expected timeoutMs obs s in
      let n := count PreviousPuppeteerAgent.is_observation (trace_of r) in
      state_of r = s /\
      (n <= PreviousPuppeteerAgent.max_looks timeoutMs)%nat /\
      (0 < timeoutMs -> (1 <= n)%nat) /\
      Forall (fun ms => 0 <= ms < timeoutMs)
             (PreviousPuppeteerAgent.look_times (trace_of r)) /\
      (forall j, (j < n)%nat -> look_start obs j < timeoutMs) /\
      (forall j, (j < n - 1)%nat -> PreviousPuppeteerAgent.miss expected (obs j)) /\
      match result_of r with
      | Ret true => (1 <= n)%nat /\ seen (obs (n - 1)%nat) = Ret expected
      | Ret false =>
          (forall j, (j < n)%nat -> PreviousPuppeteerAgent.miss expected (obs j)) /\
          timeoutMs <= look_start obs n /\
          last (trace_of r) = Some (Elapsed (look_start obs n)) /\
          (forall m, n = S m ->
                     look_start obs n < timeoutMs + Z.of_N (lag (obs m)) + 500)
      | Throw e => (1 <= n)%nat /\ seen (obs (n - 1)%nat) = Throw e
      end) /\
  (forall (expected : jsval) (timeoutMs : Z) (obs : nat -> Observation)
          (s : PreviousPuppeteerAgent.AgentState) (k : nat),
      (forall j, (j < k)%nat -> PreviousPuppeteerAgent.miss expected (obs j)) ->
      seen (obs k) = Ret expected ->
      look_start obs k < timeoutMs ->
      let r := PreviousPuppeteerAgent.waitForPhoneState expected timeoutMs obs s in
      result_of r = Ret true /\
      count PreviousPuppeteerAgent.is_observation (trace_of r) = S k) /\
  PreviousPuppeteerAgent.max_looks 10000 = 20%nat /\
  (forall (cfg : Config) (ci : CallInfo) (env : PreviousPuppeteerAgent.CallEnv)
          (s : PreviousPuppeteerAgent.AgentState),
      let r := PreviousPuppeteerAgent.handleCall cfg ci env s in
      result_of r = Ret tt /\
      PreviousPuppeteerAgent.callCount (state_of r) =
        PreviousPuppeteerAgent.callCount s + 1 /\
      PreviousPuppeteerAgent.isRunning (state_of r) =
        PreviousPuppeteerAgent.isRunning s /\
      PreviousPuppeteerAgent.lastLeadId (state_of r) = JNull /\
      PreviousPuppeteerAgent.lastCallLogId (state_of r) = JNull /\
      (count is_timeout_warning (trace_of r) <= 1)%nat /\
      (count is_timeout_warning (trace_of r) = 1%nat <->
       (1 <= count is_clock (trace_of r))%nat /\
       result_of (PreviousPuppeteerAgent.waitForPhoneState (JNum 2) 10000
                    (PreviousPuppeteerAgent.recovery env) s) = Ret false)).
Proof.
  split; [| split; [| split; [reflexivity |]]].
  - intros expected timeoutMs obs s r n.
    pose proof (waitLoop_timing expected timeoutMs obs 0 0) as Htime.
    cbv zeta in Htime. destruct Htime as (Hone & Hlooks & Hfalse).
    change (fun j' : nat => obs (0 + j')%nat) with obs in Hlooks, Hfalse.
    pose proof (waitLoop_result expected timeoutMs obs 0 0) as Hres.
    cbv zeta in Hres. destruct Hres as [Hmiss Hres].
    change (PreviousPuppeteerAgent.waitLoop expected timeoutMs obs 0 0).1
      with (result_of r) in Hres, Hfalse.
    change (PreviousPuppeteerAgent.waitLoop expected timeoutMs obs 0 0).2
      with (trace_of r) in Hres, Hfalse, Hmiss, Hlooks, Hone.
    fold n in Hres, Hfalse, Hmiss, Hlooks, Hone.
    split; [reflexivity |]. split; [| split; [| split; [| split; [| split]]]].
    + pose proof (waitLoop_bounded expected timeoutMs obs 0 0 ltac:(lia)) as Hb.
      rewrite Z.sub_0_r in Hb. exact Hb.
    + exact Hone.
    + apply (waitLoop_looks_in_time expected timeoutMs obs 0 0). lia.
    + intros j Hj. specialize (Hlooks j Hj). lia.
    + exact Hmiss.
    + destruct (result_of r) as [[|] | e]; [exact Hres | | exact Hres].
      destruct (Hfalse eq_refl) as [Hle Hlast].
      rewrite Z.add_0_l in Hle, Hlast.
      split; [exact Hres |]. split; [exact Hle |]. split; [exact Hlast |].
      intros m Hm. rewrite Hm. cbn [look_start].
      specialize (Hlooks m ltac:(lia)). lia.
  - intros expected timeoutMs obs s k Hmiss Hseen Htime r.
    apply (waitLoop_finds expected timeoutMs obs k 0 0); cbn; auto.
  - intros cfg ci env s r.
    pose proof (prev_handleCall_warns cfg ci env s) as [Hle Hiff].
    cbv zeta in Hle, Hiff.
    assert (Hst : result_of r = Ret tt /\
                  PreviousPuppeteerAgent.callCount (state_of r) =
                    PreviousPuppeteerAgent.callCount s + 1 /\
                  PreviousPuppeteerAgent.isRunning (state_of r) =
                    PreviousPuppeteerAgent.isRunning s /\
                  PreviousPuppeteerAgent.lastLeadId (state_of r) = JNull /\
                  PreviousPuppeteerAgent.lastCallLogId (state_of r) = JNull).
    { apply (prev_wp_handleCall cfg ci env
               (fun o s' _ =>
                  o = Ret tt /\
                  PreviousPuppeteerAgent.callCount s' =
                    PreviousPuppeteerAgent.callCount s + 1 /\
                  PreviousPuppeteerAgent.isRunning s' =
                    PreviousPuppeteerAgent.isRunning s /\
                  PreviousPuppeteerAgent.lastLeadId s' = JNull /\
                  PreviousPuppeteerAgent.lastCallLogId s' = JNull)).
      intros s' t Hb Hr Hc Hi Hl Hg Hh. repeat split; assumption. }
    destruct Hst as (H1 & H2 & H3 & H4 & H5).
    split; [exact H1 |]. split; [exact H2 |]. split; [exact H3 |].
    split; [exact H4 |]. split; [exact H5 |]. split; [exact Hle | exact Hiff].
Qed.

(** The wait on a phone that never returns to state 2: twenty looks, one
    every 500 ms, then [false] when the clock reads 10000. *)
Example wait_times_out :
  result_of (PreviousPuppeteerAgent.waitForPhoneState (S := unit) (JNum 2) 10000
               PreviousPuppeteerAgent.stuck_phone tt) = Ret false /\
  count PreviousPuppeteerAgent.is_observation
    (trace_of (PreviousPuppeteerAgent.waitForPhoneState (S := unit) (JNum 2) 10000
                 PreviousPuppeteerAgent.stuck_phone tt)) = 20%nat /\
  last (trace_of (PreviousPuppeteerAgent.waitForPhoneState (S := unit) (JNum 2) 10000
                    PreviousPuppeteerAgent.stuck_phone tt)) = Some (Elapsed 10000).
Proof. vm_compute. repeat split. Qed.

(** C9, as stated, fails: a look that takes a minute to come back keeps
    the wait until the clock reads 60500, six times the 10 s timeout. *)
Lemma slow_look_overruns_timeout :
  ~ (forall (obs : nat -> Observation) (ms : Z),
       result_of (PreviousPuppeteerAgent.waitForPhoneState (S := unit) (JNum 2)
                    10000 obs tt) = Ret false ->
       last (trace_of (PreviousPuppeteerAgent.waitForPhoneState (S := unit) (JNum 2)
                         10000 obs tt)) = Some (Elapsed ms) ->
       ms <= 10000).
Proof.
  intros H.
  specialize (H slow_phone 60500).
  assert (Hle : 60500 <= 10000) by (apply H; vm_compute; reflexivity).
  lia.
Qed.


(* --------------------------------------------------------------------- *)
(** ** Application: a stop signal during a call *)
(* --------------------------------------------------------------------- *)

Section SignalFacts.
Import Application.

(** The shutdown of a running agent: it enters [stop], whose first step is
    the script that opens the status dropdown; it contains no step of a
    call, and exits the process. *)
Lemma on_signal_trace (env : BrowserStopEnv) (s : PuppeteerAgent.AgentState) :
  PuppeteerAgent.isRunning s = true ->
  exists tail code,
    trace_of (on_signal env s) = StopStart :: Page OpenStatusDropdown :: tail /\
    count is_drain_step tail = 0%nat /\
    In (ProcessExit code) tail.
Proof.
  intros Hrun.
  change (wp (on_signal env)
            (fun _ _ t => exists tail code,
                 t = StopStart :: Page OpenStatusDropdown :: tail /\
                 count is_drain_step tail = 0%nat /\
                 In (ProcessExit code) tail) s).
  unfold on_signal, shutdown, PuppeteerAgent.stop. wp_run.
  all: try (rewrite Hrun in *; discriminate).
  all: cbn; eexists; eexists; split; [reflexivity |]; split; [reflexivity |];
    cbn; tauto.
Qed.

(** The handler marks the agent as not running. *)
Lemma on_signal_not_running (env : BrowserStopEnv) (s : PuppeteerAgent.AgentState) :
  PuppeteerAgent.isRunning (state_of (on_signal env s)) = false.
Proof.
  change (wp (on_signal env) (fun _ s' _ => PuppeteerAgent.isRunning s' = false) s).
  unfold on_signal, shutdown.
  repeat (first [apply wp_stop; intros ? ? ? ? ? ? ? ? ? | wp_step]; cbv beta iota).
  all: assumption.
Qed.

(** The first stretch of a task that starts with the marker of [stop] and
    a page script. *)
Lemma first_stretch_stop (p : PageStep) (tail : list Action) :
  exists click later,
    first_stretch (StopStart :: Page p :: tail) =
      (StopStart :: Page p :: click, later) /\
    tail = click ++ later /\
    (click = [] \/ exists b, click = [Click b]).
Proof.
  destruct tail as [| a tail]; [exists [], []; cbn; auto |].
  destruct a as [| | btn | | | | | | | | |];
    try (exists []; eexists; cbn; split; [reflexivity |];
         split; [reflexivity | now left]).
  exists [Click btn], tail. cbn. split; [reflexivity |]. split; [reflexivity |].
  right. eauto.
Qed.

Lemma until_exit_last (shut : list Action) (code : Z) :
  In (ProcessExit code) shut ->
  exists code', last (until_exit shut) = Some (ProcessExit code').
Proof.
  induction shut as [| a shut IH]; intros Hin; [destruct Hin |].
  destruct a; cbn [until_exit];
    try (destruct Hin as [Hd | Hin]; [discriminate Hd |];
         destruct (IH Hin) as [code' Hc]; exists code';
         rewrite last_cons, Hc; reflexivity).
  eexists. reflexivity.
Qed.

Lemma until_exit_drain (shut : list Action) :
  count is_drain_step shut = 0%nat ->
  count is_drain_step (until_exit shut) = 0%nat.
Proof.
  induction shut as [| a shut IH]; intros H; [reflexivity |].
  cbn [count] in H.
  assert (Ha : is_drain_step a = false) by (destruct (is_drain_step a); [discriminate H | reflexivity]).
  rewrite Ha in H. cbn in H.
  destruct a; cbn [until_exit]; try reflexivity; cbn [count]; rewrite Ha; cbn;
    now apply IH.
Qed.

(** An action of the shutdown other than the exit does not end the run. *)
Lemma weave_step (b : bool) (sched : list bool) (main : list Action)
    (a : Action) (shut : list Action) :
  (forall c, a <> ProcessExit c) ->
  weave (b :: sched) main (a :: shut) =
  if b then
    match main with
    | m :: main' => m :: weave sched main' (a :: shut)
    | [] => a :: weave sched [] shut
    end
  else a :: weave sched main shut.
Proof.
  intros Hne. destruct a; try reflexivity. exfalso. now apply (Hne code).
Qed.

Lemma weave_last (sched : list bool) :
  forall (main shut : list Action) (code : Z),
    In (ProcessExit code) shut ->
    exists code', last (weave sched main shut) = Some (ProcessExit code').
Proof.
  induction sched as [| b sched IH]; intros main shut code Hin.
  - cbn. now apply (until_exit_last shut code).
  - destruct shut as [| a shut]; [destruct Hin |].
    assert (Hcase : (exists c, a = ProcessExit c) \/ (forall c, a <> ProcessExit c))
      by (destruct a; try (right; congruence); left; eauto).
    destruct Hcase as [[c ->] | Hne'].
    { cbn. eauto. }
    assert (Hin' : In (ProcessExit code) shut).
    { destruct Hin as [-> | Hin]; [now destruct (Hne' code) | exact Hin]. }
    rewrite weave_step by exact Hne'.
    destruct b; [destruct main as [| m main'] |].
    + destruct (IH [] shut code Hin') as [c Hc]. exists c.
      now rewrite last_cons, Hc.
    + destruct (IH main' (a :: shut) code Hin) as [c Hc]. exists c.
      now rewrite last_cons, Hc.
    + destruct (IH main shut code Hin') as [c Hc]. exists c.
      now rewrite last_cons, Hc.
Qed.

(** However the two tasks are scheduled, the steps that end and
    disposition the call are steps of the call. *)
Lemma weave_drain (sched : list bool) :
  forall main shut : list Action,
    count is_drain_step shut = 0%nat ->
    (count is_drain_step (weave sched main shut) <= count is_drain_step main)%nat.
Proof.
  induction sched as [| b sched IH]; intros main shut Hshut.
  - cbn [weave]. rewrite until_exit_drain by exact Hshut. lia.
  - destruct shut as [| a shut]; [cbn [weave]; lia |].
    cbn [count] in Hshut.
    assert (Ha : is_drain_step a = false)
      by (destruct (is_drain_step a); [discriminate Hshut | reflexivity]).
    rewrite Ha in Hshut. cbn in Hshut.
    assert (Hcase : (exists c, a = ProcessExit c) \/ (forall c, a <> ProcessExit c))
      by (destruct a; try (right; congruence); left; eauto).
    destruct Hcase as [[c ->] | Hne].
    { cbn. lia. }
    rewrite weave_step by exact Hne.
    destruct b; [destruct main as [| m main'] |].
    + cbn [count]. rewrite Ha. specialize (IH [] shut Hshut). cbn in *. lia.
    + cbn [count]. specialize (IH main' (a :: shut)).
      cbn [count] in IH. rewrite Ha in IH. specialize (IH Hshut). lia.
    + cbn [count]. rewrite Ha. specialize (IH main shut Hshut). lia.
Qed.

(** What a run with a stop signal looks like: the part of the call that
    was under way, the first stretch of the shutdown, then both tasks. *)
Lemma signal_during_call_shape (cfg : Config) (callInfo : CallInfo)
    (callEnv : CallEnv) (stopEnv : BrowserStopEnv) (k : nat) (sched : list bool)
    (s : PuppeteerAgent.AgentState) :
  PuppeteerAgent.isRunning s = true ->
  let main := trace_of (PuppeteerAgent.handleCall cfg callInfo callEnv s) in
  exists click later code,
    signal_during_call cfg callInfo callEnv stopEnv k sched s =
      firstn k main ++ StopStart :: Page OpenStatusDropdown ::
      click ++ weave sched (skipn k main) later /\
    count is_drain_step click = 0%nat /\
    count is_drain_step later = 0%nat /\
    In (ProcessExit code) later.
Proof.
  intros Hrun main.
  destruct (on_signal_trace stopEnv s Hrun) as (tail & code & Ht & Hd & Hin).
  destruct (first_stretch_stop OpenStatusDropdown tail)
    as (click & later & Hfirst & Htail & Hclick).
  exists click, later, code.
  unfold signal_during_call. fold main. rewrite Ht, Hfirst.
  subst tail. rewrite count_app in Hd.
  assert (Hlast : forall rest : list Action,
             match last (StopStart :: Page OpenStatusDropdown :: click) with
             | Some (ProcessExit _) => []
             | _ => rest
             end = rest).
  { intros rest. destruct Hclick as [-> | [b ->]]; reflexivity. }
  rewrite Hlast. split.
  - reflexivity.
  - split; [lia |]. split; [lia |].
    apply in_app_or in Hin as [Hin | Hin]; [| exact Hin].
    destruct Hclick as [-> | [b ->]]; [destruct Hin |].
    destruct Hin as [Hin | []]. discriminate Hin.
Qed.

End SignalFacts.

(** C8 (as the code has it). When a stop signal arrives while a call is
    being handled, the shutdown starts at once. The handler marks the
    agent as not running, whatever state the call has reached, and the
    call never sets that flag back. [stop] and its first page script, the
    one that opens the status dropdown to set the agent not ready, come
    right after the part of the call that was already under way, before
    any further step of the call, and the run ends with the exit of the
    process however the two tasks are scheduled from there. Nothing waits
    for the open call: of its end-call and disposition steps only those
    run that are scheduled before the exit, and when the waits of the
    shutdown end before the wait the call is in, none of them runs. *)
Theorem stop_signal_starts_shutdown_at_once (cfg : Config) (callInfo : CallInfo)
    (callEnv : CallEnv) (stopEnv : BrowserStopEnv) (k : nat)
    (s : PuppeteerAgent.AgentState) :
  PuppeteerAgent.isRunning s = true ->
  let main := trace_of (PuppeteerAgent.handleCall cfg callInfo callEnv s) in
  (forall s',
      PuppeteerAgent.isRunning (state_of (Application.on_signal stopEnv s')) = false /\
      PuppeteerAgent.isRunning
        (state_of (PuppeteerAgent.handleCall cfg callInfo callEnv s')) =
      PuppeteerAgent.isRunning s') /\
  (forall sched,
      exists rest code,
        Application.signal_during_call cfg callInfo callEnv stopEnv k sched s =
          firstn k main ++ StopStart :: Page OpenStatusDropdown :: rest /\
        last (Application.signal_during_call cfg callInfo callEnv stopEnv k sched s) =
          Some (ProcessExit code) /\
        (count Application.is_drain_step
           (Application.signal_during_call cfg callInfo callEnv stopEnv k sched s) <=
         count Application.is_drain_step main)%nat) /\
  count Application.is_drain_step
    (Application.signal_during_call cfg callInfo callEnv stopEnv k [] s) =
  count Application.is_drain_step (firstn k main).
Proof.
  intros Hrun main. split; [| split].
  - intros s'. split; [apply on_signal_not_running |].
    apply (wp_handleCall cfg callInfo callEnv
             (fun _ s'' _ => PuppeteerAgent.isRunning s'' = PuppeteerAgent.isRunning s')).
    intros s'' t _ Hr _ _ _ _ _ _. exact Hr.
  - intros sched.
    destruct (signal_during_call_shape cfg callInfo callEnv stopEnv k sched s Hrun)
      as (click & later & code & Hshape & Hclick & Hlater & Hin).
    fold main in Hshape.
    destruct (weave_last sched (skipn k main) later code Hin) as [c Hc].
    exists (click ++ Application.weave sched (skipn k main) later), c.
    split; [exact Hshape |]. rewrite Hshape. split.
    + rewrite last_app, !last_cons, last_app, Hc. reflexivity.
    + rewrite count_app. cbn [count Application.is_drain_step Nat.add].
      rewrite count_app, Hclick.
      pose proof (weave_drain sched (skipn k main) later Hlater) as Hw.
      rewrite <- (firstn_skipn k main) at 3. rewrite count_app. lia.
  - destruct (signal_during_call_shape cfg callInfo callEnv stopEnv k [] s Hrun)
      as (click & later & code & Hshape & Hclick & Hlater & Hin).
    fold main in Hshape. rewrite Hshape.
    rewrite count_app. cbn [count Application.is_drain_step Nat.add].
    rewrite count_app, Hclick. cbn [Application.weave].
    rewrite until_exit_drain by exact Hlater. lia.
Qed.

(** Witness of C8: the signal arrives during the 15 s the call lasts. *)
Lemma stop_signal_starts_shutdown_at_once_witness :
  count Application.is_drain_step
    (Application.signal_during_call sample_config PuppeteerAgent.sample_call
       PuppeteerAgent.no_controls PuppeteerAgent.sample_stop 2 []
       (PuppeteerAgent.started ConvosoAPI.initial)) =
  count Application.is_drain_step
    (firstn 2 (trace_of (PuppeteerAgent.handleCall sample_config
                           PuppeteerAgent.sample_call PuppeteerAgent.no_controls
                           (PuppeteerAgent.started ConvosoAPI.initial)))).
Proof.
  exact (proj2 (proj2 (stop_signal_starts_shutdown_at_once sample_config
                  PuppeteerAgent.sample_call PuppeteerAgent.no_controls
                  PuppeteerAgent.sample_stop 2
                  (PuppeteerAgent.started ConvosoAPI.initial) eq_refl))).
Defined.

(** C8, as stated, fails: the signal arrives two actions into a call, in
    its 15 s wait; the shutdown runs through its 3 s of waits and the
    process exits with no end-call or disposition step done, although the
    call had such steps to do. *)
Lemma stop_signal_leaves_call_open :
  Application.signal_during_call sample_config PuppeteerAgent.sample_call
    PuppeteerAgent.no_controls PuppeteerAgent.sample_stop 2 []
    (PuppeteerAgent.started ConvosoAPI.initial) =
  [HandleCallStart (Some PuppeteerAgent.sample_call); Sleep 15000;
   StopStart;
   Page OpenStatusDropdown; Click BtnStatus; Sleep 1000;
   Page PickNotReadyBreak; Click BtnNotReadyBreak; Sleep 2000;
   CloseBrowser; ProcessExit 0] /\
  (0 < count Application.is_drain_step
         (trace_of (PuppeteerAgent.handleCall sample_config
                      PuppeteerAgent.sample_call PuppeteerAgent.no_controls
                      (PuppeteerAgent.started ConvosoAPI.initial))))%nat.
Proof. split; vm_compute; [reflexivity | lia]. Qed.

(** The signal of the counterexample on a schedule that lets the call go
    on whenever it can: the first page script of [stop] still comes before
    the call looks for WRAPUP. *)
Example stop_signal_before_next_call_step :
  firstn 6
    (Application.signal_during_call sample_config PuppeteerAgent.sample_call
       PuppeteerAgent.no_controls PuppeteerAgent.sample_stop 2 [true; true]
       (PuppeteerAgent.started ConvosoAPI.initial)) =
  [HandleCallStart (Some PuppeteerAgent.sample_call); Sleep 15000;
   StopStart; Page OpenStatusDropdown; Click BtnStatus; Page FindWrapup].
Proof. reflexivity. Qed.

(** Witness of C3: WRAPUP is clicked, no disposition control is on the
    page, the panel does not open. *)
Lemma disposition_fallback_exactly_once_witness :
  count is_fallback
    (trace_of (PuppeteerAgent.handleCall sample_config PuppeteerAgent.sample_call
                 PuppeteerAgent.no_controls
                 (PuppeteerAgent.started ConvosoAPI.initial))) = 1%nat /\
  count is_disposition_request
    (trace_of (PuppeteerAgent.handleCall sample_config PuppeteerAgent.sample_call
                 PuppeteerAgent.no_controls
                 (PuppeteerAgent.started ConvosoAPI.initial))) = 1%nat.
Proof.
  destruct (disposition_fallback_exactly_once sample_config
              PuppeteerAgent.sample_call PuppeteerAgent.no_controls
              (PuppeteerAgent.started ConvosoAPI.initial))
    as (_ & _ & Hexact).
  destruct Hexact as [Hfb Hreq].
  - reflexivity.
  - split; [reflexivity |]. left. reflexivity.
  - split; [exact Hfb |]. apply Hreq.
    split; eexists; reflexivity.
Defined.

(** Witness of C6: the response [{success: true, data: {agentLogId: "9"}}],
    then a failed poll and the logout. *)
Lemma setDisposition_rotates_agentLogId_witness :
  ConvosoAPI.agentLogId
    (state_of (ConvosoAPI.setDisposition "1001" (JNum 42) (JStr "1")
                 (JStr "5551234567") "NOCONT" (Reply ConvosoAPI.sample_rotation)
                 ConvosoAPI.initial)) = JStr "9" /\
  ConvosoAPI.agentLogId
    (state_of
       (ConvosoAPI.run_calls sample_config
          [ConvosoAPI.CallCheckAutoIncoming "1001" "RATIO" (NoResponse "timeout");
           ConvosoAPI.CallPhoneLogout "1001" (Reply ConvosoAPI.sample_rotation)]
          (state_of (ConvosoAPI.setDisposition "1001" (JNum 42) (JStr "1")
                       (JStr "5551234567") "NOCONT" (Reply ConvosoAPI.sample_rotation)
                       ConvosoAPI.initial)))) = JStr "9".
Proof.
  destruct (setDisposition_rotates_agentLogId sample_config "1001" (JNum 42)
              (JStr "1") (JStr "5551234567") "NOCONT"
              ConvosoAPI.sample_rotation
              (ConvosoAPI.rotated_payload (JStr "9")) ConvosoAPI.initial
              eq_refl eq_refl eq_refl eq_refl) as [Hstored Hlater].
  split; [exact Hstored |].
  apply Hlater. repeat constructor.
Defined.

(** C6, as stated, fails: after the rotation to ["9"], a hangup that is
    given the identifiers of the page, as the browser agent calls it,
    sends ["a-1"]. *)
Lemma hangup_with_own_identifier_ignores_rotation :
  ~ (forall later req id,
       In req (requests (trace_of
                 (ConvosoAPI.run_calls sample_config later
                    (state_of (ConvosoAPI.setDisposition "1001" (JNum 42) (JStr "1")
                                 (JStr "5551234567") "NOCONT"
                                 (Reply ConvosoAPI.sample_rotation)
                                 ConvosoAPI.initial))))) ->
       ConvosoAPI.agent_log_id_of req = Some id ->
       id = JStr "9").
Proof.
  intros H.
  specialize (H [ConvosoAPI.CallHangup "1001" PuppeteerAgent.sample_call 15000
                   (JStr "s-1") (JStr "a-1") (NoResponse "timeout")]
                (ReqHangup "1001" (JStr "s-1") (JStr "a-1") 15
                   PuppeteerAgent.sample_call)
                (JStr "a-1")).
  discriminate H; [left; reflexivity | reflexivity].
Qed.

(** After the rotation to ["9"], a failed poll and the logout both send
    ["9"]. *)
Example rotation_then_poll_and_logout :
  requests (trace_of
    (ConvosoAPI.run_calls sample_config
       [ConvosoAPI.CallCheckAutoIncoming "1001" "RATIO" (NoResponse "timeout");
        ConvosoAPI.CallPhoneLogout "1001" (Reply ConvosoAPI.sample_rotation)]
       (state_of (ConvosoAPI.setDisposition "1001" (JNum 42) (JStr "1")
                    (JStr "5551234567") "NOCONT" (Reply ConvosoAPI.sample_rotation)
                    ConvosoAPI.initial)))) =
  [ReqCheckAutoIncoming "1001" "RATIO" (JStr "9") JNull;
   ReqPhoneLogout "20" "1001" (JStr "9") JNull].
Proof. reflexivity. Qed.

(** C7, as stated, fails: a 204 without a success flag is accepted by
    axios, yet [phoneLogout] throws. *)
Lemma phoneLogout_accepted_status_without_flag_throws :
  ~ (forall (cfg : Config) (campaign : string) (r : Response)
            (a : ConvosoAPI.ApiState),
       below_400 (status r) = true ->
       exists body, result_of (ConvosoAPI.phoneLogout cfg campaign (Reply r) a) = Ret body).
Proof.
  intros H.
  destruct (H sample_config "1001" ConvosoAPI.sample_no_content
              ConvosoAPI.initial eq_refl) as [body Hbody].
  discriminate Hbody.
Qed.

(* ===================================================================== *)
(** * The code in detail *)
(* ===================================================================== *)

(* --------------------------------------------------------------------- *)
(** ** Strings *)
(* --------------------------------------------------------------------- *)

Lemma string_app_cons (c : ascii) (a b : string) :
  (String c a ++ b)%string = String c (a ++ b)%string.
Proof. reflexivity. Qed.

Lemma string_app_nil_l (b : string) : ("" ++ b)%string = b.
Proof. reflexivity. Qed.

Lemma string_app_nil_r (a : string) : (a ++ "")%string = a.
Proof. induction a as [| c r IH]; [reflexivity |]. now rewrite string_app_cons, IH. Qed.

Lemma string_app_assoc (a b c : string) :
  ((a ++ b) ++ c)%string = (a ++ (b ++ c))%string.
Proof. induction a as [| x r IH]; [reflexivity |]. now rewrite !string_app_cons, IH. Qed.

Lemma has_char_app (c : ascii) (a b : string) :
  has_char c (a ++ b) = has_char c a || has_char c b.
Proof.
  induction a as [| x r IH]; [reflexivity |].
  rewrite string_app_cons. cbn. now rewrite IH, orb_assoc.
Qed.




Lemma prefix_empty (s : string) : String.prefix "" s = true.
Proof. destruct s; reflexivity. Qed.

Lemma includes_char (c : ascii) (s : string) :
  includes s (String c "") = has_char c s.
Proof.
  induction s as [| x r IH]; [reflexivity |].
  cbn [includes has_char String.prefix]. rewrite IH, prefix_empty.
  destruct (ascii_dec c x) as [-> | Hne].
  - now rewrite Ascii.eqb_refl.
  - destruct (Ascii.eqb_spec x c) as [-> | _]; [now destruct Hne | reflexivity].
Qed.

Lemma has_char_trimStart (c : ascii) (s : string) :
  has_char c s = false -> has_char c (trimStart s) = false.
Proof.
  induction s as [| x r IH]; [reflexivity |]. cbn [trimStart].
  intros H. destruct (is_space x); [| exact H].
  cbn in H. apply orb_false_iff in H as [_ H]. now apply IH.
Qed.

Lemma has_char_trimEnd (c : ascii) (s : string) :
  has_char c s = false -> has_char c (trimEnd s) = false.
Proof.
  induction s as [| x r IH]; [reflexivity |]. cbn [trimEnd has_char].
  intros H. apply orb_false_iff in H as [Hx Hr].
  destruct (is_space x && String.eqb (trimEnd r) ""); [reflexivity |].
  cbn. now rewrite Hx, IH.
Qed.

Lemma has_char_trim (c : ascii) (s : string) :
  has_char c s = false -> has_char c (trim s) = false.
Proof. intros H. unfold trim. now apply has_char_trimEnd, has_char_trimStart. Qed.

(** The order of strings. *)
Lemma ascii_compare_lt (a b : ascii) :
  Ascii.compare a b = Lt <-> (N_of_ascii a < N_of_ascii b)%N.
Proof. unfold Ascii.compare. apply N.compare_lt_iff. Qed.

Lemma ascii_compare_eq (a b : ascii) : Ascii.compare a b = Eq <-> a = b.
Proof.
  split; [apply Ascii.compare_eq_iff |].
  intros ->. unfold Ascii.compare. apply N.compare_refl.
Qed.

Lemma string_compare_refl (s : string) : String.compare s s = Eq.
Proof.
  induction s as [| c r IH]; [reflexivity |]. cbn.
  now rewrite (proj2 (ascii_compare_eq c c) eq_refl).
Qed.

Lemma string_lt_trans (a : string) :
  forall b c, String.compare a b = Lt -> String.compare b c = Lt ->
              String.compare a c = Lt.
Proof.
  induction a as [| x a IH]; intros [| y b] [| z c]; cbn; try discriminate; auto.
  destruct (Ascii.compare x y) eqn:Exy; try discriminate;
    destruct (Ascii.compare y z) eqn:Eyz; try discriminate.
  - apply ascii_compare_eq in Exy, Eyz. subst.
    rewrite (proj2 (ascii_compare_eq z z) eq_refl). apply IH.
  - apply ascii_compare_eq in Exy. subst. rewrite Eyz. auto.
  - apply ascii_compare_eq in Eyz. subst. rewrite Exy. auto.
  - apply ascii_compare_lt in Exy. apply ascii_compare_lt in Eyz.
    assert (H : Ascii.compare x z = Lt)
      by (apply ascii_compare_lt; now apply (N.lt_trans _ (N_of_ascii y))).
    rewrite H. auto.
Qed.

Lemma ltb_lt (a b : string) : String.ltb a b = true <-> String.compare a b = Lt.
Proof. unfold String.ltb. destruct (String.compare a b); split; congruence. Qed.

Lemma gt_string_irrefl (s : string) : gt_string s s = false.
Proof. unfold gt_string, String.ltb. now rewrite string_compare_refl. Qed.

(** Nothing that is not above [b] is above something above [b]. *)
Lemma gt_string_raise (a b c : string) :
  gt_string a b = false -> gt_string c b = true -> gt_string a c = false.
Proof.
  unfold gt_string. intros Hab Hcb.
  destruct (String.ltb c a) eqn:Hca; [| reflexivity].
  apply ltb_lt in Hcb, Hca.
  pose proof (string_lt_trans _ _ _ Hcb Hca) as Hba.
  apply ltb_lt in Hba. congruence.
Qed.

(** Numerals. *)
Lemma string_of_uint_numeral (d : Decimal.uint) :
  numeral (NilEmpty.string_of_uint d) = true.
Proof. induction d; cbn; auto. Qed.

Lemma decimal_numeral (n : Z) : numeral (decimal n) = true.
Proof.
  unfold decimal, NilZero.string_of_int.
  destruct (Z.to_int n) as [d | d]; unfold NilZero.string_of_uint.
  - destruct d; try reflexivity; cbn; apply string_of_uint_numeral.
  - destruct d; try reflexivity; cbn; apply string_of_uint_numeral.
Qed.

(** A word that begins with a letter does not occur in a numeral. *)
Lemma numeral_excludes (s : string) (c : ascii) (w : string) :
  numeral s = true -> numeral_char c = false ->
  includes s (String c w) = false.
Proof.
  intros Hs Hc. induction s as [| x r IH]; [reflexivity |].
  cbn in Hs. apply andb_true_iff in Hs as [Hx Hr].
  cbn [includes String.prefix].
  destruct (ascii_dec c x) as [-> | _]; [congruence |].
  cbn. now apply IH.
Qed.

(* --------------------------------------------------------------------- *)
(** ** The REST client: cookies *)
(* --------------------------------------------------------------------- *)








(** The value under [k] after a list of headers: that of the last header
    named [k], else what the jar held. *)
Lemma store_cookies_lookup (hs : list string) (jar : gmap string jsval) (k : string) :
  ConvosoAPI.store_cookies jar hs !! k =
  match List.find (fun h => String.eqb (ConvosoAPI.cookie_name h) k) (rev hs) with
  | Some h => Some (ConvosoAPI.cookie_value h)
  | None => jar !! k
  end.
Proof.
  induction hs as [| h hs IH] using rev_ind; [reflexivity |].
  unfold ConvosoAPI.store_cookies in *. rewrite fold_left_app, rev_app_distr. cbn.
  unfold ConvosoAPI.store_cookie at 1.
  destruct (String.eqb_spec (ConvosoAPI.cookie_name h) k) as [-> | Hne].
  - apply lookup_insert_eq.
  - rewrite lookup_insert_ne by exact Hne. apply IH.
Qed.

Lemma store_cookies_twice (hs : list string) (jar : gmap string jsval) :
  ConvosoAPI.store_cookies (ConvosoAPI.store_cookies jar hs) hs =
  ConvosoAPI.store_cookies jar hs.
Proof.
  apply map_eq. intros k.
  rewrite (store_cookies_lookup hs (ConvosoAPI.store_cookies jar hs)).
  rewrite (store_cookies_lookup hs jar).
  destruct (List.find _ (rev hs)); reflexivity.
Qed.

(** X3. Merging the cookies of a response into the jar is idempotent:
    merging the same response twice leaves the client as merging it once.
    It never touches a cookie the response does not name, nor the session
    identifiers. *)
Theorem extractCookies_idempotent (response : Response) (a : ConvosoAPI.ApiState) :
  state_of ((ConvosoAPI.extractCookies response ;; ConvosoAPI.extractCookies response) a) =
  state_of (ConvosoAPI.extractCookies response a) /\
  (forall k,
      (forall h, In h (ConvosoAPI.set_cookie_headers response) ->
                 ConvosoAPI.cookie_name h <> k) ->
      ConvosoAPI.cookies (state_of (ConvosoAPI.extractCookies response a)) !! k =
      ConvosoAPI.cookies a !! k) /\
  ConvosoAPI.sessionId (state_of (ConvosoAPI.extractCookies response a)) =
    ConvosoAPI.sessionId a /\
  ConvosoAPI.agentLogId (state_of (ConvosoAPI.extractCookies response a)) =
    ConvosoAPI.agentLogId a.
Proof.
  unfold ConvosoAPI.extractCookies, ConvosoAPI.set_cookie_headers.
  destruct (set_cookie response) as [hs |]; cbn.
  - split; [| split; [| split; reflexivity]].
    + unfold ConvosoAPI.set_cookies. cbn. now rewrite store_cookies_twice.
    + intros k Hk. now apply store_cookies_other.
  - repeat split.
Qed.

(* --------------------------------------------------------------------- *)
(** ** The REST client: what each call sends, returns and stores *)
(* --------------------------------------------------------------------- *)

Lemma wp_axios_reply {S} (validate : Z -> bool) (h : HttpResult)
    (Q : outcome Response -> S -> list Action -> Prop) (s : S) :
  match h with
  | NoResponse m => Q (Throw (AxiosNoResponse m)) s []
  | Reply r =>
      if validate (status r) then Q (Ret r) s []
      else Q (Throw (AxiosStatus (status r))) s []
  end ->
  wp (axios validate h) Q s.
Proof.
  unfold wp, axios. destruct h as [m | r]; [exact (fun H => H) |].
  destruct (validate (status r)); exact (fun H => H).
Qed.

(** Symbolic runs that keep track of what each reply was. *)
Ltac wp_reply_step :=
  lazymatch goal with
  | |- wp (axios _ ?h) _ _ =>
      apply wp_axios_reply;
      match h with
      | Reply _ => idtac
      | NoResponse _ => idtac
      | _ => destruct h as [? | ?]
      end
  | |- if ?b then _ else _ => destruct b eqn:?
  | |- _ => wp_step
  end.

Ltac wp_replies := repeat (wp_reply_step; cbv beta iota).

(** Comparisons of a status, as propositions. *)
Ltac status_facts :=
  unfold is_302_or_200, below_400 in *;
  repeat match goal with
         | H : _ && _ = true |- _ => apply andb_true_iff in H; destruct H
         | H : _ || _ = false |- _ => apply orb_false_iff in H; destruct H
         | H : (_ =? _)%Z = true |- _ => apply Z.eqb_eq in H
         | H : (_ =? _)%Z = false |- _ => apply Z.eqb_neq in H
         | H : (_ <? _)%Z = true |- _ => apply Z.ltb_lt in H
         | H : (_ <? _)%Z = false |- _ => apply Z.ltb_ge in H
         end.

Ltac rewrite_tests :=
  repeat match goal with
         | H : ?b = _ |- context [?b] => rewrite H
         end.

Section ClientCalls.
Context (cfg : Config).







(** X4. [login] sends the credential POST first and then one GET per
    redirect it follows itself, at most two: the first to the Location of
    a 302 answer to the POST, the second to the Location of a 302 answer
    to the first GET, which is used as it is when it begins with [http]
    and is put after [https://agent-dt.convoso.com] otherwise. That second
    GET allows five redirects: after it come the requests by which axios
    follows the redirects the platform answers with, five at most.
    Nothing else is requested, whatever the replies are: eight requests at
    most. *)
Theorem login_requests (user pass : string) (post verify : HttpResult)
    (final : nat -> HttpResult) (a : ConvosoAPI.ApiState) :
  requests (trace_of (ConvosoAPI.login cfg user pass post verify final a)) =
    ReqLogin user pass :: map ReqGet (redirects post verify) ++
    (if (length (redirects post verify) =? 2)%nat
     then map ReqFollow (followed 5 final 0)
     else []) /\
  (length (requests (trace_of (ConvosoAPI.login cfg user pass post verify final a)))
   <= 8)%nat.
Proof.
  assert (Hreq :
    requests (trace_of (ConvosoAPI.login cfg user pass post verify final a)) =
    ReqLogin user pass :: map ReqGet (redirects post verify) ++
    (if (length (redirects post verify) =? 2)%nat
     then map ReqFollow (followed 5 final 0)
     else [])).
  { change (wp (ConvosoAPI.login cfg user pass post verify final)
              (fun _ _ t => requests t =
                 ReqLogin user pass :: map ReqGet (redirects post verify) ++
                 (if (length (redirects post verify) =? 2)%nat
                  then map ReqFollow (followed 5 final 0)
                  else [])) a).
    unfold ConvosoAPI.login. wp_replies.
    all: unfold redirects;
      repeat first [ rewrite requests_app | rewrite requests_follows
                   | rewrite app_nil_r | progress cbn [requests app map] ].
    all: rewrite_tests; cbn [requests app map default length Nat.eqb]; try reflexivity.
    all: repeat match goal with
                | |- context [if ?b then _ else _] => destruct b eqn:?
                end; cbn [requests app map default length Nat.eqb];
      rewrite ?app_nil_r; try reflexivity.
    all: try match goal with
             | H : (length _ =? _)%nat = _ |- _ => cbn in H; discriminate H
             end.
    all: exfalso; status_facts; lia. }
  split; [exact Hreq |]. rewrite Hreq. cbn [length]. rewrite length_app, length_map.
  assert (Hr : (length (redirects post verify) <= 2)%nat).
  { unfold redirects. destruct post as [m | r1]; [cbn; lia |].
    destruct ((status r1 =? 302)%Z && has_location r1); [| cbn; lia].
    destruct verify as [m | r2]; [cbn; lia |].
    destruct ((status r2 =? 302)%Z && has_location r2); cbn; lia. }
  pose proof (followed_length final 5 0) as Hf.
  destruct (length (redirects post verify) =? 2)%nat;
    rewrite ?length_map; cbn [length]; lia.
Qed.

(** X5. A credential POST that axios accepts but that is not a 302 with a
    Location (a 200, or a 302 without the header) makes [login] fail with
    [Login failed - no redirect received] after that single request; the
    cookies of the response (and the trusted-device cookie) are in the jar
    all the same. *)
Theorem login_fails_without_redirect (user pass : string) (r : Response)
    (verify : HttpResult) (final : nat -> HttpResult) (a : ConvosoAPI.ApiState) :
  is_302_or_200 (status r) = true ->
  (status r =? 302)%Z && has_location r = false ->
  let res := ConvosoAPI.login cfg user pass (Reply r) verify final a in
  result_of res = Throw (Error "Login failed - no redirect received") /\
  requests (trace_of res) = [ReqLogin user pass] /\
  ConvosoAPI.cookies (state_of res) =
  ConvosoAPI.store_cookies
    (if negb (String.eqb (trustedDeviceCookie cfg) "")
     then <["trusted_device" := JStr (trustedDeviceCookie cfg)]> (ConvosoAPI.cookies a)
     else ConvosoAPI.cookies a)
    (ConvosoAPI.set_cookie_headers r).
Proof.
  intros H0 H1. cbv zeta. unfold ConvosoAPI.login, ConvosoAPI.set_cookie_headers.
  run_js. rewrite H0.
  destruct (negb (String.eqb (trustedDeviceCookie cfg) "")); cbn;
    destruct (set_cookie r); cbn; rewrite H1; cbn; repeat split.
Qed.

(** X6. [phoneLogin] returns exactly on an accepted reply with a truthy
    [success] and a [data] object, and then the client holds the
    [session_id] and [agent_log_id] of that object; in every other case it
    throws and both identifiers are as they were. *)
Theorem phoneLogin_session (campaign name dm : string) (h : HttpResult)
    (a : ConvosoAPI.ApiState) :
  let res := ConvosoAPI.phoneLogin campaign name dm h a in
  match result_of res with
  | Ret body =>
      h = Reply body /\ below_400 (status body) = true /\
      truthy (success body) = true /\
      exists p, data body = Some p /\
        ConvosoAPI.sessionId (state_of res) = p_session_id p /\
        ConvosoAPI.agentLogId (state_of res) = p_agent_log_id p
  | Throw _ =>
      accepted (fun r => truthy (success r) && bool_decide (is_Some (data r))) h = false /\
      ConvosoAPI.sessionId (state_of res) = ConvosoAPI.sessionId a /\
      ConvosoAPI.agentLogId (state_of res) = ConvosoAPI.agentLogId a
  end.
Proof.
  cbv zeta. unfold ConvosoAPI.phoneLogin, accepted.
  destruct h as [m | r]; run_js; [repeat split |].
  destruct (below_400 (status r)) eqn:B; cbn; [| repeat split].
  destruct (set_cookie r); cbn;
    destruct (data r) as [p |] eqn:D; cbn;
    destruct (truthy (success r)) eqn:T; cbn; repeat split; eauto.
Qed.

(** X7. What [changeAvailability] returns or throws, and the state it
    leaves the client in, do not depend on the reply to the resume
    request: a failed resume is logged and forgotten. *)
Theorem changeAvailability_ignores_resume_reply (campaign code : string)
    (resume resume' change : HttpResult) (a : ConvosoAPI.ApiState) :
  result_of (ConvosoAPI.changeAvailability cfg campaign code resume change a) =
  result_of (ConvosoAPI.changeAvailability cfg campaign code resume' change a) /\
  state_of (ConvosoAPI.changeAvailability cfg campaign code resume change a) =
  state_of (ConvosoAPI.changeAvailability cfg campaign code resume' change a).
Proof.
  unfold ConvosoAPI.changeAvailability.
  destruct (String.eqb code (availabilityReady cfg));
    destruct resume as [m | r]; destruct resume' as [m' | r'];
    destruct change as [mc | rc]; run_js;
    repeat match goal with
           | |- context [below_400 (status ?x)] => destruct (below_400 (status x)); cbn
           | |- context [match set_cookie ?r with _ => _ end] =>
               destruct (set_cookie r); cbn
           | |- context [truthy ?x] => destruct (truthy x); cbn
           end; split; reflexivity.
Qed.

(** X8. Polling, hanging up and logging out never change the client: no
    cookie of their responses is stored, and the session identifiers stay,
    also after a successful logout. *)
Theorem read_only_calls_leave_client (campaign dm : string) (ci : CallInfo)
    (d : Z) (sid aid : jsval) (h : HttpResult) (a : ConvosoAPI.ApiState) :
  state_of (ConvosoAPI.checkAutoIncoming campaign dm h a) = a /\
  state_of (ConvosoAPI.hangup campaign ci d sid aid h a) = a /\
  state_of (ConvosoAPI.phoneLogout cfg campaign h a) = a.
Proof.
  unfold ConvosoAPI.checkAutoIncoming, ConvosoAPI.hangup, ConvosoAPI.phoneLogout.
  destruct h as [m | r]; run_js; [repeat split |].
  destruct (below_400 (status r)); cbn; [| repeat split].
  repeat split;
    repeat match goal with
           | |- context [if ?b then _ else _] => destruct b; cbn
           | |- context [match data ?r with _ => _ end] => destruct (data r); cbn
           end; reflexivity.
Qed.

(** X9. [setDisposition] never changes the session identifier or the user
    identifier, and it changes the stored [agentLogId] only by a rotation:
    when it returns the response and that response carries a truthy
    [data.agentLogId], which is then the stored one. A failed call, or a
    response without the field, leaves the identifier as it was. *)
Theorem setDisposition_changes_id_only_by_rotation (campaign : string)
    (lead pc pn : jsval) (st : string) (h : HttpResult) (a : ConvosoAPI.ApiState) :
  let res := ConvosoAPI.setDisposition campaign lead pc pn st h a in
  ConvosoAPI.sessionId (state_of res) = ConvosoAPI.sessionId a /\
  ConvosoAPI.userId (state_of res) = ConvosoAPI.userId a /\
  (ConvosoAPI.agentLogId (state_of res) = ConvosoAPI.agentLogId a \/
   exists r p, h = Reply r /\ result_of res = Ret r /\ data r = Some p /\
     truthy (p_agentLogId p) = true /\
     ConvosoAPI.agentLogId (state_of res) = p_agentLogId p).
Proof.
  cbv zeta. unfold ConvosoAPI.setDisposition.
  destruct h as [m | r]; run_js; [repeat split; now left |].
  destruct (below_400 (status r)); cbn; [| repeat split; now left].
  destruct (set_cookie r); cbn;
    destruct (truthy (success r)); cbn; try (repeat split; now left);
    destruct (data r) as [p |] eqn:D; cbn; try (repeat split; now left);
    destruct (truthy (p_agentLogId p)) eqn:T; cbn;
    (split; [reflexivity | split; [reflexivity |]]);
    try (now left); right; exists r, p; repeat split; assumption.
Qed.

(** What [login] and [phoneLogin] add to a trace. *)
Lemma wp_login (user pass : string) (post verify : HttpResult)
    (final : nat -> HttpResult)
    (Q : outcome bool -> ConvosoAPI.ApiState -> list Action -> Prop)
    (a : ConvosoAPI.ApiState) :
  (forall o a' t, effects t 0 0 -> Q o a' t) ->
  wp (ConvosoAPI.login cfg user pass post verify final) Q a.
Proof.
  intros H. apply H.
  change (wp (ConvosoAPI.login cfg user pass post verify final)
            (fun _ _ t => effects t 0 0) a).
  unfold ConvosoAPI.login. wp_run.
  all: unfold effects;
    repeat first [ rewrite handled_app | rewrite count_app
                 | rewrite handled_follows
                 | rewrite count_follows by reflexivity
                 | progress cbn [handled count app is_fallback
                                 is_disposition_request Nat.add] ].
  all: repeat split.
Qed.

Lemma wp_phoneLogin (campaign name dm : string) (h : HttpResult)
    (Q : outcome Response -> ConvosoAPI.ApiState -> list Action -> Prop)
    (a : ConvosoAPI.ApiState) :
  (forall o a' t, effects t 0 0 -> Q o a' t) ->
  wp (ConvosoAPI.phoneLogin campaign name dm h) Q a.
Proof.
  intros H. apply H.
  change (wp (ConvosoAPI.phoneLogin campaign name dm h)
            (fun _ _ t => effects t 0 0) a).
  unfold ConvosoAPI.phoneLogin. wp_run. all: repeat split.
Qed.

(** Client calls emit actions of handling calls only. *)
Lemma hangup_calm (campaign : string) (ci : CallInfo) (d : Z) (sid aid : jsval)
    (h : HttpResult) (a : ConvosoAPI.ApiState) :
  wp (ConvosoAPI.hangup campaign ci d sid aid h) (fun _ _ t => calm t) a.
Proof.
  unfold ConvosoAPI.hangup. wp_run.
  all: unfold calm; repeat first [apply Forall_nil_2 | apply Forall_cons_2; [reflexivity |]].
Qed.

Lemma setDisposition_calm (campaign : string) (lead pc pn : jsval) (st : string)
    (h : HttpResult) (a : ConvosoAPI.ApiState) :
  wp (ConvosoAPI.setDisposition campaign lead pc pn st h) (fun _ _ t => calm t) a.
Proof.
  unfold ConvosoAPI.setDisposition. wp_run.
  all: unfold calm; repeat first [apply Forall_nil_2 | apply Forall_cons_2; [reflexivity |]].
Qed.

End ClientCalls.


(** A chain that is one redirect deeper: axios follows the third redirect
    by itself, and the cookie of that response never reaches the jar. *)
Example login_deeper_chain_drops_cookie :
  let res := ConvosoAPI.login sample_config "agent" "secret"
               (Reply ConvosoAPI.sample_post) (Reply ConvosoAPI.sample_verify)
               (fun k => match k with
                         | O => Reply sample_hop
                         | _ => Reply ConvosoAPI.sample_final
                         end)
               ConvosoAPI.initial in
  result_of res = Ret true /\
  requests (trace_of res) =
    [ReqLogin "agent" "secret"; ReqGet "https://agent.convoso.com/verify";
     ReqGet "https://agent-dt.convoso.com/"; ReqFollow "/home"] /\
  ConvosoAPI.cookies (state_of res) !! "HOP" = None /\
  ConvosoAPI.cookies (state_of res) !! "CLUSTER" = Some (JStr "dt").
Proof. vm_compute. repeat split. Qed.


Lemma login_fails_without_redirect_witness :
  result_of (ConvosoAPI.login sample_config "agent" "wrong"
               (Reply sample_ok_without_redirect) (NoResponse "unused")
               (fun _ => NoResponse "unused") ConvosoAPI.initial) =
    Throw (Error "Login failed - no redirect received") /\
  ConvosoAPI.cookies
    (state_of (ConvosoAPI.login sample_config "agent" "wrong"
                 (Reply sample_ok_without_redirect) (NoResponse "unused")
                 (fun _ => NoResponse "unused") ConvosoAPI.initial)) !! "PROJECTXSESS" =
    Some (JStr "s1").
Proof.
  destruct (login_fails_without_redirect sample_config "agent" "wrong"
              sample_ok_without_redirect (NoResponse "unused")
              (fun _ => NoResponse "unused")
              ConvosoAPI.initial eq_refl eq_refl) as (Hres & _ & Hjar).
  split; [exact Hres |]. rewrite Hjar. reflexivity.
Defined.

(* --------------------------------------------------------------------- *)
(** ** ConvosoAgent: one call, shutdown, start-up, rejected polls *)
(* --------------------------------------------------------------------- *)

(** The message of a rejected status holds neither [authentication] nor
    [session]. *)
Lemma status_error_not_critical (st : Z) :
  ConvosoAgent.critical (AxiosStatus st) = false.
Proof.
  unfold ConvosoAgent.critical, message.
  pose proof (decimal_numeral st) as Hd.
  set (d := decimal st) in *.
  assert (Ha : includes ("Request failed with status code " ++ d) "authentication" = false).
  { rewrite !string_app_cons, string_app_nil_l. cbn.
    rewrite numeral_excludes by (exact Hd || reflexivity). reflexivity. }
  assert (Hs : includes ("Request failed with status code " ++ d) "session" = false).
  { rewrite !string_app_cons, string_app_nil_l. cbn.
    rewrite numeral_excludes by (exact Hd || reflexivity). reflexivity. }
  now rewrite Ha, Hs.
Qed.

Section PollingCalls.
Context (cfg : Config).
Import ConvosoAgent.

(** X10. [handleCall] of the polling agent always returns and counts the
    call. For a call with lead information it sends the hangup with the
    stored session identifiers and the measured duration in whole seconds,
    and then the disposition request exactly when the hangup was
    acknowledged (accepted status and truthy [ishangup]): after a failed
    hangup no disposition is sent. Without lead information it sends
    nothing. *)
Theorem polling_handleCall_requests (ev : PollEvent) (s : AgentState) :
  (forall ci,
      let res := handleCall cfg (Some ci) ev s in
      result_of res = Ret tt /\
      callCount (state_of res) = callCount s + 1 /\
      requests (trace_of res) =
        ReqHangup (campaignId cfg) (ConvosoAPI.sessionId (api s))
          (ConvosoAPI.agentLogId (api s)) (elapsed ev / 1000) ci ::
        if accepted (fun r => truthy (ishangup r)) (hangupReply ev)
        then [ReqLeadDisposition (campaignId cfg) (lead_id ci) (dispositionStatus cfg)
                (ConvosoAPI.agentLogId (api s)) (phone_code ci) (phone_number ci)
                (js_or (ConvosoAPI.userId (api s)) (JNum 0))]
        else []) /\
  (let res := handleCall cfg None ev s in
   result_of res = Ret tt /\ callCount (state_of res) = callCount s + 1 /\
   requests (trace_of res) = []).
Proof.
  split.
  - intros ci. cbv zeta.
    change (wp (handleCall cfg (Some ci) ev)
              (fun o s' t =>
                 o = Ret tt /\ callCount s' = callCount s + 1 /\
                 requests t =
                   ReqHangup (campaignId cfg) (ConvosoAPI.sessionId (api s))
                     (ConvosoAPI.agentLogId (api s)) (elapsed ev / 1000) ci ::
                   if accepted (fun r => truthy (ishangup r)) (hangupReply ev)
                   then [ReqLeadDisposition (campaignId cfg) (lead_id ci)
                           (dispositionStatus cfg) (ConvosoAPI.agentLogId (api s))
                           (phone_code ci) (phone_number ci)
                           (js_or (ConvosoAPI.userId (api s)) (JNum 0))]
                   else []) s).
    unfold handleCall, on_api, ConvosoAPI.hangup, ConvosoAPI.setDisposition.
    destruct (hangupReply ev) as [m | r] eqn:Eh; unfold accepted; wp_replies.
    all: cbn; rewrite_tests; cbn; repeat split; try reflexivity.
  - cbv zeta. unfold handleCall. run_js. cbn. repeat split.
Qed.

(** X11. [stop] of a running polling agent always returns with the agent
    marked as not running and always asks for the not-ready state; it
    sends the phone logout exactly when that availability change
    succeeded (accepted status and truthy [success]): after a failed
    change the logout is skipped. *)
Theorem polling_stop_skips_logout (env : StopEnv) (s : AgentState) :
  isRunning s = true ->
  let res := stop cfg env s in
  result_of res = Ret tt /\ isRunning (state_of res) = false /\
  (exists c, In (ReqAvailabilityChange c (campaignId cfg) (availabilityNotReady cfg))
               (requests (trace_of res))) /\
  count is_logout_request (trace_of res) =
    if accepted (fun r => truthy (success r)) (notReadyReply env) then 1%nat else 0%nat.
Proof.
  intros Hrun. cbv zeta.
  change (wp (stop cfg env)
            (fun o s' t =>
               o = Ret tt /\ isRunning s' = false /\
               (exists c, In (ReqAvailabilityChange c (campaignId cfg)
                                (availabilityNotReady cfg)) (requests t)) /\
               count is_logout_request t =
                 if accepted (fun r => truthy (success r)) (notReadyReply env)
                 then 1%nat else 0%nat) s).
  unfold stop, on_api, ConvosoAPI.changeAvailability, ConvosoAPI.phoneLogout.
  destruct (notReadyReply env) as [m | r] eqn:En; unfold accepted; wp_replies.
  all: try (rewrite Hrun in *; discriminate).
  all: cbn; rewrite_tests; cbn; repeat split; try reflexivity.
  all: try (eexists; cbn; tauto).
  all: try discriminate.
Qed.

(** X13. A poll that the platform rejects with an error status (401, 403,
    500, ...) is not a critical error: the iteration logs it, waits five
    seconds and goes on, with the agent still running and unchanged. *)
Theorem rejected_poll_is_retried (env : StopEnv) (ev : PollEvent) (r : Response)
    (s : AgentState) :
  isRunning s = true -> budget_reached cfg (callCount s) = false ->
  poll ev = Reply r -> below_400 (status r) = false ->
  let res := iteration cfg env (poll_and_handle cfg ev) s in
  result_of res = Ret Continue /\ state_of res = s /\
  requests (trace_of res) =
    [ReqCheckAutoIncoming (campaignId cfg) (campaignDialMethod cfg)
       (ConvosoAPI.agentLogId (api s)) (ConvosoAPI.sessionId (api s))] /\
  last (trace_of res) = Some (Sleep 5000).
Proof.
  intros Hrun Hb Hp Hst. cbv zeta.
  unfold iteration, poll_and_handle, on_api, ConvosoAPI.checkAutoIncoming.
  rewrite Hp. run_js. rewrite Hb, Hst. cbn.
  rewrite status_error_not_critical. cbn.
  destruct s; repeat split; reflexivity.
Qed.

(** The polling loop always returns. *)
Lemma handleCallsLoop_returns (env : StopEnv) (evs : list PollEvent) :
  forall s, wp (handleCallsLoop cfg env evs) (fun o _ _ => exists st, o = Ret st) s.
Proof.
  induction evs as [| ev rest IH]; intros s.
  - destruct (isRunning s) eqn:Hrun.
    + cbn [handleCallsLoop]. apply wp_bind, wp_get. rewrite Hrun. cbn [negb].
      apply wp_bind, polling_wp_idle; [exact Hrun |].
      intros flow s1 t1 _ _ _. destruct flow; wp_run; eauto.
    + unfold wp. rewrite handleCallsLoop_stopped by exact Hrun. cbn. eauto.
  - destruct (isRunning s) eqn:Hrun.
    + cbn [handleCallsLoop]. apply wp_bind, wp_get. rewrite Hrun. cbn [negb].
      apply wp_bind, polling_wp_iteration; [exact Hrun |].
      intros flow s1 t1 _. destruct flow.
      * eapply wp_mono; [apply IH |]. intros o s2 t2 H. exact H.
      * apply wp_ret. eauto.
    + unfold wp. rewrite handleCallsLoop_stopped by exact Hrun. cbn. eauto.
Qed.

(** X12. When [start] fails it fails during set-up (login, phone login or
    the change to ready; the loop itself never throws): no call was
    handled, the failure is logged, [stop] is entered, the agent is left
    marked as not running, and the error is the one rethrown. *)
Theorem start_failure_stops_agent (senv : StartEnv) (env : StopEnv)
    (evs : list PollEvent) (s : AgentState) (e : Err) :
  result_of (start cfg senv env evs s) = Throw e ->
  isRunning (state_of (start cfg senv env evs s)) = false /\
  callCount (state_of (start cfg senv env evs s)) = callCount s /\
  handled (trace_of (start cfg senv env evs s)) = [] /\
  In (LogError "Failed to start agent" (Some e)) (trace_of (start cfg senv env evs s)) /\
  In StopStart (trace_of (start cfg senv env evs s)).
Proof.
  revert e.
  change (wp (start cfg senv env evs)
            (fun o s' t =>
               forall e, o = Throw e ->
                 isRunning s' = false /\ callCount s' = callCount s /\
                 handled t = [] /\
                 In (LogError "Failed to start agent" (Some e)) t /\
                 In StopStart t) s).
  unfold start.
  apply wp_try_catch.
  apply (wp_mono _
           (fun o s' t =>
              match o with
              | Ret _ => True
              | Throw _ => isRunning s' = true /\ callCount s' = callCount s /\
                           handled t = []
              end)).
  - unfold on_api.
    repeat (first [ apply wp_login; intros ? ? ? ?
                  | apply wp_phoneLogin; intros ? ? ? ?
                  | wp_client
                  | lazymatch goal with
                    | |- wp (handleCallsLoop _ _ _) _ _ =>
                        eapply wp_mono; [apply handleCallsLoop_returns |];
                        intros ? ? ? [? ->]; exact I
                    end
                  | wp_step ]; cbv beta iota).
    all: cbn; repeat split; solve_trace.
  - intros o s1 t1. destruct o as [st | e1]; [discriminate |].
    intros (Hrun & Hc & Hh).
    apply wp_bind, wp_emit. cbv beta iota.
    apply wp_bind. unfold stop. apply wp_bind, wp_get. rewrite Hrun. cbn [negb].
    apply wp_bind, wp_emit. cbv beta iota.
    apply wp_bind, wp_modify. cbv beta iota.
    unfold on_api. wp_agent.
    all: intros e0 He; inversion He; subst; cbn; repeat split; trivial; solve_trace.
    all: apply in_or_app; right; cbn; tauto.
Qed.

End PollingCalls.

Lemma polling_stop_skips_logout_witness :
  count is_logout_request
    (trace_of (ConvosoAgent.stop sample_config ConvosoAgent.sample_stop
                 (ConvosoAgent.started ConvosoAPI.initial))) = 1%nat.
Proof.
  exact (proj2 (proj2 (proj2
    (polling_stop_skips_logout sample_config ConvosoAgent.sample_stop
       (ConvosoAgent.started ConvosoAPI.initial) eq_refl)))).
Defined.

Lemma rejected_poll_is_retried_witness :
  result_of (ConvosoAgent.iteration sample_config ConvosoAgent.sample_stop
               (ConvosoAgent.poll_and_handle sample_config sample_rejected_poll)
               (ConvosoAgent.started ConvosoAPI.initial)) = Ret Continue.
Proof.
  exact (proj1 (rejected_poll_is_retried sample_config ConvosoAgent.sample_stop
                  sample_rejected_poll sample_unauthorized
                  (ConvosoAgent.started ConvosoAPI.initial)
                  eq_refl eq_refl eq_refl eq_refl)).
Defined.

Lemma start_failure_stops_agent_witness :
  ConvosoAgent.isRunning
    (state_of (ConvosoAgent.start sample_config sample_failing_start
                 ConvosoAgent.sample_stop [] ConvosoAgent.initial)) = false.
Proof.
  exact (proj1 (start_failure_stops_agent sample_config sample_failing_start
                  ConvosoAgent.sample_stop [] ConvosoAgent.initial
                  (AxiosNoResponse "connect ECONNREFUSED") eq_refl)).
Defined.

(* --------------------------------------------------------------------- *)
(** ** PuppeteerAgent: the two ladders, the fallback, shutdown *)
(* --------------------------------------------------------------------- *)

Ltac count_norm := repeat first [rewrite count_app | progress cbn].

Ltac solve_calm :=
  unfold calm in *;
  repeat first [ assumption
               | apply Forall_nil_2
               | apply Forall_cons_2; [reflexivity |]
               | apply Forall_app_2 ].

Lemma wp_calm {S A} (m : M S A) (Q : outcome A -> S -> list Action -> Prop) (s : S) :
  wp m (fun _ _ t => calm t) s ->
  (forall o s' t, calm t -> Q o s' t) ->
  wp m Q s.
Proof. unfold wp. intros H HQ. apply HQ, H. Qed.

Ltac wp_calm_step :=
  lazymatch goal with
  | |- wp (ConvosoAPI.hangup _ _ _ _ _ _) _ _ =>
      eapply wp_calm; [apply hangup_calm | intros ? ? ? ?]
  | |- wp (ConvosoAPI.setDisposition _ _ _ _ _ _) _ _ =>
      eapply wp_calm; [apply setDisposition_calm | intros ? ? ? ?]
  | |- _ => wp_step
  end.

Section BrowserCalls.
Context (cfg : Config).
Import PuppeteerAgent.

(** What the end-call ladder leaves in the trace. *)
Lemma endCall_trace (ci : CallInfo) (env : CallEnv) (s : AgentState) :
  let t := trace_of (endCall cfg ci env s) in
  (count is_wrapup_click t + count is_hangup_request t <= 1)%nat /\
  (count is_hangup_request t = 1%nat <->
   wrapup env = Ret false /\ wrapupRetry env = Ret false /\
   wrapupModal env = Ret false /\ exists si, hangupSession env = Ret si) /\
  count is_disposition_click t = 0%nat /\
  count is_disposition_request t = 0%nat /\
  count is_disposition_step t = 0%nat.
Proof.
  cbv zeta.
  change (wp (endCall cfg ci env)
            (fun _ _ t =>
               (count is_wrapup_click t + count is_hangup_request t <= 1)%nat /\
               (count is_hangup_request t = 1%nat <->
                wrapup env = Ret false /\ wrapupRetry env = Ret false /\
                wrapupModal env = Ret false /\ exists si, hangupSession env = Ret si) /\
               count is_disposition_click t = 0%nat /\
               count is_disposition_request t = 0%nat /\
               count is_disposition_step t = 0%nat) s).
  unfold endCall, on_api, ConvosoAPI.hangup. wp_replies.
  all: cbn; split; [lia |].
  all: split; [| repeat split].
  all: split; [try discriminate; try lia | ].
  all: try (intros (? & ? & ? & [? ?]); congruence).
  all: try (intros _; repeat split; eauto; congruence).
Qed.

(** X14. The end-call ladder ends a call by at most one action: one click
    on WRAPUP or one REST hangup, never both and never two of either. The
    REST hangup is sent exactly when all three searches for WRAPUP ran and
    found nothing and the session identifiers could then be read from the
    page. *)
Theorem endCall_ends_call_once (ci : CallInfo) (env : CallEnv) (s : AgentState) :
  let t := trace_of (endCall cfg ci env s) in
  (count is_wrapup_click t + count is_hangup_request t <= 1)%nat /\
  (count is_hangup_request t = 1%nat <->
   wrapup env = Ret false /\ wrapupRetry env = Ret false /\
   wrapupModal env = Ret false /\ exists si, hangupSession env = Ret si).
Proof.
  cbv zeta. destruct (endCall_trace ci env s) as (H1 & H2 & _). split; assumption.
Qed.

(** X16. When the page hands over its cookies and its session identifiers,
    the REST fallback sends exactly one request, the disposition request,
    with the cookies of the page as its whole jar and the [agent_log_id] of
    the page; what the client had stored before is not used. The fallback
    returns whatever the platform answers. *)
Theorem fallback_request_uses_page_session (ci : CallInfo) (env : CallEnv)
    (s : AgentState) (cookies : list (string * string)) (si : SessionInfo) :
  pageCookies env = Ret cookies -> scopeSession env = Ret si ->
  let res := setDispositionViaAPI cfg ci env s in
  result_of res = Ret tt /\
  (exists tail,
      trace_of res =
        ViaAPI ci :: Page ReadCookies :: Page ReadSessionInfo ::
        Http (cookie_object cookies)
          (ReqLeadDisposition (campaignId cfg) (lead_id ci) (dispositionStatus cfg)
             (agent_log_id si) (phone_code ci) (phone_number ci)
             (js_or (ConvosoAPI.userId (api s)) (JNum 0))) :: tail /\
      requests tail = []) /\
  ConvosoAPI.sessionId (api (state_of res)) = session_id si.
Proof.
  intros Hc Hs. cbv zeta.
  change (wp (setDispositionViaAPI cfg ci env)
            (fun o s' t =>
               o = Ret tt /\
               (exists tail,
                   t = ViaAPI ci :: Page ReadCookies :: Page ReadSessionInfo ::
                       Http (cookie_object cookies)
                         (ReqLeadDisposition (campaignId cfg) (lead_id ci)
                            (dispositionStatus cfg) (agent_log_id si) (phone_code ci)
                            (phone_number ci)
                            (js_or (ConvosoAPI.userId (api s)) (JNum 0))) :: tail /\
                   requests tail = []) /\
               ConvosoAPI.sessionId (api s') = session_id si) s).
  unfold setDispositionViaAPI, on_api, ConvosoAPI.setDisposition.
  rewrite Hc, Hs. wp_replies.
  all: cbn; repeat split; try (eexists; split; reflexivity).
Qed.

Lemma ladder_trace (ci : CallInfo) (env : CallEnv) (s : AgentState) :
  wp (setDispositionLadder cfg ci env)
     (fun _ _ t =>
        (count is_disposition_click t + count is_disposition_request t <= 1)%nat /\
        count is_wrapup_click t = 0%nat /\ count is_hangup_request t = 0%nat) s.
Proof.
  unfold setDispositionLadder, setDispositionViaAPI, on_api, ConvosoAPI.setDisposition.
  wp_replies.
  all: cbn; repeat split; lia.
Qed.

(** X17. Within one [handleCall] of the browser agent a call is ended by
    at most one action (a WRAPUP click or a REST hangup) and dispositioned
    by at most one action (a click on the disposition control or a REST
    disposition request). When the end-call ladder throws, no step of the
    disposition ladder runs at all: the call stays without a
    disposition. *)
Theorem handleCall_disposition_once (ci : CallInfo) (env : CallEnv) (s : AgentState) :
  let t := trace_of (handleCall cfg ci env s) in
  (count is_disposition_click t + count is_disposition_request t <= 1)%nat /\
  (count is_wrapup_click t + count is_hangup_request t <= 1)%nat /\
  (forall e, result_of (endCall cfg ci env (incr_callCount s)) = Throw e ->
     count is_disposition_step t = 0%nat).
Proof.
  cbv zeta.
  change (wp (handleCall cfg ci env)
            (fun _ _ t =>
               (count is_disposition_click t + count is_disposition_request t <= 1)%nat /\
               (count is_wrapup_click t + count is_hangup_request t <= 1)%nat /\
               (forall e, result_of (endCall cfg ci env (incr_callCount s)) = Throw e ->
                          count is_disposition_step t = 0%nat)) s).
  unfold handleCall.
  apply wp_bind, wp_modify. cbv beta iota.
  apply wp_bind, wp_emit. cbv beta iota.
  apply wp_try_catch. apply wp_bind, wp_emit. cbv beta iota.
  apply wp_bind.
  unfold wp at 1.
  destruct (endCall_trace ci env (incr_callCount s)) as (He1 & _ & He2 & He3 & He4).
  set (r := endCall cfg ci env (incr_callCount s)) in *.
  destruct (result_of r) as [[] | e] eqn:Er.
  - apply wp_bind, wp_emit. cbv beta iota.
    apply wp_bind. eapply wp_mono; [apply ladder_trace |].
    intros o s2 t2 (Hl1 & Hl2 & Hl3). destruct o as [[] | e]; wp_run.
    all: count_norm.
    all: repeat split; try lia; try discriminate.
  - wp_run. count_norm.
    repeat split; try lia.
Qed.

(** [handleCall] emits actions of handling calls only. *)
Lemma handleCall_calm (ci : CallInfo) (env : CallEnv) (s : AgentState) :
  wp (handleCall cfg ci env) (fun _ _ t => calm t) s.
Proof.
  assert (He : forall s0, wp (endCall cfg ci env) (fun _ _ t => calm t) s0).
  { intros s0. unfold endCall, on_api. repeat (wp_calm_step; cbv beta iota).
    all: solve_calm. }
  assert (Hv : forall s0, wp (setDispositionViaAPI cfg ci env) (fun _ _ t => calm t) s0).
  { intros s0. unfold setDispositionViaAPI, on_api. repeat (wp_calm_step; cbv beta iota).
    all: solve_calm. }
  assert (Hl : forall s0, wp (setDispositionLadder cfg ci env) (fun _ _ t => calm t) s0).
  { intros s0. unfold setDispositionLadder.
    repeat (first [ eapply wp_calm; [apply Hv | intros ? ? ? ?]
                  | wp_step ]; cbv beta iota).
    all: solve_calm. }
  unfold handleCall.
  repeat (first [ eapply wp_calm; [apply He | intros ? ? ? ?]
                | eapply wp_calm; [apply Hl | intros ? ? ? ?]
                | wp_step ]; cbv beta iota).
  all: solve_calm.
Qed.

Lemma wp_handleCall_calm (ci : CallInfo) (env : CallEnv)
    (Q : outcome unit -> AgentState -> list Action -> Prop) (s : AgentState) :
  (forall s' t, isRunning s' = isRunning s -> calm t -> Q (Ret tt) s' t) ->
  wp (handleCall cfg ci env) Q s.
Proof.
  intros H.
  pose proof (handleCall_calm ci env s) as Hc.
  pose proof (wp_handleCall cfg ci env
                (fun o s' _ => o = Ret tt /\ isRunning s' = isRunning s) s) as Hr.
  unfold wp in *. destruct Hr as [Ho Hr]; [auto |].
  rewrite Ho. now apply H.
Qed.

(** X20. With an unlimited call budget ([maxCalls] 0) the browser agent's
    loop never stops by itself: whatever the page and the platform do
    during the recorded iterations (scripts that throw, controls that are
    missing, requests that fail), the loop is still monitoring afterwards,
    the agent is still marked as running, and neither [stop] was entered
    nor the browser closed. *)
Theorem unlimited_budget_never_stops (env : BrowserStopEnv) (ticks : list Tick)
    (s : AgentState) :
  maxCalls cfg <= 0 -> isRunning s = true ->
  result_of (monitorCalls cfg env ticks s) = Ret StillRunning /\
  isRunning (state_of (monitorCalls cfg env ticks s)) = true /\
  Forall (fun a => is_call_action a = true) (trace_of (monitorCalls cfg env ticks s)).
Proof.
  intros Hmax. revert s.
  assert (Hb : forall c, budget_reached cfg c = false).
  { intros c. unfold budget_reached. replace (maxCalls cfg >? 0)%Z with false by lia.
    reflexivity. }
  induction ticks as [| tick rest IH]; intros s Hrun.
  - change (wp (monitorCalls cfg env [])
              (fun o s' t => o = Ret StillRunning /\ isRunning s' = true /\ calm t) s).
    cbn [monitorCalls]. apply wp_bind, wp_get. rewrite Hrun. cbn [negb].
    unfold iteration. apply wp_bind, wp_try_catch, wp_bind, wp_get.
    rewrite Hb. wp_run. rewrite Hrun. repeat split. solve_calm.
  - change (wp (monitorCalls cfg env (tick :: rest))
              (fun o s' t => o = Ret StillRunning /\ isRunning s' = true /\ calm t) s).
    cbn [monitorCalls]. apply wp_bind, wp_get. rewrite Hrun. cbn [negb].
    apply wp_bind. unfold iteration. apply wp_try_catch, wp_bind, wp_get.
    rewrite Hb. cbv beta iota.
    apply (wp_mono _ (fun o s' t => o <> Ret Break /\ isRunning s' = true /\ calm t)).
    + unfold detect_and_handle.
      repeat (first [ apply wp_handleCall_calm; intros ? ? ? ?
                    | wp_step ]; cbv beta iota).
      all: split; [discriminate | split; [cbn in *; congruence | solve_calm]].
    + intros o s1 t1 (Ho1 & Hr1 & Hc1).
      destruct o as [flow | e].
      * destruct flow.
        -- apply (wp_mono _ (fun o s' t => o = Ret StillRunning /\
                                            isRunning s' = true /\ calm t));
             [exact (IH s1 Hr1) |].
           intros o s2 t2 (Ho & Hr2 & Hc2). cbn [app].
           repeat split; auto. solve_calm.
        -- now destruct Ho1.
      * wp_run.
        apply (wp_mono _ (fun o s' t => o = Ret StillRunning /\
                                         isRunning s' = true /\ calm t));
          [apply IH; exact Hr1 |].
        intros o s2 t2 (Ho & Hr2 & Hc2). cbn [app].
        repeat split; auto. solve_calm.
Qed.

End BrowserCalls.

(** X15. [stop] of a running browser agent that holds a browser, in either
    version of the agent, closes the browser on every path, once or
    twice: twice exactly when both page steps went through and the close
    after them threw, since the handler of the error closes again. [stop]
    returns exactly when the page steps and that close went through or
    the close in the handler does; it throws only what the close in the
    handler throws. After a failed page step that close is the only one
    there is, and [stop] ends as it does. ([closeBrowser env] is what the
    close at the end of the [try] block does, [closeBrowserAgain env] what
    the close in the [catch] block does.) *)
Theorem stop_closes_browser :
  (forall (env : BrowserStopEnv) (s : PuppeteerAgent.AgentState),
      PuppeteerAgent.isRunning s = true -> PuppeteerAgent.browser s = true ->
      let t := trace_of (PuppeteerAgent.stop env s) in
      let r := result_of (PuppeteerAgent.stop env s) in
      (1 <= count is_close t <= 2)%nat /\
      (count is_close t = 2%nat <->
       exists a b e, statusClick env = Ret a /\ breakClick env = Ret b /\
                     closeBrowser env = Throw e) /\
      (r = Ret tt <->
       (exists a b, statusClick env = Ret a /\ breakClick env = Ret b /\
                    closeBrowser env = Ret tt) \/
       closeBrowserAgain env = Ret tt) /\
      (forall e, r = Throw e -> closeBrowserAgain env = Throw e) /\
      (forall e,
          statusClick env = Throw e \/
          (exists a, statusClick env = Ret a /\ breakClick env = Throw e) ->
          count is_close t = 1%nat /\ r = closeBrowserAgain env)) /\
  (forall (env : PreviousPuppeteerAgent.StopEnv) (s : PreviousPuppeteerAgent.AgentState),
      PreviousPuppeteerAgent.isRunning s = true ->
      PreviousPuppeteerAgent.browser s = true ->
      let t := trace_of (PreviousPuppeteerAgent.stop env s) in
      let r := result_of (PreviousPuppeteerAgent.stop env s) in
      (1 <= count is_close t <= 2)%nat /\
      (count is_close t = 2%nat <->
       exists a b e, PreviousPuppeteerAgent.availabilitySet env = Ret a /\
                     PreviousPuppeteerAgent.logoutSuccess env = Ret b /\
                     PreviousPuppeteerAgent.closeBrowser env = Throw e) /\
      (r = Ret tt <->
       (exists a b, PreviousPuppeteerAgent.availabilitySet env = Ret a /\
                    PreviousPuppeteerAgent.logoutSuccess env = Ret b /\
                    PreviousPuppeteerAgent.closeBrowser env = Ret tt) \/
       PreviousPuppeteerAgent.closeBrowserAgain env = Ret tt) /\
      (forall e, r = Throw e -> PreviousPuppeteerAgent.closeBrowserAgain env = Throw e) /\
      (forall e,
          PreviousPuppeteerAgent.availabilitySet env = Throw e \/
          (exists a, PreviousPuppeteerAgent.availabilitySet env = Ret a /\
                     PreviousPuppeteerAgent.logoutSuccess env = Throw e) ->
          count is_close t = 1%nat /\
          r = PreviousPuppeteerAgent.closeBrowserAgain env)).
Proof.
  split; intros env s Hrun Hbr; cbv zeta.
  - unfold PuppeteerAgent.stop, find_and_click. run_js. rewrite Hrun. cbn [negb].
    destruct (statusClick env) as [[] | e1]; cbn;
      destruct (breakClick env) as [[] | e2]; cbn;
      rewrite ?Hbr; cbn;
      destruct (closeBrowser env) as [[] | e3]; cbn;
      rewrite ?Hbr; cbn;
      destruct (closeBrowserAgain env) as [[] | e4]; cbn.
    all: split; [lia |].
    all: repeat split; intros;
      repeat match goal with
             | H : _ \/ _ |- _ => destruct H
             | H : exists _, _ |- _ => destruct H
             | H : _ /\ _ |- _ => destruct H
             end;
      try discriminate; try congruence; try lia; eauto 10.
  - unfold PreviousPuppeteerAgent.stop, read_page. run_js. rewrite Hrun. cbn [negb].
    destruct (PreviousPuppeteerAgent.availabilitySet env) as [[] | e1]; cbn;
      destruct (PreviousPuppeteerAgent.logoutSuccess env) as [[] | e2]; cbn;
      rewrite ?Hbr; cbn;
      destruct (PreviousPuppeteerAgent.closeBrowser env) as [[] | e3]; cbn;
      rewrite ?Hbr; cbn;
      destruct (PreviousPuppeteerAgent.closeBrowserAgain env) as [[] | e4]; cbn.
    all: split; [lia |].
    all: repeat split; intros;
      repeat match goal with
             | H : _ \/ _ |- _ => destruct H
             | H : exists _, _ |- _ => destruct H
             | H : _ /\ _ |- _ => destruct H
             end;
      try discriminate; try congruence; try lia; eauto 10.
Qed.

(** X21. [shutdown] leaves the process exactly once, as its last action:
    with the requested exit code when [stop] returned and with 1 when
    [stop] threw. For an agent that is already stopped it exits at once,
    with no further step. *)
Theorem shutdown_exits_once (exitCode : Z) (env : BrowserStopEnv)
    (s : PuppeteerAgent.AgentState) :
  let t := trace_of (Application.shutdown exitCode env s) in
  count is_exit t = 1%nat /\
  last t = Some (ProcessExit
                   match result_of (PuppeteerAgent.stop env s) with
                   | Ret _ => exitCode
                   | Throw _ => 1
                   end) /\
  (PuppeteerAgent.isRunning s = false -> t = [ProcessExit exitCode]).
Proof.
  cbv zeta. unfold Application.shutdown.
  assert (Hq : count is_exit (trace_of (PuppeteerAgent.stop env s)) = 0%nat).
  { change (wp (PuppeteerAgent.stop env) (fun _ _ t => count is_exit t = 0%nat) s).
    unfold PuppeteerAgent.stop. wp_run. all: reflexivity. }
  assert (Hs : PuppeteerAgent.isRunning s = false ->
               PuppeteerAgent.stop env s = (Ret tt, s, [])).
  { intros H. unfold PuppeteerAgent.stop, bind, get. now rewrite H. }
  unfold result_of, trace_of in *. run_js.
  destruct (PuppeteerAgent.stop env s) as [[[[] | e] s1] t1] eqn:E;
    cbn [fst snd app] in *.
  - rewrite count_app, Hq, last_snoc. cbn. repeat split.
    intros H. specialize (Hs H). now inversion Hs.
  - rewrite count_app, Hq.
    change (t1 ++ [LogError "Error during shutdown" (Some e); ProcessExit 1])
      with (t1 ++ [LogError "Error during shutdown" (Some e)] ++ [ProcessExit 1]).
    rewrite app_assoc, last_snoc. cbn. repeat split.
    intros H. specialize (Hs H). discriminate Hs.
Qed.

Lemma fallback_request_uses_page_session_witness :
  result_of (PuppeteerAgent.setDispositionViaAPI sample_config
               PuppeteerAgent.sample_call PuppeteerAgent.no_controls
               (PuppeteerAgent.started ConvosoAPI.initial)) = Ret tt /\
  ConvosoAPI.sessionId
    (PuppeteerAgent.api
       (state_of (PuppeteerAgent.setDispositionViaAPI sample_config
                    PuppeteerAgent.sample_call PuppeteerAgent.no_controls
                    (PuppeteerAgent.started ConvosoAPI.initial)))) = JStr "s-1".
Proof.
  destruct (fallback_request_uses_page_session sample_config
              PuppeteerAgent.sample_call PuppeteerAgent.no_controls
              (PuppeteerAgent.started ConvosoAPI.initial)
              [("PROJECTXSESS", "s1")] PuppeteerAgent.sample_session
              eq_refl eq_refl) as (Hres & _ & Hsid).
  split; [exact Hres | exact Hsid].
Defined.

Lemma unlimited_budget_never_stops_witness :
  result_of (PuppeteerAgent.monitorCalls sample_config PuppeteerAgent.sample_stop
               [PuppeteerAgent.sample_tick; PuppeteerAgent.sample_tick]
               (PuppeteerAgent.started ConvosoAPI.initial)) = Ret StillRunning.
Proof.
  refine (proj1 (unlimited_budget_never_stops sample_config PuppeteerAgent.sample_stop
                   [PuppeteerAgent.sample_tick; PuppeteerAgent.sample_tick]
                   (PuppeteerAgent.started ConvosoAPI.initial) _ eq_refl)).
  cbn. lia.
Defined.

(* --------------------------------------------------------------------- *)
(** ** PreviousPuppeteerAgent: one call, and the wait that succeeds *)
(* --------------------------------------------------------------------- *)

Section PreviousCalls.
Context (cfg : Config).
Import PreviousPuppeteerAgent.

(** A wait only reads the clock, looks at the phone state and sleeps. *)
Lemma waitLoop_quiet (f : Action -> bool) (expected : jsval) (timeoutMs : Z)
    (obs : nat -> Observation) (elapsedMs : Z) (i : nat) :
  (forall ms, f (Elapsed ms) = false) -> f (Page ReadPhoneState) = false ->
  f (Sleep 500) = false ->
  count f (waitLoop expected timeoutMs obs elapsedMs i).2 = 0%nat.
Proof.
  funelim (waitLoop expected timeoutMs obs elapsedMs i); intros He Hp Hs; cbn;
    rewrite ?He, ?Hp, ?Hs; try reflexivity.
  cbn. now apply H.
Qed.

Lemma wp_wait_quiet {S} (expected : jsval) (timeoutMs : Z)
    (obs : nat -> Observation) (Q : outcome bool -> S -> list Action -> Prop) (s : S) :
  (forall o t,
      count is_wrapup_click t = 0%nat -> count is_disposition_click t = 0%nat ->
      count is_disposition_request t = 0%nat -> count is_hangup_request t = 0%nat ->
      Q o s t) ->
  wp (waitForPhoneState expected timeoutMs obs) Q s.
Proof.
  intros H. unfold wp, waitForPhoneState, result_of, state_of, trace_of.
  cbn [fst snd]. apply H; apply waitLoop_quiet; reflexivity.
Qed.

Lemma prev_fallback_trace (ci : CallInfo) (env : CallEnv)
    (Q : outcome bool -> AgentState -> list Action -> Prop) (s : AgentState) :
  (forall o s' t,
      count is_wrapup_click t = 0%nat -> count is_disposition_click t = 0%nat ->
      (count is_disposition_request t <= 1)%nat -> count is_hangup_request t = 0%nat ->
      Q o s' t) ->
  wp (setDispositionViaAPI cfg ci env) Q s.
Proof.
  intros H. unfold wp. apply H.
  - change (wp (setDispositionViaAPI cfg ci env)
              (fun _ _ t => count is_wrapup_click t = 0%nat) s).
    unfold setDispositionViaAPI, on_api, ConvosoAPI.setDisposition. wp_run.
    all: reflexivity.
  - change (wp (setDispositionViaAPI cfg ci env)
              (fun _ _ t => count is_disposition_click t = 0%nat) s).
    unfold setDispositionViaAPI, on_api, ConvosoAPI.setDisposition. wp_run.
    all: reflexivity.
  - change (wp (setDispositionViaAPI cfg ci env)
              (fun _ _ t => (count is_disposition_request t <= 1)%nat) s).
    unfold setDispositionViaAPI, on_api, ConvosoAPI.setDisposition. wp_run.
    all: cbn; lia.
  - change (wp (setDispositionViaAPI cfg ci env)
              (fun _ _ t => count is_hangup_request t = 0%nat) s).
    unfold setDispositionViaAPI, on_api, ConvosoAPI.setDisposition. wp_run.
    all: reflexivity.
Qed.

(** X18. Within one [handleCall] of the previous browser agent WRAPUP is
    clicked at most once, the call is dispositioned by at most one action
    (a click on the disposition control or a REST disposition request),
    and no REST hangup is ever sent: this version ends calls through the
    page only. *)
Theorem previous_handleCall_acts_once (ci : CallInfo) (env : CallEnv) (s : AgentState) :
  let t := trace_of (handleCall cfg ci env s) in
  (count is_wrapup_click t <= 1)%nat /\
  (count is_disposition_click t + count is_disposition_request t <= 1)%nat /\
  count is_hangup_request t = 0%nat.
Proof.
  cbv zeta.
  assert (H : forall Q : outcome unit -> AgentState -> list Action -> Prop,
             (forall o s' t,
                 (count is_wrapup_click t <= 1)%nat ->
                 (count is_disposition_click t + count is_disposition_request t <= 1)%nat ->
                 count is_hangup_request t = 0%nat -> Q o s' t) ->
             wp (handleCall cfg ci env) Q s).
  { intros Q HQ. unfold handleCall.
    repeat (first [ apply wp_wait_quiet; intros ? ? ? ? ? ?
                  | apply prev_fallback_trace; intros ? ? ? ? ? ? ?
                  | wp_step ]; cbv beta iota).
    all: apply HQ.
    all: repeat first [rewrite count_app | progress cbn [app count is_wrapup_click
           is_disposition_click is_disposition_request is_hangup_request Nat.add]].
    all: lia. }
  apply (H (fun _ _ t =>
              (count is_wrapup_click t <= 1)%nat /\
              (count is_disposition_click t + count is_disposition_request t <= 1)%nat /\
              count is_hangup_request t = 0%nat)).
  intros; repeat split; assumption.
Qed.

(** X19. The wait for a phone state succeeds whenever it can: if the look
    number [k] shows the expected state, the looks before it showed
    another state, and look [k] starts before the timeout (every earlier
    look took its evaluation time and the 500 ms sleep), then the wait
    returns [true] after exactly [k + 1] looks. *)
Theorem waitForPhoneState_finds_state {S} (expected : jsval) (timeoutMs : Z)
    (obs : nat -> Observation) (k : nat) (s : S) :
  (forall j, (j < k)%nat -> miss expected (obs j)) ->
  seen (obs k) = Ret expected ->
  look_start obs k < timeoutMs ->
  result_of (waitForPhoneState expected timeoutMs obs s) = Ret true /\
  count is_observation (trace_of (waitForPhoneState expected timeoutMs obs s)) =
    Datatypes.S k.
Proof.
  intros Hmiss Hseen Htime.
  unfold waitForPhoneState, result_of, trace_of. cbn [fst snd].
  apply (waitLoop_finds expected timeoutMs obs k 0 0); cbn; auto.
Qed.

End PreviousCalls.

Lemma waitForPhoneState_finds_state_witness :
  result_of (PreviousPuppeteerAgent.waitForPhoneState (S := unit) (JNum 2) 10000
               PreviousPuppeteerAgent.recovering_phone tt) = Ret true /\
  count PreviousPuppeteerAgent.is_observation
    (trace_of (PreviousPuppeteerAgent.waitForPhoneState (S := unit) (JNum 2) 10000
                 PreviousPuppeteerAgent.recovering_phone tt)) = 3%nat.
Proof.
  apply (waitForPhoneState_finds_state (JNum 2) 10000
           PreviousPuppeteerAgent.recovering_phone 2 tt).
  - intros [| [| j]] Hj; [| | lia];
      (exists (JNum 3); split; [reflexivity | discriminate]).
  - reflexivity.
  - reflexivity.
Defined.

(* --------------------------------------------------------------------- *)
(** ** CallLogMerger: normalisation, CSV lines, the lookup, the join *)
(* --------------------------------------------------------------------- *)

Lemma normalizePhone_phone_shaped (phone : option string) :
  phone_shaped (CallLogMerger.normalizePhone phone) = true.
Proof.
  destruct phone as [p |]; [| reflexivity].
  unfold CallLogMerger.normalizePhone.
  destruct (String.eqb p ""); [reflexivity |]. cbv zeta.
  set (t := if startsWith (trim p) "+7"
            then ("+1" ++ substring_from 2 (trim p))%string else trim p).
  destruct (startsWith t "+").
  - change ("+" ++ ?d)%string with (String "+" d). cbn.
    apply remove_non_digits_all_digits.
  - pose proof (remove_non_digits_all_digits t) as Hd.
    set (d := remove_non_digits t) in *.
    destruct (String.length d =? 10)%nat.
    + change ("+1" ++ d)%string with (String "+" (String "1" d)). cbn. exact Hd.
    + destruct ((String.length d =? 11)%nat && startsWith d "1").
      * change ("+" ++ d)%string with (String "+" d). cbn. exact Hd.
      * destruct d as [| c r]; [reflexivity |].
        cbn in Hd |- *. apply andb_true_iff in Hd as [Hc Hr].
        destruct c as [[] [] [] [] [] [] [] []];
          try (vm_compute in Hc; discriminate Hc);
          cbn; rewrite ?Hr; reflexivity.
Qed.

(** X22. A normalised number is empty, a string of digits, or a plus sign
    followed by digits: every other character of the input is gone, and
    a plus sign is kept only in the first place. *)
Theorem normalizePhone_shape (phone : option string) :
  exists d,
    all_digits d = true /\
    (CallLogMerger.normalizePhone phone = d \/
     CallLogMerger.normalizePhone phone = String "+" d).
Proof.
  pose proof (normalizePhone_phone_shaped phone) as H.
  destruct (CallLogMerger.normalizePhone phone) as [| c r]; [exists ""; auto |].
  destruct (Ascii.eqb_spec c "+") as [-> | Hne]; [exists r; auto |].
  exists (String c r). split; [| auto].
  destruct c as [[] [] [] [] [] [] [] []]; try exact H. now destruct Hne.
Qed.

(** A normalised number that begins with [+7]: the second pass turns the
    7 into a 1 and changes nothing else. *)
Lemma normalizePhone_plus7 (d : string) :
  all_digits d = true ->
  CallLogMerger.normalizePhone (Some (String "+" (String "7" d))) =
  String "+" (String "1" d).
Proof.
  intros Hd. unfold CallLogMerger.normalizePhone.
  rewrite nonempty_eqb.
  rewrite trim_id by (cbn; now rewrite all_digits_no_space).
  cbv zeta.
  assert (H7 : startsWith (String "+" (String "7" d)) "+7" = true).
  { unfold startsWith. cbn. apply startsWith_empty. }
  rewrite H7. cbn [substring_from].
  change ("+1" ++ d)%string with (String "+" (String "1" d)).
  rewrite startsWith_plus. cbn [substring_from].
  change (remove_non_digits (String "1" d)) with (String "1" (remove_non_digits d)).
  rewrite remove_non_digits_id by exact Hd. reflexivity.
Qed.

Lemma startsWith_plus7_inv (s : string) :
  startsWith s "+7" = true -> exists d, s = String "+" (String "7" d).
Proof.
  unfold startsWith. destruct s as [| a [| b d]]; cbn [String.prefix];
    try discriminate.
  - destruct (ascii_dec "+" a); discriminate.
  - destruct (ascii_dec "+" a) as [<- |]; [| discriminate].
    destruct (ascii_dec "7" b) as [<- |]; [| discriminate]. eauto.
Qed.

(** X23. Normalisation settles after at most two passes. The second pass
    changes the first result only when that result begins with [+7], and
    then only by turning this 7 into a 1; a third pass changes nothing. *)
Theorem normalizePhone_settles (phone : option string) :
  let once := CallLogMerger.normalizePhone phone in
  let twice := CallLogMerger.normalizePhone (Some once) in
  twice = (if startsWith once "+7"
           then ("+1" ++ substring_from 2 once)%string else once) /\
  CallLogMerger.normalizePhone (Some twice) = twice.
Proof.
  cbv zeta.
  pose proof (normalizePhone_phone_shaped phone) as Hshape.
  destruct (startsWith (CallLogMerger.normalizePhone phone) "+7") eqn:H7.
  - destruct (startsWith_plus7_inv _ H7) as [d Hd].
    rewrite Hd in *. cbn in Hshape.
    rewrite normalizePhone_plus7 by exact Hshape.
    split; [reflexivity |].
    apply normalizePhone_plus_digits; [cbn; exact Hshape | reflexivity].
  - rewrite normalizePhone_idempotent_unless_plus7 by exact H7.
    split; [reflexivity |].
    now apply normalizePhone_idempotent_unless_plus7.
Qed.

Section Merger.
Import CallLogMerger.

Lemma double_quotes_id (s : string) :
  has_char dquote s = false -> double_quotes s = s.
Proof.
  induction s as [| c r IH]; [reflexivity |]. cbn.
  intros H. apply orb_false_iff in H as [Hc Hr]. now rewrite Hc, IH.
Qed.

(** A run of characters without a double quote is appended to the field
    being read; inside quotes it may hold commas. *)
Lemma scanLine_run (f : string) :
  forall (rest current : string) (inQuotes : bool) (values : list string),
    has_char dquote f = false ->
    inQuotes = true \/ has_char "," f = false ->
    scanLine (f ++ rest) current inQuotes values =
    scanLine rest (current ++ f) inQuotes values.
Proof.
  induction f as [| c r IH]; intros rest current inQuotes values Hq Hc.
  - now rewrite string_app_nil_l, string_app_nil_r.
  - cbn in Hq. apply orb_false_iff in Hq as [Hq1 Hq2].
    rewrite string_app_cons. cbn [scanLine]. rewrite Hq1.
    assert (Hcomma : Ascii.eqb c "," && negb inQuotes = false).
    { destruct Hc as [-> | Hc]; [apply andb_false_r |].
      cbn in Hc. apply orb_false_iff in Hc as [Hc _]. now rewrite Hc. }
    rewrite Hcomma, IH.
    + f_equal. now rewrite string_app_assoc.
    + exact Hq2.
    + destruct Hc as [Hc | Hc]; [now left | right].
      cbn in Hc. now apply orb_false_iff in Hc as [_ Hc].
Qed.

(** Reading one written field: the scanner is left outside quotes with the
    field as its current value. *)
Lemma scanLine_field (f rest : string) (values : list string) :
  has_char dquote f = false -> has_char newline f = false ->
  scanLine (csvField f ++ rest) "" false values = scanLine rest f false values.
Proof.
  intros Hq Hn. unfold csvField. rewrite !includes_char, Hq, Hn, !orb_false_r.
  destruct (has_char "," f) eqn:Hc.
  - rewrite double_quotes_id by exact Hq.
    rewrite string_app_cons. cbn [scanLine].
    change (Ascii.eqb dquote dquote) with true. cbn [negb].
    rewrite string_app_assoc, scanLine_run by (auto || exact Hq).
    rewrite string_app_cons, string_app_nil_l. cbn [scanLine].
    change (Ascii.eqb dquote dquote) with true. cbn [negb].
    reflexivity.
  - rewrite scanLine_run by (auto || exact Hq). reflexivity.
Qed.

Lemma join_cons (sep x y : string) (l : list string) :
  join sep (x :: y :: l) = (x ++ sep ++ join sep (y :: l))%string.
Proof. reflexivity. Qed.

Lemma scanLine_fields (fields : list string) :
  forall (f : string) (values : list string),
    Forall (fun x => has_char dquote x = false /\ has_char newline x = false)
           (f :: fields) ->
    scanLine (join "," (map csvField (f :: fields))) "" false values =
    values ++ map trim (f :: fields).
Proof.
  induction fields as [| g fields IH]; intros f values Hall.
  - inversion Hall as [| ? ? [Hq Hn] _]; subst.
    change (join "," (map csvField [f])) with (csvField f).
    rewrite <- (string_app_nil_r (csvField f)).
    rewrite scanLine_field by assumption. reflexivity.
  - inversion Hall as [| ? ? [Hq Hn] Hrest]; subst.
    change (map csvField (f :: g :: fields))
      with (csvField f :: csvField g :: map csvField fields).
    rewrite join_cons.
    rewrite scanLine_field by assumption.
    rewrite string_app_cons, string_app_nil_l. cbn [scanLine].
    change (Ascii.eqb "," dquote) with false.
    change (Ascii.eqb "," "," && negb false) with true. cbv iota.
    change (csvField g :: map csvField fields) with (map csvField (g :: fields)).
    rewrite IH by exact Hrest.
    rewrite <- app_assoc. reflexivity.
Qed.

Lemma plain_spec (f : string) :
  plain f = true ->
  has_char dquote f = false /\ has_char newline f = false /\ trim f = f.
Proof.
  unfold plain. intros H.
  apply andb_true_iff in H as [H Ht]. apply andb_true_iff in H as [Hq Hn].
  apply negb_true_iff in Hq, Hn. apply String.eqb_eq in Ht. auto.
Qed.

(** X24. A line that [toCSV] writes is read back by the field scanner of
    [parseCSV] as the fields it was written from, commas inside fields
    included, provided no field holds a double quote or a line feed or
    begins or ends with white space. *)
Theorem toCSV_line_round_trip (f : string) (fields : list string) :
  Forall (fun x => plain x = true) (f :: fields) ->
  parseLine (join "," (map csvField (f :: fields))) = f :: fields.
Proof.
  intros Hall. unfold parseLine. rewrite scanLine_fields.
  - cbn [app]. clear -Hall. induction Hall as [| x l Hx _ IH]; [reflexivity |].
    cbn [map]. rewrite IH. f_equal. now apply plain_spec in Hx as (_ & _ & Hx).
  - eapply Forall_impl; [exact Hall |].
    intros x Hx. apply plain_spec in Hx as (? & ? & _). auto.
Qed.

Lemma scanLine_no_quote (line : string) :
  forall (current : string) (inQuotes : bool) (values : list string),
    has_char dquote current = false ->
    Forall (fun v => has_char dquote v = false) values ->
    Forall (fun v => has_char dquote v = false)
           (scanLine line current inQuotes values).
Proof.
  induction line as [| c rest IH]; intros current inQuotes values Hc Hv;
    cbn [scanLine].
  - apply Forall_app. split; [exact Hv |].
    constructor; [now apply has_char_trim | constructor].
  - destruct (Ascii.eqb c dquote) eqn:Eq; [now apply IH |].
    destruct (Ascii.eqb c "," && negb inQuotes).
    + apply IH; [reflexivity |].
      apply Forall_app. split; [exact Hv |].
      constructor; [now apply has_char_trim | constructor].
    + apply IH; [| exact Hv].
      rewrite has_char_app. cbn. now rewrite Hc, Eq.
Qed.

(** X25. The field scanner of [parseCSV] drops every double quote: no
    value it returns holds one. So a field that holds a double quote is
    never read back, however the line was written (the doubled quotes that
    [toCSV] writes for it are dropped like any other). *)
Theorem parseLine_drops_quotes (line : string) :
  (forall v, In v (parseLine line) -> has_char dquote v = false) /\
  (forall fields f,
      In f fields -> has_char dquote f = true -> parseLine line <> fields).
Proof.
  assert (H : forall v, In v (parseLine line) -> has_char dquote v = false).
  { pose proof (scanLine_no_quote line "" false [] eq_refl ltac:(constructor)) as Hall.
    rewrite List.Forall_forall in Hall. exact Hall. }
  split; [exact H |].
  intros fields f Hin Hq Heq. rewrite <- Heq in Hin.
  rewrite (H f Hin) in Hq. discriminate Hq.
Qed.

(** What the lookup holds for [phone] after one more row. *)
Lemma addSpamRow_keeps_latest (rows : list (gmap string string))
    (lookup : gmap string SpamData) (row : gmap string string) (phone : string) :
  match lookup !! phone with
  | Some known =>
      phone <> "" /\
      (exists r, In r rows /\ normalizePhone (r !! "Number") = phone /\
                 known = spamDataOf r) /\
      (forall r, In r rows -> normalizePhone (r !! "Number") = phone ->
                 gt_string (timestampOf r) (timestamp known) = false)
  | None =>
      forall r, In r rows -> normalizePhone (r !! "Number") = phone -> phone = ""
  end ->
  match addSpamRow lookup row !! phone with
  | Some known =>
      phone <> "" /\
      (exists r, In r (rows ++ [row]) /\ normalizePhone (r !! "Number") = phone /\
                 known = spamDataOf r) /\
      (forall r, In r (rows ++ [row]) -> normalizePhone (r !! "Number") = phone ->
                 gt_string (timestampOf r) (timestamp known) = false)
  | None =>
      forall r, In r (rows ++ [row]) -> normalizePhone (r !! "Number") = phone ->
                phone = ""
  end.
Proof.
  intros Inv. unfold addSpamRow. cbv zeta.
  set (p := normalizePhone (row !! "Number")).
  assert (Hold : forall known,
             lookup !! phone = Some known -> p <> phone \/ p = "" ->
             phone <> "" /\
             (exists r, In r (rows ++ [row]) /\ normalizePhone (r !! "Number") = phone /\
                        known = spamDataOf r) /\
             (forall r, In r (rows ++ [row]) -> normalizePhone (r !! "Number") = phone ->
                        gt_string (timestampOf r) (timestamp known) = false)).
  { intros known Hk Hp. rewrite Hk in Inv. destruct Inv as (Hne & (r & Hin & Hr & Hd) & Hmax).
    split; [exact Hne |]. split.
    - exists r. split; [apply in_or_app; now left | auto].
    - intros r' Hin' Hr'. apply in_app_or in Hin' as [Hin' | [<- | []]]; [now apply Hmax |].
      fold p in Hr'. destruct Hp as [Hp | Hp]; congruence. }
  assert (Hnone : lookup !! phone = None -> p <> phone \/ p = "" ->
                  forall r, In r (rows ++ [row]) ->
                            normalizePhone (r !! "Number") = phone -> phone = "").
  { intros Hk Hp r Hin Hr. rewrite Hk in Inv.
    apply in_app_or in Hin as [Hin | [<- | []]]; [now apply (Inv r) |].
    fold p in Hr. destruct Hp as [Hp | Hp]; congruence. }
  destruct (String.eqb_spec p "") as [Hp0 | Hp0]; cbn [negb].
  { destruct (lookup !! phone) as [known |] eqn:Hk; [apply Hold | apply Hnone]; auto. }
  destruct (decide (p = phone)) as [Hpp | Hpp].
  2:{ assert (Hsame : forall m : gmap string SpamData,
                 (m = lookup \/ m = <[p := spamDataOf row]> lookup) ->
                 m !! phone = lookup !! phone).
      { intros m [-> | ->]; [reflexivity | now apply lookup_insert_ne]. }
      assert (Hcase : forall m : gmap string SpamData,
                 (m = lookup \/ m = <[p := spamDataOf row]> lookup) ->
                 match m !! phone with
                 | Some known =>
                     phone <> "" /\
                     (exists r, In r (rows ++ [row]) /\
                                normalizePhone (r !! "Number") = phone /\
                                known = spamDataOf r) /\
                     (forall r, In r (rows ++ [row]) ->
                                normalizePhone (r !! "Number") = phone ->
                                gt_string (timestampOf r) (timestamp known) = false)
                 | None =>
                     forall r, In r (rows ++ [row]) ->
                               normalizePhone (r !! "Number") = phone -> phone = ""
                 end).
      { intros m Hm. rewrite (Hsame m Hm).
        destruct (lookup !! phone) as [known |] eqn:Hk; [apply Hold | apply Hnone]; auto. }
      destruct (lookup !! p) as [kp |]; [destruct (gt_string _ _) |]; apply Hcase; auto. }
  subst phone.
  destruct (lookup !! p) as [known |] eqn:Hk.
  - destruct Inv as (Hne & (r0 & Hin0 & Hr0 & Hd0) & Hmax).
    destruct (gt_string (timestampOf row) (timestamp known)) eqn:Hgt.
    + rewrite lookup_insert_eq. split; [exact Hne |]. split.
      * exists row. split; [apply in_or_app; right; now left | auto].
      * intros r Hin Hr. cbn [timestamp spamDataOf].
        apply in_app_or in Hin as [Hin | [<- | []]]; [| apply gt_string_irrefl].
        apply (gt_string_raise _ (timestamp known)); [now apply Hmax | exact Hgt].
    + rewrite Hk. split; [exact Hne |]. split.
      * exists r0. split; [apply in_or_app; now left | auto].
      * intros r Hin Hr.
        apply in_app_or in Hin as [Hin | [<- | []]]; [now apply Hmax | exact Hgt].
  - rewrite lookup_insert_eq. split; [exact Hp0 |]. split.
    + exists row. split; [apply in_or_app; right; now left | auto].
    + intros r Hin Hr. cbn [timestamp spamDataOf].
      apply in_app_or in Hin as [Hin | [<- | []]]; [| apply gt_string_irrefl].
      now destruct (Hp0 (Inv r Hin Hr)).
Qed.

Lemma spamLookup_invariant (spamRows : list (gmap string string)) (phone : string) :
  match createSpamLookup spamRows !! phone with
  | Some known =>
      phone <> "" /\
      (exists row, In row spamRows /\ normalizePhone (row !! "Number") = phone /\
                   known = spamDataOf row) /\
      (forall row, In row spamRows -> normalizePhone (row !! "Number") = phone ->
                   gt_string (timestampOf row) (timestamp known) = false)
  | None =>
      forall row, In row spamRows -> normalizePhone (row !! "Number") = phone ->
                  phone = ""
  end.
Proof.
  unfold createSpamLookup.
  induction spamRows as [| row rows IH] using rev_ind.
  - cbn. rewrite lookup_empty. intros r [].
  - rewrite fold_left_app. cbn [fold_left].
    now apply addSpamRow_keeps_latest.
Qed.

(** X26. The spam lookup has an entry for a number exactly when the number
    is not empty and some spam row normalises to it. The entry is built
    from one of those rows, and no row of that number has a later
    timestamp (date and time compared as text) than the row it is built
    from. *)
Theorem createSpamLookup_keeps_latest (spamRows : list (gmap string string))
    (phone : string) :
  (is_Some (createSpamLookup spamRows !! phone) <->
   phone <> "" /\
   exists row, In row spamRows /\ normalizePhone (row !! "Number") = phone) /\
  (forall known,
      createSpamLookup spamRows !! phone = Some known ->
      exists row,
        In row spamRows /\ normalizePhone (row !! "Number") = phone /\
        known = spamDataOf row /\
        forall row', In row' spamRows -> normalizePhone (row' !! "Number") = phone ->
                     gt_string (timestampOf row') (timestampOf row) = false).
Proof.
  pose proof (spamLookup_invariant spamRows phone) as H.
  destruct (createSpamLookup spamRows !! phone) as [known |].
  - destruct H as (Hne & (row & Hin & Hrow & ->) & Hmax). split.
    + split; [intros _; eauto | intros _; eauto].
    + intros known' [= <-]. exists row. repeat split; auto.
  - split.
    + split; [intros [? [=]] |].
      intros (Hne & row & Hin & Hrow). destruct Hne. now apply (H row).
    + intros known [=].
Qed.

Lemma findSpam_first (lookup : gmap string SpamData) (pre : list (option string)) :
  forall (f : option string) (post : list (option string)) (known : SpamData),
    (forall g, In g pre ->
               normalizePhone g = "" \/ lookup !! normalizePhone g = None) ->
    normalizePhone f <> "" -> lookup !! normalizePhone f = Some known ->
    findSpam lookup (pre ++ f :: post) = Some (normalizePhone f, known).
Proof.
  induction pre as [| g pre IH]; intros f post known Hpre Hf Hk; cbn [app findSpam].
  - destruct (String.eqb_spec (normalizePhone f) "") as [E | _]; [now destruct Hf |].
    cbn [negb]. now rewrite Hk.
  - destruct (Hpre g (or_introl eq_refl)) as [Hg | Hg].
    + rewrite Hg. cbn. apply IH; auto. intros g' Hin. apply Hpre. now right.
    + rewrite Hg. destruct (negb _); apply IH; auto; intros g' Hin; apply Hpre; now right.
Qed.

Lemma findSpam_none (lookup : gmap string SpamData) (fields : list (option string)) :
  (forall g, In g fields ->
             normalizePhone g = "" \/ lookup !! normalizePhone g = None) ->
  findSpam lookup fields = None.
Proof.
  induction fields as [| g fields IH]; intros H; [reflexivity |]. cbn [findSpam].
  destruct (H g (or_introl eq_refl)) as [Hg | Hg]; rewrite Hg.
  - cbn. apply IH. intros g' Hin. apply H. now right.
  - destruct (negb _); apply IH; intros g' Hin; apply H; now right.
Qed.

Ltac map_lookups :=
  repeat first [ rewrite lookup_insert_eq
               | rewrite lookup_insert_ne by discriminate ].

(** X27. The join is on normalised numbers, field by field: when a phone
    field of a call normalises to a number that is not empty and that
    some spam row normalises to, and no earlier phone field of the call
    does so, the merged row names that number as [matched_phone] and
    carries the label, date and time of a spam row of that number than
    which none is later. *)
Theorem mergeRow_joins_latest_label (spamRows : list (gmap string string))
    (call : gmap string string)
    (pre : list (option string)) (f : option string) (post : list (option string)) :
  phoneFields call = pre ++ f :: post ->
  (forall g row, In g pre -> In row spamRows ->
                 normalizePhone g = "" \/
                 normalizePhone (row !! "Number") <> normalizePhone g) ->
  normalizePhone f <> "" ->
  (exists row, In row spamRows /\ normalizePhone (row !! "Number") = normalizePhone f) ->
  exists row,
    In row spamRows /\ normalizePhone (row !! "Number") = normalizePhone f /\
    (forall row', In row' spamRows ->
                  normalizePhone (row' !! "Number") = normalizePhone f ->
                  gt_string (timestampOf row') (timestampOf row) = false) /\
    mergeRow (createSpamLookup spamRows) call !! "matched_phone" =
      Some (Some (normalizePhone f)) /\
    mergeRow (createSpamLookup spamRows) call !! "spam_label" =
      Some (row !! "Label") /\
    mergeRow (createSpamLookup spamRows) call !! "spam_detected_date" =
      Some (row !! "Date") /\
    mergeRow (createSpamLookup spamRows) call !! "spam_detected_time" =
      Some (row !! "Time").
Proof.
  intros Hfields Hpre Hf (row0 & Hin0 & Hrow0).
  pose proof (spamLookup_invariant spamRows (normalizePhone f)) as H.
  destruct (createSpamLookup spamRows !! normalizePhone f) as [known |] eqn:Hk.
  2:{ now destruct Hf, (H row0). }
  destruct H as (_ & (row & Hin & Hrow & ->) & Hmax).
  exists row. split; [exact Hin |]. split; [exact Hrow |]. split; [exact Hmax |].
  unfold mergeRow. rewrite Hfields.
  rewrite (findSpam_first _ pre f post (spamDataOf row)); [| | exact Hf | exact Hk].
  - cbn [label date time spamDataOf].
    repeat split; map_lookups; reflexivity.
  - intros g Hg.
    pose proof (spamLookup_invariant spamRows (normalizePhone g)) as Hg'.
    destruct (createSpamLookup spamRows !! normalizePhone g) as [kg |]; [| now right].
    destruct Hg' as (Hne & (r & Hr & Hnum & _) & _).
    destruct (Hpre g r Hg Hr) as [E | E]; [now left | now destruct E].
Qed.

(** X28. [mergeLogs] returns one row per call, in order. Each merged row
    keeps every column of its call under any name other than the four
    added ones, always has the four added columns, and reads
    [No Label] with an empty [matched_phone] when none of the three phone
    fields of the call normalises to a key of the lookup. *)
Theorem mergeLogs_keeps_calls (convosoRows : list (gmap string string))
    (spamLookup : gmap string SpamData) :
  length (mergeLogs convosoRows spamLookup) = length convosoRows /\
  forall i call,
    nth_error convosoRows i = Some call ->
    exists merged,
      nth_error (mergeLogs convosoRows spamLookup) i = Some merged /\
      (forall k, ~ In k addedHeaders -> merged !! k = Some <$> (call !! k)) /\
      (forall k, In k addedHeaders -> is_Some (merged !! k)) /\
      ((forall g, In g (phoneFields call) ->
                  normalizePhone g = "" \/ spamLookup !! normalizePhone g = None) ->
       fieldOf merged "spam_label" = "No Label" /\
       fieldOf merged "matched_phone" = "").
Proof.
  unfold mergeLogs. split; [apply length_map |].
  intros i call Hi. exists (mergeRow spamLookup call).
  split; [now apply map_nth_error |].
  split; [| split].
  - intros k Hk. unfold mergeRow.
    assert (Hne : k <> "matched_phone" /\ k <> "spam_detected_time" /\
                  k <> "spam_detected_date" /\ k <> "spam_label").
    { unfold addedHeaders in Hk. cbn in Hk. repeat split; intros ->; tauto. }
    destruct Hne as (H1 & H2 & H3 & H4).
    destruct (findSpam spamLookup (phoneFields call)) as [[p d] |];
      rewrite !lookup_insert_ne by congruence; apply lookup_fmap.
  - intros k Hk. unfold mergeRow.
    destruct (findSpam spamLookup (phoneFields call)) as [[p d] |];
      cbn in Hk; destruct Hk as [<- | [<- | [<- | [<- | []]]]];
      map_lookups; eauto.
  - intros Hnone. unfold mergeRow, fieldOf.
    rewrite findSpam_none by exact Hnone.
    split; map_lookups; reflexivity.
Qed.

End Merger.

Lemma toCSV_line_round_trip_witness :
  CallLogMerger.parseLine
    (join "," (map CallLogMerger.csvField ["Doe, Jane"; "NOCONT"; ""])) =
  ["Doe, Jane"; "NOCONT"; ""].
Proof.
  apply (toCSV_line_round_trip "Doe, Jane" ["NOCONT"; ""]).
  repeat constructor.
Defined.

(** A field that begins with a no-break space is not read back as it
    was written: [trim] strips U+00A0 like any other white space. *)
Example no_break_space_is_trimmed :
  plain (String "160" "a") = false /\
  CallLogMerger.parseLine (CallLogMerger.csvField (String "160" "a")) = ["a"].
Proof. split; reflexivity. Qed.

Lemma mergeRow_joins_latest_label_witness :
  exists row,
    In row sample_spam_rows /\
    CallLogMerger.normalizePhone (row !! "Number") =
      CallLogMerger.normalizePhone (Some "(555) 123-4567") /\
    (forall row', In row' sample_spam_rows ->
                  CallLogMerger.normalizePhone (row' !! "Number") =
                    CallLogMerger.normalizePhone (Some "(555) 123-4567") ->
                  gt_string (CallLogMerger.timestampOf row')
                            (CallLogMerger.timestampOf row) = false) /\
    CallLogMerger.mergeRow (CallLogMerger.createSpamLookup sample_spam_rows)
      sample_call_row !! "matched_phone" =
      Some (Some (CallLogMerger.normalizePhone (Some "(555) 123-4567"))) /\
    CallLogMerger.mergeRow (CallLogMerger.createSpamLookup sample_spam_rows)
      sample_call_row !! "spam_label" = Some (row !! "Label") /\
    CallLogMerger.mergeRow (CallLogMerger.createSpamLookup sample_spam_rows)
      sample_call_row !! "spam_detected_date" = Some (row !! "Date") /\
    CallLogMerger.mergeRow (CallLogMerger.createSpamLookup sample_spam_rows)
      sample_call_row !! "spam_detected_time" = Some (row !! "Time").
Proof.
  apply (mergeRow_joins_latest_label sample_spam_rows sample_call_row
           [None] (Some "(555) 123-4567") [None]).
  - vm_compute. reflexivity.
  - intros g row [<- | []] _. left. reflexivity.
  - vm_compute. discriminate.
  - eexists. split; [left; reflexivity | vm_compute; reflexivity].
Defined.

(** The merge of the two sample files. *)
Example merge_sample :
  CallLogMerger.merge CallLogMerger.sample_calls_csv CallLogMerger.sample_spam_csv =
  ("id,phone_number,status,spam_label,spam_detected_date,spam_detected_time,matched_phone"
   ++ String newline
      ("1,(555) 123-4567,NOCONT,Spam Likely,2025-01-02,10:00:00,+15551234567"
       ++ String newline "2,5550000000,NOCONT,No Label,,,"))%string.
Proof. vm_compute. reflexivity. Qed.

(* --------------------------------------------------------------------- *)
(** ** Helpers.retry and the environment check *)
(* --------------------------------------------------------------------- *)

Section Retry.
Import Helpers.

Lemma first_success_spec {A} (fn : nat -> outcome A) (n : nat) :
  forall i,
    match first_success fn i n with
    | Some k => (i <= k < i + n)%nat /\ (exists a, fn k = Ret a) /\
                forall j, (i <= j < k)%nat -> exists e, fn j = Throw e
    | None => forall j, (i <= j < i + n)%nat -> exists e, fn j = Throw e
    end.
Proof.
  induction n as [| n IH]; intros i; cbn [first_success].
  - intros j Hj. lia.
  - destruct (fn i) as [a | e] eqn:Ei.
    + split; [lia |]. split; [eauto |]. intros j Hj. lia.
    + specialize (IH (S i)). destruct (first_success fn (S i) n) as [k |].
      * destruct IH as (Hk & Ha & Hbefore). split; [lia |]. split; [exact Ha |].
        intros j Hj. destruct (Nat.eq_dec j i) as [-> | Hne]; [eauto |].
        apply Hbefore. lia.
      * intros j Hj. destruct (Nat.eq_dec j i) as [-> | Hne]; [eauto |].
        apply IH. lia.
Qed.

Lemma retryFrom_run {St A} (fn : nat -> outcome A) (maxRetries delayMs : Z) (n : nat) :
  forall (i : nat) (s : St),
    Z.of_nat i + Z.of_nat n = maxRetries ->
    retryFrom fn maxRetries delayMs i n s =
    match first_success fn i n with
    | Some k =>
        (match fn k with Ret a => Ret (Some a) | Throw e => Throw e end, s,
         map (fun j => Sleep (delayMs * 2 ^ Z.of_nat j)) (seq i (k - i)))
    | None =>
        (match n with
         | O => Ret None
         | S n' => match fn (i + n')%nat with
                   | Ret a => Ret (Some a)
                   | Throw e => Throw e
                   end
         end, s,
         map (fun j => Sleep (delayMs * 2 ^ Z.of_nat j)) (seq i (n - 1)))
    end.
Proof.
  induction n as [| n IH]; intros i s Hmax; [reflexivity |].
  cbn [retryFrom first_success].
  replace (Z.of_nat i <? maxRetries)%Z with true by lia.
  destruct (fn i) as [a | e] eqn:Ei.
  - unfold try_catch, bind, of_outcome, ret. cbn. rewrite Ei, Nat.sub_diag. reflexivity.
  - unfold try_catch, bind, of_outcome, ret. cbn [fst snd].
    destruct n as [| n].
    + replace (Z.of_nat i =? maxRetries - 1)%Z with true by lia.
      cbn. rewrite Nat.add_0_r, Ei. reflexivity.
    + replace (Z.of_nat i =? maxRetries - 1)%Z with false by lia.
      unfold throw, emit. cbn [app].
      rewrite (IH (S i) s) by lia.
      pose proof (first_success_spec fn (S n) (S i)) as Hspec.
      destruct (first_success fn (S i) (S n)) as [k |].
      * destruct Hspec as (Hk & _ & _).
        replace (k - i)%nat with (S (k - S i)) by lia. cbn [seq map app].
        reflexivity.
      * replace (i + S n)%nat with (S i + n)%nat by lia.
        replace (S (S n) - 1)%nat with (S (S n - 1)) by lia. cbn [seq map app].
        reflexivity.
Qed.

Lemma slept_backoff (delayMs : Z) (k : nat) :
  slept (backoff delayMs k) = delayMs * (2 ^ Z.of_nat k - 1).
Proof.
  unfold backoff.
  assert (H : forall i, slept (map (fun j => Sleep (delayMs * 2 ^ Z.of_nat j)) (seq i k)) =
                        delayMs * 2 ^ Z.of_nat i * (2 ^ Z.of_nat k - 1)).
  { induction k as [| k IH]; intros i; [cbn; lia |].
    cbn [seq map slept]. rewrite IH.
    rewrite !Nat2Z.inj_succ, !Z.pow_succ_r by lia. lia. }
  rewrite H. cbn. lia.
Qed.

(** X29. [retry] leaves the state alone and backs off exponentially. With
    [maxRetries] at most 0 it returns [undefined] at once. When call
    number [k] of [fn] is the first to return, [k] below [maxRetries], it
    returns that result after the waits [delayMs * 2^i] for [i < k], which
    add up to [delayMs * (2^k - 1)]. When the first [maxRetries] calls all
    throw it rethrows the error of the last one, having waited after every
    failure but the last. *)
Theorem retry_backs_off {St A} (fn : nat -> outcome A) (maxRetries delayMs : Z)
    (s : St) :
  let r := retry fn maxRetries delayMs s in
  state_of r = s /\
  (maxRetries <= 0 -> result_of r = Ret None /\ trace_of r = []) /\
  (forall k a,
      Z.of_nat k < maxRetries -> fn k = Ret a ->
      (forall j, (j < k)%nat -> exists e, fn j = Throw e) ->
      result_of r = Ret (Some a) /\ trace_of r = backoff delayMs k /\
      slept (trace_of r) = delayMs * (2 ^ Z.of_nat k - 1)) /\
  (forall e,
      0 < maxRetries ->
      (forall j, Z.of_nat j < maxRetries - 1 -> exists e', fn j = Throw e') ->
      fn (Z.to_nat (maxRetries - 1)) = Throw e ->
      result_of r = Throw e /\
      trace_of r = backoff delayMs (Z.to_nat (maxRetries - 1))).
Proof.
  cbv zeta. unfold retry.
  destruct (Z_le_gt_dec maxRetries 0) as [Hle | Hgt].
  - replace (Z.to_nat maxRetries) with O by lia. cbn.
    repeat split; intros; lia.
  - rewrite retryFrom_run by lia.
    pose proof (first_success_spec fn (Z.to_nat maxRetries) 0) as Hspec.
    destruct (first_success fn 0 (Z.to_nat maxRetries)) as [k0 |].
    + destruct Hspec as (Hk0 & [a0 Ha0] & Hbefore).
      split; [reflexivity |]. split; [intros; lia |]. split.
      * intros k a Hk Ha Hfail.
        assert (k = k0) as ->.
        { destruct (Nat.lt_trichotomy k k0) as [Hlt | [-> | Hlt]]; [| reflexivity |].
          - destruct (Hbefore k ltac:(lia)) as [e He]. congruence.
          - destruct (Hfail k0 Hlt) as [e He]. congruence. }
        unfold result_of, trace_of. cbn [fst snd]. rewrite Ha, Nat.sub_0_r.
        fold (backoff delayMs k0). rewrite slept_backoff. auto.
      * intros e Hpos Hfail Hlast. exfalso.
        destruct (Nat.eq_dec k0 (Z.to_nat (maxRetries - 1))) as [-> | Hne]; [congruence |].
        destruct (Hfail k0 ltac:(lia)) as [e' He']. congruence.
    + split; [reflexivity |]. split; [intros; lia |]. split.
      * intros k a Hk Ha _. exfalso.
        destruct (Hspec k ltac:(lia)) as [e He]. congruence.
      * intros e Hpos Hfail Hlast.
        destruct (Z.to_nat maxRetries) as [| n] eqn:En; [lia |].
        replace (Z.to_nat (maxRetries - 1)) with n in * by lia.
        unfold result_of, trace_of. cbn [fst snd Nat.add].
        rewrite Hlast. replace (S n - 1)%nat with n by lia. auto.
Qed.

End Retry.

(** A third call that succeeds, with the default three tries and one
    second: waits of one and two seconds. *)
Example retry_third_time :
  Helpers.retry (S := unit)
    (fun i => if (i <? 2)%nat then Throw (Error "busy") else Ret i) 3 1000 tt =
  (Ret (Some 2%nat), tt, [Sleep 1000; Sleep 2000]).
Proof. reflexivity. Qed.

Example formatDuration_minutes :
  Helpers.formatDuration 75 = "1m 15s" /\ Helpers.formatDuration 59 = "59s".
Proof. split; reflexivity. Qed.

(** X30. [validateEnv] returns exactly when the three required variables
    are all set to a non-empty value; otherwise it throws, and the message
    of the error names every required variable that is unset or empty. *)
Theorem validateEnv_names_missing (env : gmap string string) :
  (Environment.validateEnv env = Ret tt <->
   forall key, In key Environment.required ->
               exists v, env !! key = Some v /\ v <> "") /\
  (forall key, In key Environment.required -> Environment.unset env key = true ->
     exists msg, Environment.validateEnv env = Throw (Error msg) /\
                 includes msg key = true).
Proof.
  assert (Hset : forall key, Environment.unset env key = false <->
                             exists v, env !! key = Some v /\ v <> "").
  { intros key. unfold Environment.unset. destruct (env !! key) as [v |].
    - destruct (String.eqb_spec v "") as [-> | Hne].
      + split; [discriminate | intros (v & [= <-] & Hv); now destruct Hv].
      + split; [eauto | reflexivity].
    - split; [discriminate | intros (v & [=] & _)]. }
  unfold Environment.validateEnv, Environment.required. cbn [List.filter In].
  destruct (Environment.unset env "CONVOSO_USERNAME") eqn:E1,
           (Environment.unset env "CONVOSO_PASSWORD") eqn:E2,
           (Environment.unset env "CAMPAIGN_ID") eqn:E3; cbn [length Nat.ltb Nat.leb].
  all: split;
    [ split;
      [ try discriminate; intros _ key [<- | [<- | [<- | []]]]; now apply Hset
      | intros H; try reflexivity; exfalso;
        pose proof (proj2 (Hset _) (H "CONVOSO_USERNAME" ltac:(tauto)));
        pose proof (proj2 (Hset _) (H "CONVOSO_PASSWORD" ltac:(tauto)));
        pose proof (proj2 (Hset _) (H "CAMPAIGN_ID" ltac:(tauto)));
        congruence ]
    | intros key [<- | [<- | [<- | []]]] Hk; try congruence;
      eexists; (split; [reflexivity | vm_compute; reflexivity]) ].
Qed.

(* --------------------------------------------------------------------- *)
(** ** A shutdown that fails twice, and a third try that succeeds *)
(* --------------------------------------------------------------------- *)

Lemma stop_closes_browser_witness :
  count is_close
    (trace_of (PuppeteerAgent.stop sample_failing_stop
                 (PuppeteerAgent.started ConvosoAPI.initial))) = 1%nat /\
  result_of (PuppeteerAgent.stop sample_failing_stop
               (PuppeteerAgent.started ConvosoAPI.initial)) =
    Throw (PageError "close failed").
Proof.
  exact (proj2 (proj2 (proj2 (proj2
           (proj1 stop_closes_browser sample_failing_stop
              (PuppeteerAgent.started ConvosoAPI.initial) eq_refl eq_refl))))
           (PageError "detached") (or_introl eq_refl)).
Defined.

Lemma retry_backs_off_witness :
  result_of (Helpers.retry (S := unit)
               (fun i => if (i <? 2)%nat then Throw (Error "busy") else Ret i)
               3 1000 tt) = Ret (Some 2%nat) /\
  trace_of (Helpers.retry (S := unit)
              (fun i => if (i <? 2)%nat then Throw (Error "busy") else Ret i)
              3 1000 tt) = Helpers.backoff 1000 2 /\
  Helpers.slept
    (trace_of (Helpers.retry (S := unit)
                 (fun i => if (i <? 2)%nat then Throw (Error "busy") else Ret i)
                 3 1000 tt)) = 1000 * (2 ^ Z.of_nat 2 - 1).
Proof.
  apply (proj1 (proj2 (proj2
           (retry_backs_off (St := unit)
              (fun i => if (i <? 2)%nat then Throw (Error "busy") else Ret i)
              3 1000 tt))) 2%nat 2%nat).
  - reflexivity.
  - reflexivity.
  - intros [| [| j]] Hj; [eexists; reflexivity | eexists; reflexivity | lia].
Defined.
